(** * Flax: the prefetch iterator and the linen module binder

    A shallow embedding of [flax/training/prefetch_iterator.py] and of the
    binder of [flax/linen/module.py], followed by the properties of the
    specification that concern them. *)

From Stdlib Require Import ZArith Lia.
From stdpp Require Import base option list strings gmap pretty.

Local Open Scope Z_scope.

(** ** Python exceptions and results, shared by both parts *)

Module Py.

(** The exception classes the two files raise, catch or test for. *)
Inductive exc_class :=
| StopIteration
| ValueError
| RuntimeError
| NameError
| AttributeError
| TypeError
| RecursionError
| AssertionError
| OtherException      (* any other subclass of [Exception] *)
| BaseExceptionOnly.  (* a [BaseException] that is not an [Exception] *)

(** [isinstance(e, Exception)], the test of [except Exception]. *)
Definition is_Exception (c : exc_class) : bool :=
  match c with BaseExceptionOnly => false | _ => true end.

(** An exception object: its class, the outcome of [bool(e)] (true unless
    the class overrides truth testing), its message, and an identity. *)
Record exc := Exc {
  exc_class_of : exc_class;
  exc_truthy : bool;
  exc_msg : string;
  exc_id : nat
}.

Definition raise_ (c : exc_class) (msg : string) : exc :=
  {| exc_class_of := c; exc_truthy := true; exc_msg := msg; exc_id := 0 |}.

Inductive result (A : Type) :=
| Ok (a : A)
| Raise (e : exc).
Arguments Ok {A} a.
Arguments Raise {A} e.

End Py.

(** ** [flax/training/prefetch_iterator.py] *)

Module PrefetchIterator.
Import Py.

Section WithItem.
Context {item : Type}.

(** One call of [next(self._data_iter)]. *)
Inductive outcome :=
| Yield (v : item)
| Throw (e : exc).

(** Where the worker thread running [_prefetch_loop] stands. *)
Inductive worker_pc :=
| AtNext                (* line 78, before [next(self._data_iter)] *)
| HaveItem (v : item)   (* line 79, item in hand, before the lock *)
| HaveError (e : exc)   (* line 86, exception caught, before the lock *)
| Waiting               (* line 82, inside [wait_for(_predicate)] *)
| Finished.             (* returned, or killed by an uncaught exception *)

(** The iterator object together with its worker.  [_data_iter] gives the
    outcome of the k-th call to the wrapped source and [data_calls] counts
    the calls made so far.  [constructed] tells whether [__init__] has
    executed its last statement [self._error = None] (line 49), which comes
    after the worker has been started (line 48). *)
Record iterator := Iterator {
  _data_iter : nat -> outcome;
  data_calls : nat;
  buffer_size : Z;
  _buffer : list item;
  _active : bool;
  _error : option exc;
  worker : worker_pc;
  constructed : bool
}.

Definition set_buffer (b : list item) (s : iterator) : iterator :=
  Iterator (_data_iter s) (data_calls s) (buffer_size s) b (_active s)
           (_error s) (worker s) (constructed s).

Definition set_active (a : bool) (s : iterator) : iterator :=
  Iterator (_data_iter s) (data_calls s) (buffer_size s) (_buffer s) a
           (_error s) (worker s) (constructed s).

Definition set_error (e : option exc) (s : iterator) : iterator :=
  Iterator (_data_iter s) (data_calls s) (buffer_size s) (_buffer s)
           (_active s) e (worker s) (constructed s).

Definition set_worker (pc : worker_pc) (s : iterator) : iterator :=
  Iterator (_data_iter s) (data_calls s) (buffer_size s) (_buffer s)
           (_active s) (_error s) pc (constructed s).

Definition advance (s : iterator) : iterator :=
  Iterator (_data_iter s) (S (data_calls s)) (buffer_size s) (_buffer s)
           (_active s) (_error s) (worker s) (constructed s).

(** [__init__] up to and including [self._thread.start()]. *)
Definition __init__ (data_iter : nat -> outcome) (buffer_size : Z) : iterator :=
  {| _data_iter := data_iter; data_calls := 0; buffer_size := buffer_size;
     _buffer := []; _active := true; _error := None;
     worker := AtNext; constructed := false |}.

(** The last statement of [__init__]. *)
Definition finish_init (s : iterator) : iterator :=
  Iterator (_data_iter s) (data_calls s) (buffer_size s) (_buffer s)
           (_active s) None (worker s) true.

(** The source built from a Python list-like sequence: it yields the items
    and then raises [final] (a [StopIteration] for plain exhaustion). *)
Definition iter_of (items : list item) (final : exc) : nat -> outcome :=
  fun k => match items !! k with
           | Some v => Yield v
           | None => Throw final
           end.

(** [_predicate] of [_prefetch_loop]. *)
Definition _predicate (s : iterator) : bool :=
  (Z.of_nat (length (_buffer s)) <? buffer_size s) || negb (_active s).

(** What the worker does once [wait_for(_predicate)] has returned:
    [if not self._active: return], otherwise the next loop iteration. *)
Definition after_wait (s : iterator) : iterator :=
  if _active s then set_worker AtNext s else set_worker Finished s.

(** What one worker step did. *)
Inductive worker_action :=
| Fetched (v : item)
| Caught (e : exc)
| Died (e : exc)
| Appended (v : item)
| Woke
| Recorded (e : exc).

(** One atomic step of [_prefetch_loop]; [None] when the worker cannot move
    (blocked in [wait_for], or finished).  The lock is held from the append
    to the point where [wait_for] finds its predicate false. *)
Definition _prefetch_loop (s : iterator) : option (worker_action * iterator) :=
  match worker s with
  | AtNext =>
      match _data_iter s (data_calls s) with
      | Yield v => Some (Fetched v, set_worker (HaveItem v) (advance s))
      | Throw e =>
          if is_Exception (exc_class_of e)
          then Some (Caught e, set_worker (HaveError e) (advance s))
          else Some (Died e, set_worker Finished (advance s))
      end
  | HaveItem v =>
      let s1 := set_buffer (_buffer s ++ [v]) s in
      if _predicate s1
      then Some (Appended v, after_wait s1)
      else Some (Appended v, set_worker Waiting s1)
  | Waiting =>
      if _predicate s then Some (Woke, after_wait s) else None
  | HaveError e =>
      Some (Recorded e, set_worker Finished (set_active false (set_error (Some e) s)))
  | Finished => None
  end.

(** What a call of [__next__] gives its caller. *)
Inductive next_result :=
| Returned (v : item)      (* line 60 *)
| Reraised (e : exc)       (* line 62, [raise self._error] *)
| AssertFailed             (* line 63 *)
| StopRaised.              (* line 64, a fresh [StopIteration()] *)

(** The truth value of a list. *)
Definition truthy (l : list item) : bool :=
  match l with [] => false | _ :: _ => true end.

(** [__next__]; [None] while [wait_for] blocks the caller. *)
Definition __next__ (s : iterator) : option (next_result * iterator) :=
  if truthy (_buffer s) || negb (_active s) then
    match _buffer s with
    | v :: rest => Some (Returned v, set_buffer rest s)
    | [] =>
        match _error s with
        | Some e =>
            if exc_truthy e then Some (Reraised e, s)
            else if _active s then Some (AssertFailed, s)
            else Some (StopRaised, s)
        | None =>
            if _active s then Some (AssertFailed, s)
            else Some (StopRaised, s)
        end
    end
  else None.

Definition close (s : iterator) : iterator := set_active false s.

(** The caller of [__next__] sees the end of the sequence when a
    [StopIteration] reaches it, whichever statement raised it. *)
Definition signals_end (r : next_result) : bool :=
  match r with
  | StopRaised => true
  | Reraised e => match exc_class_of e with StopIteration => true | _ => false end
  | _ => false
  end.

(** *** Interleavings of the constructor, the worker and the consumer *)

Inductive event :=
| EvInitDone
| EvWorker (a : worker_action)
| EvNext (r : next_result)
| EvClose.

(** The consumer holds the object only once [__init__] has returned. *)
Inductive step : iterator -> event -> iterator -> Prop :=
| step_init s :
    constructed s = false -> step s EvInitDone (finish_init s)
| step_worker s a s' :
    _prefetch_loop s = Some (a, s') -> step s (EvWorker a) s'
| step_next s r s' :
    constructed s = true -> __next__ s = Some (r, s') -> step s (EvNext r) s'
| step_close s :
    constructed s = true -> step s EvClose (close s).

Inductive run : iterator -> list event -> iterator -> Prop :=
| run_nil s : run s [] s
| run_cons s e s1 tr s2 : step s e s1 -> run s1 tr s2 -> run s (e :: tr) s2.

(** The threads that take the steps of an interleaving. *)
Inductive thread := Constructor | Worker | Consumer | Closer.

Definition thread_of (e : event) : thread :=
  match e with
  | EvInitDone => Constructor
  | EvWorker _ => Worker
  | EvNext _ => Consumer
  | EvClose => Closer
  end.

(** The one step the given thread can take, if any. *)
Definition thread_step (k : thread) (s : iterator) : option (event * iterator) :=
  match k with
  | Constructor => if constructed s then None else Some (EvInitDone, finish_init s)
  | Worker =>
      match _prefetch_loop s with
      | Some (a, s') => Some (EvWorker a, s')
      | None => None
      end
  | Consumer =>
      if constructed s then
        match __next__ s with
        | Some (r, s') => Some (EvNext r, s')
        | None => None
        end
      else None
  | Closer => if constructed s then Some (EvClose, close s) else None
  end.

(** The interleaving a schedule produces; [None] when it schedules a
    thread that cannot move. *)
Fixpoint interleave (ks : list thread) (s : iterator)
    : option (list event * iterator) :=
  match ks with
  | [] => Some ([], s)
  | k :: rest =>
      match thread_step k s with
      | None => None
      | Some (e, s1) =>
          match interleave rest s1 with
          | Some (tr, s2) => Some (e :: tr, s2)
          | None => None
          end
      end
  end.

(** What the consumer observed, and what the worker appended. *)
Definition results (tr : list event) : list next_result :=
  omap (fun e => match e with EvNext r => Some r | _ => None end) tr.

Definition received (tr : list event) : list item :=
  omap (fun e => match e with EvNext (Returned v) => Some v | _ => None end) tr.

Definition produced (tr : list event) : list item :=
  omap (fun e => match e with EvWorker (Appended v) => Some v | _ => None end) tr.


Definition close_free (tr : list event) : Prop := EvClose ∉ tr.

(** The items among the first [n] outcomes of the source. *)
Definition source_items (src : nat -> outcome) (n : nat) : list item :=
  omap (fun k => match src k with Yield v => Some v | Throw _ => None end) (seq 0 n).

(** The item the worker holds between the fetch and the append. *)
Definition in_hand (pc : worker_pc) : list item :=
  match pc with HaveItem v => [v] | _ => [] end.

(** What [__next__] raises on an empty buffer once the iterator is inactive. *)
Definition drained_result (s : iterator) : next_result :=
  match _error s with
  | Some e => if exc_truthy e then Reraised e else StopRaised
  | None => StopRaised
  end.

(** A source none of whose exceptions escapes [except Exception]. *)
Definition catchable (src : nat -> outcome) : Prop :=
  forall k e, src k = Throw e -> is_Exception (exc_class_of e) = true.

(** How the position of the worker, the flag [_active], the number of
    calls made to the source and [_error] hang together while nobody calls
    [close] and the source yields [items] and then raises [fin]. *)
Definition worker_invariant (items : list item) (fin : exc) (s : iterator) : Prop :=
  match worker s with
  | AtNext | HaveItem _ | Waiting =>
      _active s = true /\ (data_calls s <= length items)%nat /\ _error s = None
  | HaveError e =>
      e = fin /\ _active s = true /\ data_calls s = S (length items) /\
      _error s = None
  | Finished =>
      _active s = false /\ data_calls s = S (length items) /\
      (_error s = None \/ _error s = Some fin)
  end.


(** How many more calls to the source, and how many more appends, the
    worker can make once the iterator is inactive. *)
Definition calls_left (pc : worker_pc) : nat :=
  match pc with AtNext => 1 | _ => 0 end.

Definition appends_left (pc : worker_pc) : nat :=
  match pc with AtNext | HaveItem _ => 1 | _ => 0 end.

(** A consumer that blocks in [__next__] lets the worker run. *)
Fixpoint blocking_next (fuel : nat) (s : iterator) : option (next_result * iterator) :=
  match __next__ s with
  | Some r => Some r
  | None =>
      match fuel with
      | O => None
      | S f =>
          match _prefetch_loop s with
          | Some (_, s') => blocking_next f s'
          | None => None
          end
      end
  end.

(** [n] successive calls of [__next__] by such a consumer. *)
Fixpoint consume (n : nat) (s : iterator) : list next_result :=
  match n with
  | O => []
  | S k =>
      match blocking_next 4 s with
      | Some (r, s') => r :: consume k s'
      | None => []
      end
  end.

(** The ordering guarantee read for every buffer depth: for a source that
    yields [items] and is then exhausted, some interleaving hands the
    consumer every item, in order, followed by an end-of-sequence signal. *)
Definition delivers_every_item : Prop :=
  forall (bs : Z) (items : list item) (stop : exc),
    exc_class_of stop = StopIteration ->
    exists tr s r,
      run (__init__ (iter_of items stop) bs) tr s /\
      signals_end r = true /\
      results tr = map Returned items ++ [r].

End WithItem.
Arguments outcome : clear implicits.
Arguments worker_pc : clear implicits.
Arguments iterator : clear implicits.
Arguments worker_action : clear implicits.
Arguments next_result : clear implicits.
Arguments event : clear implicits.

(** Two exception objects for the scenarios of section 8 of the spec: the
    [StopIteration] of an exhausted source, and an error of the source. *)
Definition exhausted : exc := Exc StopIteration true "" 1.
Definition boom : exc := Exc OtherException true "boom" 2.

(** An exception that is not an [Exception], such as [SystemExit]. *)
Definition sys_exit : exc := Exc BaseExceptionOnly true "exit" 3.

(** The scenario "source yields 1, 2, 3 then exhausts", buffer depth 1,
    as one interleaving. *)
Definition trace_123 : list (event Z) :=
  [EvInitDone;
   EvWorker (Fetched 1); EvWorker (Appended 1); EvNext (Returned 1);
   EvWorker Woke; EvWorker (Fetched 2); EvWorker (Appended 2); EvNext (Returned 2);
   EvWorker Woke; EvWorker (Fetched 3); EvWorker (Appended 3); EvNext (Returned 3);
   EvWorker Woke; EvWorker (Caught exhausted); EvWorker (Recorded exhausted);
   EvNext (Reraised exhausted)].


(** An iterator of depth 2 whose buffer holds 1 and 2 while the worker waits. *)
Definition two_buffered : iterator Z :=
  Iterator (iter_of [1; 2; 3] exhausted) 2 2 [1; 2] true None Waiting true.

(** Where the three scenarios end. *)
Definition final_123 : iterator Z :=
  Iterator (iter_of [1; 2; 3] exhausted) 4 1 [] false (Some exhausted) Finished true.


Definition trace_closed : list (event Z) :=
  [EvNext (Returned 1); EvWorker Woke; EvNext (Returned 2); EvNext StopRaised].

Definition final_closed : iterator Z :=
  Iterator (iter_of [1; 2; 3] exhausted) 2 2 [] false None Finished true.

End PrefetchIterator.

(** ** [flax/linen/module.py] *)

Module Linen.
Import Py.

(** Identity of a [Module] instance. *)
Definition loc := nat.

(** A scope handle.  The spec identifies a scope by its path of names
    from the root. *)
Definition scope := list string.

(** [_ModuleInternalState] (lines 271-287). *)
Record _ModuleInternalState := InternalState {
  in_compact_method : bool;
  in_setup : bool;
  last_varname : option string;
  autoname_cursor : option (gmap string Z)
}.

(** [_ModuleInternalState()], also what [reset] leaves behind. *)
Definition new_state : _ModuleInternalState :=
  InternalState false false None (Some ∅).

Definition reset (_ : _ModuleInternalState) : _ModuleInternalState :=
  InternalState false false None (Some ∅).

(** Line 289: the object installed as [cls._state] on every subclass. *)
Definition _uninitialized_module_internal_state : _ModuleInternalState :=
  InternalState false false None None.

(** The Python values that attributes of a module hold. *)
#[warnings="-register-all"]
Inductive pyval :=
| PyNone
| PyInt (z : Z)
| PyStr (s : string)
| PyTuple (xs : list pyval)
| PyList (xs : list pyval)
| PyDict (d : list (string * pyval))
| PyArray (a : nat)                    (* an ndarray, opaque *)
| PyUnspecifiedParent                  (* [_unspecified_parent] *)
| PyModule (l : loc)
| PyScope (sc : scope)
| PyState (st : _ModuleInternalState).

(** A class attribute as [_verify_single_or_no_compact] looks at it. *)
Record member := Member {
  is_callable : bool;      (* [callable(v)] *)
  has_compact : bool       (* [hasattr(v, 'compact')] *)
}.

(** A [Module] subclass after [__init_subclass__]: its name, the names of
    its dataclass fields in order (user fields, then [parent] and [name]),
    and the [__dict__] of every class of its [__mro__], itself first. *)
Record pyclass := PyClass {
  __name__ : string;
  __dataclass_fields__ : list string;
  __mro__ : list (gmap string member)
}.

Record instance := Instance {
  __class__ : pyclass;
  __dict__ : gmap string pyval
}.

(** Modelled from the spec: the scope / variable store of [flax.core.scope],
    which is not among the sources.  Section 3 of the spec: variables are
    keyed by scope path, collection and name; each scope has a set of
    reserved names.  [init_runs] counts the initializer calls made. *)
Record scope_store := ScopeStore {
  store_variables : gmap (scope * string * string) pyval;
  store_reservations : gmap scope (gset string);
  init_runs : nat
}.

(** Everything the binder reads or mutates. *)
Record world := World {
  heap : gmap loc instance;
  module_stack : list pyval;     (* [_context.module_stack], top first *)
  shared_state : _ModuleInternalState;
                                 (* the object of line 289, shared by all
                                    instances without a [_state] of their own *)
  scopes : scope_store;
  omnistaging_enabled : bool     (* [jax.config.omnistaging_enabled] *)
}.

Definition set_heap (h : gmap loc instance) (w : world) : world :=
  World h (module_stack w) (shared_state w) (scopes w) (omnistaging_enabled w).
Definition set_module_stack (s : list pyval) (w : world) : world :=
  World (heap w) s (shared_state w) (scopes w) (omnistaging_enabled w).
Definition set_shared_state (st : _ModuleInternalState) (w : world) : world :=
  World (heap w) (module_stack w) st (scopes w) (omnistaging_enabled w).
Definition set_scopes (ss : scope_store) (w : world) : world :=
  World (heap w) (module_stack w) (shared_state w) ss (omnistaging_enabled w).

(** *** Computations that read and write the world and may raise *)

Definition M (A : Type) : Type := world -> result A * world.

Definition ret {A} (a : A) : M A := fun w => (Ok a, w).
Definition throw {A} (c : exc_class) (msg : string) : M A :=
  fun w => (Raise (raise_ c msg), w).
Definition bind {A B} (m : M A) (k : A -> M B) : M B :=
  fun w => match m w with
           | (Ok a, w1) => k a w1
           | (Raise e, w1) => (Raise e, w1)
           end.

(** [try: body finally: cleanup]; an exception of the cleanup replaces the
    outcome of the body. *)
Definition try_finally {A} (body : M A) (cleanup : M unit) : M A :=
  fun w => match body w with
           | (r, w1) =>
               match cleanup w1 with
               | (Ok _, w2) => (r, w2)
               | (Raise e, w2) => (Raise e, w2)
               end
           end.

Declare Scope py_scope.
Delimit Scope py_scope with py.
Notation "x <- m ;; k" := (bind m (fun x => k))
  (at level 100, m at next level, right associativity) : py_scope.
Notation "m ;; k" := (bind m (fun _ => k))
  (at level 100, right associativity) : py_scope.
Local Open Scope py_scope.

Definition get_world : M world := fun w => (Ok w, w).
Definition modify (f : world -> world) : M unit := fun w => (Ok tt, f w).

(** Dereference an instance; a dangling identity is outside Python. *)
Definition instance_of (l : loc) : M instance :=
  fun w => match heap w !! l with
           | Some i => (Ok i, w)
           | None => (Raise (raise_ OtherException "no such object"), w)
           end.

(** [object.__setattr__(self, name, val)]. *)
Definition object_setattr (self : loc) (name : string) (val : pyval) : M unit :=
  i <- instance_of self ;;
  modify (fun w =>
    set_heap (<[self := Instance (__class__ i) (<[name := val]> (__dict__ i))]> (heap w)) w).

(** Class-level attributes every subclass has after [__init_subclass__] and
    the dataclass transform: [_state] (line 346), [scope] (347), [name]
    (371) and the default of [parent] (369). *)
Definition class_attr (w : world) (name : string) : option pyval :=
  if String.eqb name "_state" then Some (PyState (shared_state w))
  else if String.eqb name "scope" then Some PyNone
  else if String.eqb name "name" then Some PyNone
  else if String.eqb name "parent" then Some PyUnspecifiedParent
  else None.

(** [getattr(self, name)]: the instance dictionary, then the class. *)
Definition getattr (self : loc) (name : string) : M pyval :=
  i <- instance_of self ;;
  w <- get_world ;;
  match __dict__ i !! name with
  | Some v => ret v
  | None =>
      match class_attr w name with
      | Some v => ret v
      | None => throw AttributeError ("object has no attribute '" +:+ name +:+ "'")
      end
  end.

(** [self._state], which must be an internal-state object to be used. *)
Definition state_of (self : loc) : M _ModuleInternalState :=
  v <- getattr self "_state" ;;
  match v with
  | PyState st => ret st
  | _ => throw AttributeError "object has no attribute of _ModuleInternalState"
  end.

(** An assignment [self._state.<field> = ...]: it mutates the state object
    the attribute lookup finds, the instance's own or the shared one. *)
Definition update_state (self : loc)
    (f : _ModuleInternalState -> _ModuleInternalState) : M unit :=
  i <- instance_of self ;;
  match __dict__ i !! "_state" with
  | Some (PyState st) =>
      modify (fun w =>
        set_heap (<[self := Instance (__class__ i)
                              (<["_state" := PyState (f st)]> (__dict__ i))]> (heap w)) w)
  | Some _ => throw AttributeError "object has no attribute of _ModuleInternalState"
  | None => modify (fun w => set_shared_state (f (shared_state w)) w)
  end.

Definition set_in_compact_method (b : bool) (st : _ModuleInternalState) :=
  InternalState b (in_setup st) (last_varname st) (autoname_cursor st).
Definition set_in_setup (b : bool) (st : _ModuleInternalState) :=
  InternalState (in_compact_method st) b (last_varname st) (autoname_cursor st).
Definition set_last_varname (n : option string) (st : _ModuleInternalState) :=
  InternalState (in_compact_method st) (in_setup st) n (autoname_cursor st).
Definition set_autoname_cursor (c : option (gmap string Z)) (st : _ModuleInternalState) :=
  InternalState (in_compact_method st) (in_setup st) (last_varname st) c.

(** [self.scope] when it is a scope; [None] and anything else have none of
    the attributes of a scope. *)
Definition scope_of (self : loc) : M scope :=
  v <- getattr self "scope" ;;
  match v with
  | PyScope sc => ret sc
  | _ => throw AttributeError "object has no attribute of Scope"
  end.

(** Names are strings (the field is annotated [name: str]). *)
Definition as_name (v : pyval) : M string :=
  match v with
  | PyStr s => ret s
  | _ => throw TypeError "name is not a string"
  end.

(** *** The scope interface *)

Definition reservations (ss : scope_store) (sc : scope) : gset string :=
  default ∅ (store_reservations ss !! sc).

Definition reserve (sc : scope) (name : string) (ss : scope_store) : scope_store :=
  ScopeStore (store_variables ss)
             (<[sc := {[name]} ∪ reservations ss sc]> (store_reservations ss))
             (init_runs ss).

(** Modelled from the spec: [Scope.variable], "create on first use, else
    return existing and ignore initializer"; the declared name joins the
    reservations of the scope. *)
Definition scope_variable (sc : scope) (col name : string)
    (init_fn : list pyval -> result pyval) (init_args : list pyval) : M pyval :=
  fun w =>
    let ss := scopes w in
    match store_variables ss !! (sc, col, name) with
    | Some v => (Ok v, set_scopes (reserve sc name ss) w)
    | None =>
        match init_fn init_args with
        | Ok v =>
            (Ok v, set_scopes (reserve sc name
                     (ScopeStore (<[(sc, col, name) := v]> (store_variables ss))
                                 (store_reservations ss) (S (init_runs ss)))) w)
        | Raise e =>
            (Raise e, set_scopes (ScopeStore (store_variables ss)
                                   (store_reservations ss) (S (init_runs ss))) w)
        end
    end.

(** Modelled from the spec: [Scope.param], a variable of the collection
    named "params". *)
Definition scope_param (sc : scope) (name : string)
    (init_fn : list pyval -> result pyval) (init_args : list pyval) : M pyval :=
  scope_variable sc "params" name init_fn init_args.

(** Modelled from the spec: [Scope.push], the child scope for a name, which
    the parent scope reserves. *)
Definition scope_push (sc : scope) (name : string) : M scope :=
  fun w => (Ok (sc ++ [name]), set_scopes (reserve sc name (scopes w)) w).

(** Modelled from the spec: [Scope.rewound], which resets the bookkeeping of
    the scope and leaves the stored variables alone. *)
Definition scope_rewound (sc : scope) : M scope :=
  fun w =>
    let ss := scopes w in
    (Ok sc, set_scopes (ScopeStore (store_variables ss)
                          (<[sc := ∅]> (store_reservations ss)) (init_runs ss)) w).

(** *** Helpers of [module.py] *)

(** [_check_omnistaging] (lines 44-49); the message has three lines. *)
Definition newline : string := String (Ascii.ascii_of_nat 10) "".

Definition omnistaging_msg : string :=
  "Flax linen API requires JAX omnistaging to be enabled:" +:+ newline +:+
  "  from jax.config import config" +:+ newline +:+
  "  config.enable_omnistaging()".

Definition _check_omnistaging : M unit :=
  w <- get_world ;;
  if omnistaging_enabled w then ret tt
  else throw RuntimeError omnistaging_msg.

(** [_all_names_on_object] (lines 154-165). *)
Definition _all_names_on_object (obj : instance) : gset string :=
  foldl (fun nameset d => nameset ∪ dom d) (dom (__dict__ obj)) (__mro__ (__class__ obj)).

(** [Module._name_taken] (lines 525-527). *)
Definition _name_taken (self : loc) (name : string) : M bool :=
  sc <- scope_of self ;;
  i <- instance_of self ;;
  w <- get_world ;;
  ret (bool_decide (name ∈ reservations (scopes w) sc)
       || bool_decide (name ∈ _all_names_on_object i)).

(** [Module._initialization_allowed] (lines 529-531). *)
Definition _initialization_allowed (self : loc) : M bool :=
  st <- state_of self ;;
  ret (in_setup st || in_compact_method st).

(** [self.children[name] = v]. *)
Fixpoint dict_set (d : list (string * pyval)) (k : string) (v : pyval)
    : list (string * pyval) :=
  match d with
  | [] => [(k, v)]
  | (k', v') :: rest =>
      if String.eqb k' k then (k', v) :: rest else (k', v') :: dict_set rest k v
  end.

Definition children_set (self : loc) (name : string) (v : pyval) : M unit :=
  c <- getattr self "children" ;;
  match c with
  | PyDict d =>
      i <- instance_of self ;;
      modify (fun w =>
        set_heap (<[self := Instance (__class__ i)
                     (<["children" := PyDict (dict_set d name v)]> (__dict__ i))]> (heap w)) w)
  | _ => throw TypeError "object does not support item assignment"
  end.

(** *** [Module.variable] and [Module.param] *)

(** [Module.variable] (lines 549-582).  Its parameters are [self], [col],
    [name], [init_fn] and [init_args]; line 580 passes [kind], which is
    neither one of them nor a name bound in the file, so evaluating the
    argument list raises [NameError] before [self.scope.variable] is
    called, and lines 581-582 do not run. *)
Definition variable (self : loc) (col name : string)
    (init_fn : list pyval -> result pyval) (init_args : list pyval) : M pyval :=
  allowed <- _initialization_allowed self ;;
  if negb allowed then
    throw ValueError
      "Variables must be initialized in `setup()` or in a method wrapped in `@compact`"
  else
    taken <- _name_taken self name ;;
    if (taken : bool) then
      i <- instance_of self ;;
      throw ValueError
        ("Name " +:+ name +:+ " already in use in " +:+ __name__ (__class__ i) +:+ ".")
    else
      update_state self (set_last_varname (Some name)) ;;
      _ <- scope_of self ;;
      throw NameError "name 'kind' is not defined".

(** [Module.param] (lines 584-610). *)
Definition param (self : loc) (name : string)
    (init_fn : list pyval -> result pyval) (init_args : list pyval) : M pyval :=
  allowed <- _initialization_allowed self ;;
  if negb allowed then
    throw ValueError
      "Parameters must be initialized in `setup()` or in a method wrapped in `@compact`"
  else
    taken <- _name_taken self name ;;
    if (taken : bool) then
      i <- instance_of self ;;
      throw ValueError
        ("Name " +:+ name +:+ " already in use in " +:+ __name__ (__class__ i) +:+ ".")
    else
      update_state self (set_last_varname (Some name)) ;;
      sc <- scope_of self ;;
      v <- scope_param sc name init_fn init_args ;;
      children_set self name (PyStr "params") ;;
      ret v.

(** *** [wrap_method] (lines 210-240) *)

(** A user-defined method: [fun.__name__], [hasattr(fun, 'compact')], and
    what its body does with [self] and the arguments. *)
Record method := Method {
  method_name : string;
  method_compact : bool;
  method_body : loc -> list pyval -> M pyval
}.

Definition stack_push (v : pyval) : M unit :=
  modify (fun w => set_module_stack (v :: module_stack w) w).

Definition stack_pop : M unit :=
  w <- get_world ;;
  match module_stack w with
  | [] => throw OtherException "pop from empty list"
  | _ :: rest => modify (set_module_stack rest)
  end.

Definition wrapped_module_method (fun_ : method) (self : loc) (args : list pyval)
    : M pyval :=
  let is_compact_method := method_compact fun_ in
  let is_setup_method := String.eqb (method_name fun_) "setup" in
  sc <- getattr self "scope" ;;
  match sc with
  | PyNone => throw ValueError "Can't call methods on orphaned modules"
  | _ =>
      (if is_compact_method then update_state self (set_in_compact_method true)
       else if is_setup_method then update_state self (set_in_setup true)
       else ret tt) ;;
      stack_push (PyModule self) ;;
      try_finally (method_body fun_ self args)
        (stack_pop ;;
         (if is_compact_method then
            sc <- scope_of self ;;
            sc' <- scope_rewound sc ;;
            object_setattr self "scope" (PyScope sc')
          else ret tt) ;;
         (if is_compact_method || is_setup_method then update_state self reset
          else ret tt))
  end.

(** *** Hashing (lines 243-249 and 374-375) *)

(** The hash functions of the interpreter for the builtin types. *)
Record hash_functions := HashFunctions {
  hash_none : Z;
  hash_int : Z -> Z;
  hash_str : string -> Z;
  hash_tuple : list Z -> Z;
  hash_sentinel : Z;         (* identity hash of [_unspecified_parent] *)
  hash_scope : scope -> Z
}.

Section Hashing.
Variable H : hash_functions.
(** [hash(m)] for a module instance [m] held in a field. *)
Variable module_hash : loc -> result Z.

(** The hashes of the elements of a tuple, left to right; the first
    element that cannot be hashed raises. *)
Definition hash_all (h : pyval -> result Z) : list pyval -> result (list Z) :=
  fix go (xs : list pyval) : result (list Z) :=
    match xs with
    | [] => Ok []
    | x :: rest =>
        match h x with
        | Raise e => Raise e
        | Ok z => match go rest with
                  | Raise e => Raise e
                  | Ok zs => Ok (z :: zs)
                  end
        end
    end.

(** [hash(v)].  Lists, dicts and arrays are unhashable, and so is the
    internal state, a dataclass with [eq] and without [unsafe_hash]. *)
Fixpoint py_hash (v : pyval) : result Z :=
  match v with
  | PyNone => Ok (hash_none H)
  | PyInt z => Ok (hash_int H z)
  | PyStr s => Ok (hash_str H s)
  | PyTuple xs =>
      match hash_all py_hash xs with
      | Raise e => Raise e
      | Ok hs => Ok (hash_tuple H hs)
      end
  | PyList _ => Raise (raise_ TypeError "unhashable type: 'list'")
  | PyDict _ => Raise (raise_ TypeError "unhashable type: 'dict'")
  | PyArray _ => Raise (raise_ TypeError "unhashable type: 'numpy.ndarray'")
  | PyUnspecifiedParent => Ok (hash_sentinel H)
  | PyModule l => module_hash l
  | PyScope sc => Ok (hash_scope H sc)
  | PyState _ => Raise (raise_ TypeError "unhashable type: '_ModuleInternalState'")
  end.

(** The values of the fields, in order. *)
Fixpoint field_values (w : world) (self : loc) (fields : list string)
    : result (list pyval) :=
  match fields with
  | [] => Ok []
  | f :: rest =>
      match fst (getattr self f w) with
      | Raise e => Raise e
      | Ok v => match field_values w self rest with
                | Raise e => Raise e
                | Ok vs => Ok (v :: vs)
                end
      end
  end.

(** The [__hash__] that [dataclasses.dataclass(cls, unsafe_hash=True)]
    generates: the hash of the tuple of all fields. *)
Definition dataclass_hash (w : world) (self : loc) : result Z :=
  match fst (instance_of self w) with
  | Raise e => Raise e
  | Ok i =>
      match field_values w self (__dataclass_fields__ (__class__ i)) with
      | Raise e => Raise e
      | Ok vs => py_hash (PyTuple vs)
      end
  end.

End Hashing.

(** [_wrap_hash] (lines 243-249). *)
Definition _wrap_hash (hash_fn : world -> loc -> result Z) (w : world) (self : loc)
    : result Z :=
  match fst (getattr self "scope" w) with
  | Raise e => Raise e
  | Ok PyNone => hash_fn w self
  | Ok _ => Raise (raise_ ValueError "Can't call __hash__ on modules that hold variables.")
  end.

(** [cls.__hash__] after line 375.  A module held in a field ([parent]) is
    hashed by the same method; [depth] bounds that nesting and stands for
    the recursion limit of the interpreter. *)
Fixpoint __hash__ (H : hash_functions) (depth : nat) (w : world) (self : loc)
    : result Z :=
  match depth with
  | O => Raise (raise_ RecursionError "maximum recursion depth exceeded")
  | S d => _wrap_hash (dataclass_hash H (__hash__ H d w)) w self
  end.

(** *** [Module._verify_single_or_no_compact] (lines 380-390) *)

(** [getattr(cls, name)] for every name of [dir(cls)]: the first class of
    the [__mro__] that has the name provides the value. *)
Definition class_members (cls : pyclass) : gmap string member :=
  ⋃ (__mro__ cls).

(** [inspect.getmembers(cls, predicate=callable)]. *)
Definition getmembers_callable (cls : pyclass) : list (string * member) :=
  filter (fun p => is_callable p.2 = true) (map_to_list (class_members cls)).

Definition compact_methods (cls : pyclass) : list string :=
  (filter (fun p => has_compact p.2 = true) (getmembers_callable cls)).*1.

Definition only_one_compact_msg : string :=
  "Only one method per class can be @compact. You can remove @compact " +:+
  "and define submodules and variables in setup(), or use two " +:+
  "separate modules.".

Definition _verify_single_or_no_compact (cls : pyclass) : result unit :=
  let n_compact_fns := Z.of_nat (length (compact_methods cls)) in
  if 1 <? n_compact_fns then Raise (raise_ RuntimeError only_one_compact_msg)
  else Ok tt.

(** *** [Module.__setattr__] (lines 406-454) *)

(** Line 428 calls [get_suffix_value_pairs]; the file defines
    [_get_suffix_value_pairs] (line 128) and binds no name without the
    underscore, so the third branch raises [NameError] when it evaluates
    the iterable of its loop, and line 454 is reached only from the first
    two branches. *)
Definition __setattr__ (self : loc) (name : string) (val : pyval) : M unit :=
  i <- instance_of self ;;
  (if String.eqb name "parent" then ret tt
   else if bool_decide (name ∈ __dataclass_fields__ (__class__ i)) then ret tt
   else throw NameError "name 'get_suffix_value_pairs' is not defined") ;;
  object_setattr self name val.

(** *** [Module.__post_init__] (lines 456-510) *)

(** Lines 488-492, autonaming: the class name is the key into the cursor of
    the parent, the current counter the suffix. *)
Definition autoname (self parent : loc) : M string :=
  i <- instance_of self ;;
  let prefix := __name__ (__class__ i) in
  pst <- state_of parent ;;
  match autoname_cursor pst with
  | None => throw AttributeError "'NoneType' object has no attribute 'get'"
  | Some cur =>
      let cursor := default 0 (cur !! prefix) in
      let name := prefix +:+ "_" +:+ pretty cursor in
      __setattr__ self "name" (PyStr name) ;;
      pst <- state_of parent ;;
      match autoname_cursor pst with
      | None => throw TypeError "'NoneType' object does not support item assignment"
      | Some cur =>
          update_state parent (set_autoname_cursor (Some (<[prefix := cursor + 1]> cur))) ;;
          ret name
      end
  end.

(** Lines 481-499, for a parent that is a [Module]: [false] when the
    initialization is deferred to the attribute assignment in [setup]. *)
Definition register_on_parent (self parent : loc) : M bool :=
  pst <- state_of parent ;;
  nm <- getattr self "name" ;;
  if in_setup pst && (match nm with PyNone => true | _ => false end) then ret false
  else
    allowed <- _initialization_allowed parent ;;
    if negb allowed then
      throw ValueError
        "Submodules must be defined in `setup()` or in a method wrapped in `@compact`"
    else
      name <- (match nm with
               | PyNone => autoname self parent
               | _ => as_name nm
               end) ;;
      taken <- _name_taken parent name ;;
      if (taken : bool) then
        i <- instance_of self ;;
        throw ValueError
          ("A variable of name " +:+ name +:+ " exists already, or " +:+
           "trying to share submodule " +:+ __name__ (__class__ i) +:+ " by name " +:+
           name +:+ ". To share submodules, store module instances as a" +:+
           " Python object or as an attribute on self and reuse.")
      else
        children_set parent name (PyModule self) ;;
        ret true.

(** [__post_init__]; [setup] is what [self.setup()] does for the class. *)
Definition __post_init__ (setup : loc -> M pyval) (self : loc) : M unit :=
  _check_omnistaging ;;
  __setattr__ self "_state" (PyState new_state) ;;
  __setattr__ self "children" (PyDict []) ;;
  p <- getattr self "parent" ;;
  (match p with
   | PyUnspecifiedParent =>
       w <- get_world ;;
       match module_stack w with
       | top :: _ => __setattr__ self "parent" top
       | [] => throw OtherException "list index out of range"
       end
   | _ => ret tt
   end) ;;
  p <- getattr self "parent" ;;
  match p with
  | PyNone => ret tt
  | PyModule parent =>
      attached <- register_on_parent self parent ;;
      if (attached : bool) then
        name <- (nm <- getattr self "name" ;; as_name nm) ;;
        psc <- scope_of parent ;;
        sc <- scope_push psc name ;;
        __setattr__ self "scope" (PyScope sc) ;;
        setup self ;;
        ret tt
      else ret tt
  | PyScope sc =>
      __setattr__ self "scope" (PyScope sc) ;;
      setup self ;;
      ret tt
  | _ => throw ValueError "parent must be None, Module or Scope"
  end.

(** *** Notions used to state the properties *)

(** A computation that leaves the value of attribute [f] of [self] alone. *)
Definition preserves_attr (self : loc) (f : string) {A} (m : M A) : Prop :=
  forall w, fst (getattr self f (snd (m w))) = fst (getattr self f w).

(** A parent module inside its compact method and outside [setup], bound
    to the scope [sc], with autoname cursor [cur]. *)
Definition compact_parent (w : world) (p : loc) (sc : scope) (cur : gmap string Z)
    : Prop :=
  exists i pst kids,
    heap w !! p = Some i /\
    __dict__ i !! "_state" = Some (PyState pst) /\
    in_setup pst = false /\ in_compact_method pst = true /\
    autoname_cursor pst = Some cur /\
    __dict__ i !! "scope" = Some (PyScope sc) /\
    __dict__ i !! "children" = Some (PyDict kids).

(** A freshly built instance of the class called [cls], without a name. *)
Definition unnamed_child (w : world) (c : loc) (cls : string) : Prop :=
  exists i,
    heap w !! c = Some i /\ __name__ (__class__ i) = cls /\
    __dict__ i !! "name" = Some PyNone /\
    "name" ∈ __dataclass_fields__ (__class__ i).

(** The name is neither reserved in the scope of [p] nor an attribute of it. *)
Definition free_name (w : world) (p : loc) (nm : string) : Prop :=
  fst (_name_taken p nm w) = Ok false.

(** Values that are hashed without looking at any module instance. *)
Fixpoint plain_hashable (v : pyval) : bool :=
  match v with
  | PyNone | PyInt _ | PyStr _ | PyUnspecifiedParent | PyScope _ => true
  | PyTuple xs => forallb plain_hashable xs
  | _ => false
  end.

(** Values of the unhashable types. *)
Definition unhashable (v : pyval) : bool :=
  match v with
  | PyList _ | PyDict _ | PyArray _ | PyState _ => true
  | _ => false
  end.

(** Hash functions to run the examples with. *)
Definition sample_hash : hash_functions :=
  HashFunctions 0 (fun z => z) (fun s => Z.of_nat (String.length s))
                (fun hs => foldr (fun h acc => h + 31 * acc) 7 hs)
                1 (fun sc => Z.of_nat (length sc)).

Definition mlp_class : pyclass :=
  PyClass "MLP" ["features"; "parent"; "name"]
    [ {[ "__call__" := Member true true ]}; {[ "setup" := Member true false ]} ].

Definition empty_store : scope_store := ScopeStore ∅ ∅ 0.

(** An unbound, parentless [MLP] whose field [features] holds [v]. *)
Definition mlp_with (v : pyval) : instance :=
  Instance mlp_class {[ "features" := v; "parent" := PyNone; "name" := PyNone ]}.

(** An unbound [MLP(features=[16, 4])]. *)
Definition unbound_mlp_list : world :=
  World {[ 0%nat := mlp_with (PyList [PyInt 16; PyInt 4]) ]}
        [PyNone] _uninitialized_module_internal_state empty_store true.

(** An unbound [MLP(features=(16, 4))]. *)
Definition unbound_mlp_tuple : world :=
  World {[ 0%nat := mlp_with (PyTuple [PyInt 16; PyInt 4]) ]}
        [PyNone] _uninitialized_module_internal_state empty_store true.

(** The reading of the registration error as listing the offending methods:
    the name of every compact method occurs in the message. *)
Definition lists_offenders (cls : pyclass) (e : exc) : Prop :=
  forall n, n ∈ compact_methods cls -> String.index 0 n (exc_msg e) <> None.

(** A class with two compact methods, [__call__] and [forward], on top of
    a base class with a plain [setup]. *)
Definition two_compact : pyclass :=
  PyClass "Net" ["features"; "parent"; "name"]
    [ {[ "__call__" := Member true true; "forward" := Member true true;
         "features" := Member false false ]};
      {[ "setup" := Member true false; "__call__" := Member true false ]} ].

(** A class whose only compact method is [__call__]; the [forward] it
    inherits compact is overridden by a plain one. *)
Definition one_compact : pyclass :=
  PyClass "Net" ["features"; "parent"; "name"]
    [ {[ "__call__" := Member true true; "forward" := Member true false ]};
      {[ "setup" := Member true false; "forward" := Member true true ]} ].

(** *** Readings of the specification that the code does not meet *)

(** "Configuration fields never change": an assignment to a declared field
    leaves its value as it was. *)
Definition fields_immutable : Prop :=
  forall w self i f v,
    heap w !! self = Some i -> f ∈ __dataclass_fields__ (__class__ i) ->
    fst (getattr self f (snd (__setattr__ self f v w))) = fst (getattr self f w).

(** "Hashing an unbound instance succeeds." *)
Definition unbound_hash_succeeds (H : hash_functions) : Prop :=
  forall d w self,
    fst (getattr self "scope" w) = Ok PyNone ->
    exists z, __hash__ H (S d) w self = Ok z.

(** "The registration error lists the offending methods." *)
Definition compact_error_lists_methods : Prop :=
  forall cls e, _verify_single_or_no_compact cls = Raise e -> lists_offenders cls e.

(** *** Example modules *)

Definition dense_class : pyclass :=
  PyClass "Dense" ["features"; "parent"; "name"]
    [ {[ "__call__" := Member true true ]}; {[ "setup" := Member true false ]} ].

Definition conv_class : pyclass :=
  PyClass "Conv" ["features"; "parent"; "name"]
    [ {[ "__call__" := Member true true ]}; {[ "setup" := Member true false ]} ].

Definition in_compact_state : _ModuleInternalState :=
  InternalState true false None (Some ∅).

Definition in_setup_state : _ModuleInternalState :=
  InternalState false true None (Some ∅).

(** A module bound to the root scope, with lifecycle state [st], and three
    freshly built submodules that name it as their parent. *)
Definition bound_dict (st : _ModuleInternalState) : gmap string pyval :=
  {[ "features" := PyInt 16; "parent" := PyScope []; "name" := PyNone;
     "_state" := PyState st; "children" := PyDict []; "scope" := PyScope [] ]}.

Definition child_dict : gmap string pyval :=
  {[ "features" := PyInt 4; "parent" := PyModule 0%nat; "name" := PyNone ]}.

Definition world_with (st : _ModuleInternalState) : world :=
  World {[ 0%nat := Instance mlp_class (bound_dict st);
           1%nat := Instance dense_class child_dict;
           2%nat := Instance conv_class child_dict;
           3%nat := Instance dense_class child_dict ]}
        [PyModule 0%nat; PyNone] _uninitialized_module_internal_state
        empty_store true.

Definition compact_world : world := world_with in_compact_state.
Definition setup_world : world := world_with in_setup_state.
Definition idle_world : world := world_with new_state.

(** An initializer, and two methods that declare a parameter or a variable. *)
Definition zeros (_ : list pyval) : result pyval := Ok (PyArray 0).

Definition declares_param : method :=
  Method "__call__" false (fun self _ => param self "kernel" zeros []).

Definition declares_variable : method :=
  Method "update" false (fun self _ => variable self "batch_stats" "mean" zeros []).

(** A compact [__call__] that declares one parameter. *)
Definition compact_call : method :=
  Method "__call__" true (fun self _ => param self "kernel" zeros []).

(** A submodule class that declares [_state], [children] and [scope] among
    its fields, and a freshly built instance of it: the parent is left
    unspecified and the new attributes hold their defaults. *)
Definition stateful_dense : pyclass :=
  PyClass "Dense" ["features"; "_state"; "children"; "scope"; "parent"; "name"]
    [ {[ "__call__" := Member true true ]}; {[ "setup" := Member true false ]} ].

Definition stateful_child_dict : gmap string pyval :=
  {[ "features" := PyInt 4; "_state" := PyNone; "children" := PyNone;
     "scope" := PyNone; "parent" := PyUnspecifiedParent; "name" := PyNone ]}.

(** A bound module with lifecycle state [st], on top of the module stack,
    and such an instance. *)
Definition stateful_world (st : _ModuleInternalState) : world :=
  World {[ 0%nat := Instance mlp_class (bound_dict st);
           1%nat := Instance stateful_dense stateful_child_dict ]}
        [PyModule 0%nat; PyNone] _uninitialized_module_internal_state
        empty_store true.

(** The same inside the compact method, after a declaration took the name
    [Dense_0] in the scope of the module. *)
Definition crowded_world : world :=
  set_scopes (reserve [] "Dense_0" empty_store) (stateful_world in_compact_state).

End Linen.
(** * Properties of the prefetch iterator *)

Section PrefetchProperties.
Import Py PrefetchIterator.
Context {item : Type}.
Implicit Types (s : iterator item) (tr : list (event item)) (src : nat -> outcome item).

Lemma run_app s tr1 s1 tr2 s2 :
  run s tr1 s1 -> run s1 tr2 s2 -> run s (tr1 ++ tr2) s2.
Proof.
  induction 1 as [|s e sa tr sb Hstep Hrun IH]; intros H2; simpl; [done|].
  econstructor; eauto.
Qed.

Lemma run_snoc_inv s tr e s2 :
  run s (tr ++ [e]) s2 -> exists s1, run s tr s1 /\ step s1 e s2.
Proof.
  revert s. induction tr as [|e' tr IH]; intros s Hr; simpl in Hr.
  - inversion Hr as [|? ? sa ? ? Hstep Hrest]; subst.
    inversion Hrest; subst. exists s. split; [constructor | done].
  - inversion Hr as [|? ? sa ? ? Hstep Hrest]; subst.
    destruct (IH _ Hrest) as (s1 & Hrun & Hlast).
    exists s1. split; [econstructor; eauto | done].
Qed.

(** Induction on a run from its last step. *)
Lemma run_ind_last s (P : list (event item) -> iterator item -> Prop) :
  P [] s ->
  (forall tr s1 e s2, run s tr s1 -> P tr s1 -> step s1 e s2 -> P (tr ++ [e]) s2) ->
  forall tr s', run s tr s' -> P tr s'.
Proof.
  intros Hnil Hsnoc tr. induction tr as [|e tr IH] using rev_ind; intros s' Hr.
  - inversion Hr; subst. done.
  - destruct (run_snoc_inv _ _ _ _ Hr) as (s1 & Hrun & Hstep). eauto.
Qed.

Lemma results_snoc tr e :
  results (tr ++ [e]) = results tr ++ match e with EvNext r => [r] | _ => [] end.
Proof. unfold results. rewrite omap_app. simpl. by destruct e. Qed.

Lemma received_snoc tr e :
  received (tr ++ [e]) =
  received tr ++ match e with EvNext (Returned v) => [v] | _ => [] end.
Proof. unfold received. rewrite omap_app. simpl. by destruct e as [| |[]|]. Qed.

Lemma produced_snoc tr e :
  produced (tr ++ [e]) =
  produced tr ++ match e with EvWorker (Appended v) => [v] | _ => [] end.
Proof. unfold produced. rewrite omap_app. simpl. by destruct e as [|[]| |]. Qed.


Lemma source_items_S src n :
  source_items src (S n) =
  source_items src n ++ match src n with Yield v => [v] | Throw _ => [] end.
Proof.
  unfold source_items. rewrite seq_S, omap_app. simpl. by destruct (src n).
Qed.

Lemma source_items_iter_of (items : list item) fin n :
  source_items (iter_of items fin) n = take n items.
Proof.
  induction n as [|n IH]; [by rewrite take_0|].
  rewrite source_items_S, IH. unfold iter_of.
  destruct (items !! n) as [v|] eqn:Hl.
  - by rewrite (take_S_r _ _ _ Hl).
  - apply lookup_ge_None in Hl. rewrite !take_ge by lia. by rewrite app_nil_r.
Qed.

(** Case analysis of one step of the interleaving. *)
Ltac step_cases H :=
  inversion H; subst; clear H;
  repeat match goal with
  | Hw : _prefetch_loop _ = Some _ |- _ =>
      unfold _prefetch_loop, after_wait in Hw;
      repeat case_match; simplify_eq
  | Hn : __next__ _ = Some _ |- _ =>
      unfold __next__ in Hn; repeat case_match; simplify_eq
  end;
  simpl in *.

(** Everything the source has yielded so far is, in the order of the
    source, what the consumer received, then the buffer, then the item in
    the hand of the worker. *)
Lemma fifo_invariant src bs tr s :
  run (__init__ src bs) tr s ->
  _data_iter s = src /\ buffer_size s = bs /\
  received tr ++ _buffer s = produced tr /\
  produced tr ++ in_hand (worker s) = source_items src (data_calls s).
Proof.
  revert tr s. apply run_ind_last; [done|].
  intros tr s1 e s2 Hrun (Hsrc & Hbs & Hbuf & Hprod) Hstep.
  rewrite received_snoc, produced_snoc.
  step_cases Hstep; rewrite ?app_nil_r in *;
    try rewrite source_items_S; subst;
    repeat match goal with
    | Hq : worker _ = _ |- _ => rewrite Hq in *; simpl in *
    | Hq : _data_iter _ _ = _ |- _ => rewrite Hq in *; simpl in *
    | Hq : _buffer _ = _ |- _ => rewrite Hq in *; simpl in *
    end;
    rewrite ?app_nil_r in *; repeat split; try done;
    try (rewrite <- Hbuf; by rewrite ?app_assoc);
    try (rewrite <- Hprod; by rewrite ?app_assoc).
  rewrite <- Hbuf. by rewrite <- app_assoc.
Qed.

(** Nothing ever sets [_active] back to true. *)
Lemma step_inactive s e s' : step s e s' -> _active s = false -> _active s' = false.
Proof. intros Hstep Hact. step_cases Hstep; try done; congruence. Qed.

Lemma run_inactive s tr s' : run s tr s' -> _active s = false -> _active s' = false.
Proof. induction 1; eauto using step_inactive. Qed.

(** A worker that has finished has left the iterator inactive, as long as
    no exception of the source kills it. *)
Lemma finished_inactive src bs tr s :
  catchable src ->
  run (__init__ src bs) tr s ->
  _data_iter s = src /\ (worker s = Finished -> _active s = false).
Proof.
  intros Hsrc. revert tr s. apply run_ind_last; [done|].
  intros tr s1 e s2 Hrun [Hd IH] Hstep.
  step_cases Hstep; subst; split; try done; try congruence;
    repeat match goal with
    | Hq : worker _ = _ |- _ => rewrite Hq in *; simpl in *
    end; try done; try congruence.
  match goal with
  | Hq : _data_iter _ _ = Throw _ |- _ => apply Hsrc in Hq; congruence
  end.
Qed.

Lemma iter_of_catchable (items : list item) fin :
  is_Exception (exc_class_of fin) = true -> catchable (iter_of items fin).
Proof.
  intros Hfin k e. unfold iter_of. destruct (items !! k); [done|].
  intros [= <-]. done.
Qed.

Lemma close_free_snoc tr e : close_free (tr ++ [e]) -> close_free tr /\ e <> EvClose.
Proof.
  unfold close_free. intros Hcf. split.
  - intros Hin. apply Hcf. apply elem_of_app. by left.
  - intros ->. apply Hcf. apply elem_of_app. right. by apply list_elem_of_singleton.
Qed.

(** The worker of a finite source, without [close]. *)
Lemma worker_invariant_run (items : list item) fin bs tr s :
  is_Exception (exc_class_of fin) = true ->
  run (__init__ (iter_of items fin) bs) tr s ->
  close_free tr ->
  worker_invariant items fin s.
Proof.
  intros Hfin. revert tr s.
  refine (run_ind_last _ (fun tr s => close_free tr -> worker_invariant items fin s) _ _).
  { intros _. unfold worker_invariant. simpl. repeat split; first [lia | done]. }
  intros tr s1 e s2 Hrun IH Hstep Hcf.
  apply close_free_snoc in Hcf as [Hcf Hne]. specialize (IH Hcf).
  pose proof (fifo_invariant _ _ _ _ Hrun) as (Hsrc & _).
  unfold worker_invariant in *.
  step_cases Hstep; try done;
    repeat match goal with
    | Hq : worker _ = _ |- _ => rewrite Hq in *; simpl in *
    end; try (intuition congruence).
  - (* the constructor finishes *)
    destruct (worker s1); intuition.
  - (* fetch of an item *)
    rewrite Hsrc in *. unfold iter_of in *.
    destruct (items !! data_calls s1) eqn:Hl; [|done].
    apply lookup_lt_Some in Hl. intuition lia.
  - (* fetch raising *)
    rewrite Hsrc in *. unfold iter_of in *.
    destruct (items !! data_calls s1) eqn:Hl; [done|].
    apply lookup_ge_None in Hl. simplify_eq. intuition lia.
  - rewrite Hsrc in *. unfold iter_of in *.
    destruct (items !! data_calls s1) eqn:Hl; [done|]. simplify_eq. congruence.
Qed.

Lemma drained_not_returned s :
  match drained_result s with Returned v => [v] | _ => [] end = [].
Proof. unfold drained_result. by repeat case_match. Qed.

(** Without [close], the consumer of a finite source sees items and then,
    once the worker has finished and the buffer is empty, the same outcome
    at every further call. *)
Lemma close_free_trace (items : list item) fin bs tr s :
  is_Exception (exc_class_of fin) = true ->
  run (__init__ (iter_of items fin) bs) tr s ->
  close_free tr ->
  exists m,
    results tr = map Returned (received tr) ++ replicate m (drained_result s) /\
    ((0 < m)%nat -> worker s = Finished /\ constructed s = true /\ _buffer s = []).
Proof.
  intros Hfin. revert tr s.
  refine (run_ind_last _ (fun tr s => close_free tr -> exists m,
    results tr = map Returned (received tr) ++ replicate m (drained_result s) /\
    ((0 < m)%nat -> worker s = Finished /\ constructed s = true /\ _buffer s = [])) _ _).
  { intros _. exists 0%nat. split; [done | intros; lia]. }
  intros tr s1 e s2 Hrun IH Hstep Hcf.
  apply close_free_snoc in Hcf as [Hcf Hne].
  destruct (IH Hcf) as (m & Hres & Hm).
  pose proof (worker_invariant_run _ _ _ _ _ Hfin Hrun Hcf) as Hw.
  rewrite results_snoc, received_snoc.
  destruct m as [|m].
  - (* only items so far *)
    simpl in Hres. rewrite app_nil_r in Hres.
    inversion Hstep; subst; clear Hstep; try done.
    + exists 0%nat. simpl. rewrite !app_nil_r. split; [done | intros; lia].
    + exists 0%nat. simpl. rewrite !app_nil_r. split; [done | intros; lia].
    + match goal with Hn : __next__ _ = Some _ |- _ => rename Hn into Hnext end.
      unfold __next__ in Hnext.
      destruct (_buffer s1) as [|v rest] eqn:Hb.
      * simpl in Hnext. destruct (_active s1) eqn:Ha; [done|]. simpl in Hnext.
        assert (r = drained_result s1 /\ s2 = s1) as [-> ->].
        { unfold drained_result. repeat case_match; simplify_eq; done. }
        exists 1%nat. simpl. rewrite drained_not_returned, ?app_nil_r, Hres.
        split; [done|].
        intros _. unfold worker_invariant in Hw.
        destruct (worker s1); intuition congruence.
      * simpl in Hnext. simplify_eq.
        exists 0%nat. simpl. rewrite ?app_nil_r, map_app, Hres.
        split; [done | intros; lia].
  - (* the sequence has ended: the state no longer moves *)
    destruct Hm as (Hfinished & Hcons & Hbuf); [lia|].
    unfold worker_invariant in Hw. rewrite Hfinished in Hw.
    destruct Hw as (Hact & _ & _).
    inversion Hstep; subst; clear Hstep; try done.
    + congruence.
    + match goal with Hn : _prefetch_loop _ = Some _ |- _ =>
        unfold _prefetch_loop in Hn; rewrite Hfinished in Hn; done end.
    + match goal with Hn : __next__ _ = Some _ |- _ =>
        unfold __next__ in Hn; rewrite Hbuf, Hact in Hn; simpl in Hn end.
      assert (r = drained_result s1 /\ s2 = s1) as [-> ->].
      { unfold drained_result. repeat case_match; simplify_eq; done. }
      exists (S (S m)). split; [|done].
      rewrite Hres, drained_not_returned, app_nil_r, <- app_assoc. f_equal.
      change (drained_result s1 :: replicate m (drained_result s1))
        with (replicate (S m) (drained_result s1)).
      by rewrite <- replicate_cons_app.
Qed.

(** Case analysis on whether the buffer has room. *)
Ltac split_room :=
  repeat match goal with
  | |- context [(?a <? ?b)] => destruct (a <? b) eqn:?; simpl
  end.

(** [__next__] returns at once when its wait condition holds. *)
Lemma next_enabled s :
  truthy (_buffer s) || negb (_active s) = true -> is_Some (__next__ s).
Proof. unfold __next__. intros ->. repeat case_match; by eexists. Qed.

Lemma blocking_next_now n s r : __next__ s = Some r -> blocking_next n s = Some r.
Proof. destruct n; simpl; by intros ->. Qed.

(** A consumer blocked in [__next__] is served after at most three steps of
    the worker, whatever happened before: the two threads never wait for
    each other forever. *)
Lemma blocking_next_returns src bs tr s :
  catchable src -> 1 <= bs ->
  run (__init__ src bs) tr s ->
  is_Some (blocking_next 4 s).
Proof.
  intros Hsrc Hbs Hrun.
  pose proof (fifo_invariant _ _ _ _ Hrun) as (Hd & Hb & _).
  pose proof (finished_inactive _ _ _ _ Hsrc Hrun) as (_ & Hfin).
  assert (Hroom : (0 <? bs) = true) by lia.
  destruct (truthy (_buffer s) || negb (_active s)) eqn:Hen.
  { destruct (next_enabled s Hen) as [r Hr]. exists r. by apply blocking_next_now. }
  apply orb_false_iff in Hen as [Hbuf Hact].
  destruct s as [d calls b buf act err pc cons]; simpl in Hd, Hb, Hfin, Hbuf, Hact; subst.
  destruct buf as [|v buf]; [|done]. destruct act; [|done].
  unfold blocking_next, __next__, _prefetch_loop, after_wait, _predicate; simpl.
  destruct pc as [|v|e| |]; simpl.
  - destruct (src calls) as [v|e] eqn:Hnext; simpl.
    + split_room; by eexists.
    + rewrite (Hsrc _ _ Hnext). simpl. destruct (exc_truthy e); by eexists.
  - split_room; by eexists.
  - destruct (exc_truthy e); by eexists.
  - change (Z.of_nat 0) with 0. rewrite Hroom. simpl.
    destruct (src calls) as [v|e] eqn:Hnext; simpl.
    + split_room; by eexists.
    + rewrite (Hsrc _ _ Hnext). simpl. destruct (exc_truthy e); by eexists.
  - by specialize (Hfin eq_refl).
Qed.

(** A consumer that finds the buffer empty and the worker idle gets the
    next item of the source, and leaves the iterator in the same shape. *)
Lemma blocking_next_item s v bs :
  1 <= bs -> buffer_size s = bs ->
  _buffer s = [] -> _active s = true -> _error s = None ->
  worker s = AtNext \/ worker s = Waiting ->
  _data_iter s (data_calls s) = Yield v ->
  exists s',
    blocking_next 4 s = Some (Returned v, s') /\
    _data_iter s' = _data_iter s /\ buffer_size s' = bs /\
    _buffer s' = [] /\ _active s' = true /\ _error s' = None /\
    (worker s' = AtNext \/ worker s' = Waiting) /\
    data_calls s' = S (data_calls s).
Proof.
  intros Hbs Hb Hbuf Hact Herr Hpc Hcur.
  assert (Hroom : (0 <? bs) = true) by lia.
  destruct s as [d calls b buf act err pc cons]; simpl in *. subst b buf act err.
  unfold blocking_next, __next__, _prefetch_loop, after_wait, _predicate; simpl.
  destruct Hpc as [-> | ->]; simpl.
  - rewrite Hcur. simpl. split_room; eexists; (split; [reflexivity|]); simpl; tauto.
  - change (Z.of_nat 0) with 0. rewrite Hroom. simpl. rewrite Hcur. simpl.
    split_room; eexists; (split; [reflexivity|]); simpl; tauto.
Qed.

(** The same consumer, when the source has nothing left, gets the final
    exception of the source, or a fresh [StopIteration] if that exception
    is falsy. *)
Lemma blocking_next_final s fin bs :
  1 <= bs -> buffer_size s = bs ->
  _buffer s = [] -> _active s = true -> _error s = None ->
  worker s = AtNext \/ worker s = Waiting ->
  _data_iter s (data_calls s) = Throw fin ->
  is_Exception (exc_class_of fin) = true ->
  exists s',
    blocking_next 4 s =
    Some (if exc_truthy fin then Reraised fin else StopRaised, s').
Proof.
  intros Hbs Hb Hbuf Hact Herr Hpc Hcur Hfin.
  assert (Hroom : (0 <? bs) = true) by lia.
  destruct s as [d calls b buf act err pc cons]; simpl in *. subst b buf act err.
  unfold blocking_next, __next__, _prefetch_loop, after_wait, _predicate; simpl.
  destruct Hpc as [-> | ->]; simpl.
  - rewrite Hcur, Hfin. simpl. destruct (exc_truthy fin); by eexists.
  - change (Z.of_nat 0) with 0. rewrite Hroom. simpl. rewrite Hcur, Hfin. simpl.
    destruct (exc_truthy fin); by eexists.
Qed.

Lemma consume_S n s :
  consume (S n) s =
  match blocking_next 4 s with
  | Some (r, s') => r :: consume n s'
  | None => []
  end.
Proof. done. Qed.

(** The consumer that calls [__next__] on an iterator over a finite source,
    and lets the worker run whenever it has to wait, gets every remaining
    item in order and then the final exception of the source. *)
Lemma consume_from (items : list item) fin bs n s :
  is_Exception (exc_class_of fin) = true -> 1 <= bs ->
  _data_iter s = iter_of items fin -> buffer_size s = bs ->
  _buffer s = [] -> _active s = true -> _error s = None ->
  worker s = AtNext \/ worker s = Waiting ->
  (data_calls s + n = length items)%nat ->
  consume (S n) s =
  map Returned (drop (data_calls s) items) ++
  [if exc_truthy fin then Reraised fin else StopRaised].
Proof.
  intros Hfin Hbs.
  revert s. induction n as [|n IH]; intros s Hd Hb Hbuf Hact Herr Hpc Hn.
  - rewrite Nat.add_0_r in Hn. rewrite Hn, drop_all. simpl app.
    assert (Hlast : _data_iter s (data_calls s) = Throw fin).
    { rewrite Hd, Hn. unfold iter_of.
      by rewrite (proj2 (lookup_ge_None items (length items))) by lia. }
    destruct (blocking_next_final s fin bs) as [s' Hs']; try done.
    rewrite consume_S, Hs'. done.
  - assert (Hlt : (data_calls s < length items)%nat) by lia.
    destruct (lookup_lt_is_Some_2 items _ Hlt) as [v Hv].
    rewrite (drop_S _ _ _ Hv). simpl map.
    assert (Hcur : _data_iter s (data_calls s) = Yield v).
    { rewrite Hd. unfold iter_of. by rewrite Hv. }
    destruct (blocking_next_item s v bs) as (s' & Hs' & H1 & H2 & H3 & H4 & H5 & H6 & H7);
      try done.
    rewrite consume_S, Hs'. simpl app. f_equal.
    rewrite IH; try done; [by rewrite H7 | congruence | lia].
Qed.

Lemma prefix_of_take (l1 l2 items : list item) n :
  l1 ++ l2 = take n items -> l1 = take (length l1) items.
Proof.
  intros Heq.
  assert (Hlen : (length l1 <= n)%nat).
  { apply (f_equal length) in Heq. rewrite length_app, length_take in Heq. lia. }
  rewrite <- (take_app_length l1 l2) at 1. rewrite Heq, take_take.
  f_equal. lia.
Qed.


(** C7.  Items reach the consumer in the order of the source.  In every
    interleaving, what the source has yielded so far is what the consumer
    received, followed by the buffer, followed by the item the worker is
    about to append (the worker appends at the end, [__next__] pops the
    front).  When the source is a sequence that ends with [StopIteration]
    and nobody calls [close], the consumer sees a prefix of the items and
    can see an end-of-sequence signal only after all of them; and with room
    for at least one item the consumer is always served: a call of
    [__next__] returns after at most three worker steps, and a consumer that
    keeps calling gets every item followed by the end-of-sequence signal. *)
Theorem prefetch_fifo_order src bs tr s :
  run (__init__ src bs) tr s ->
  received tr ++ _buffer s ++ in_hand (worker s) = source_items src (data_calls s) /\
  (forall items stop,
     src = iter_of items stop -> exc_class_of stop = StopIteration ->
     (close_free tr ->
        exists k ends,
          results tr = map Returned (take k items) ++ ends /\
          Forall (fun r => signals_end r = true) ends /\
          (ends <> [] -> k = length items)) /\
     (1 <= bs ->
        is_Some (blocking_next 4 s) /\
        exists r, signals_end r = true /\
          consume (S (length items)) (finish_init (__init__ src bs)) =
          map Returned items ++ [r])).
Proof.
  intros Hrun.
  pose proof (fifo_invariant _ _ _ _ Hrun) as (Hd & Hb & Hbuf & Hprod).
  assert (Hfifo : received tr ++ _buffer s ++ in_hand (worker s) =
                  source_items src (data_calls s)).
  { by rewrite app_assoc, Hbuf. }
  split; [done|].
  intros items stop -> Hstop.
  assert (Hcatch : is_Exception (exc_class_of stop) = true) by by rewrite Hstop.
  split.
  - intros Hcf.
    destruct (close_free_trace _ _ _ _ _ Hcatch Hrun Hcf) as (m & Hres & Hm).
    pose proof (worker_invariant_run _ _ _ _ _ Hcatch Hrun Hcf) as Hw.
    rewrite source_items_iter_of in Hfifo.
    exists (length (received tr)), (replicate m (drained_result s)).
    split; [|split].
    + by rewrite <- (prefix_of_take _ _ _ _ Hfifo).
    + destruct m as [|m]; [by constructor|]. apply Forall_replicate.
      destruct Hm as (Hfin & _ & _); [lia|].
      unfold worker_invariant in Hw. rewrite Hfin in Hw.
      destruct Hw as (_ & _ & [He | He]); unfold drained_result; rewrite He; simpl;
        [done|]. destruct (exc_truthy stop); simpl; [by rewrite Hstop | done].
    + intros Hends. destruct m as [|m]; [done|].
      destruct Hm as (Hfin & _ & Hnil); [lia|].
      unfold worker_invariant in Hw. rewrite Hfin in Hw.
      destruct Hw as (_ & Hcalls & _).
      rewrite Hnil, Hfin, Hcalls in Hfifo. simpl in Hfifo.
      rewrite app_nil_r in Hfifo. rewrite Hfifo.
      rewrite length_take. lia.
  - intros Hbs. split.
    + eapply blocking_next_returns; eauto using iter_of_catchable.
    + exists (if exc_truthy stop then Reraised stop else StopRaised). split.
      { destruct (exc_truthy stop); simpl; [by rewrite Hstop | done]. }
      rewrite (consume_from items stop bs (length items)); try done.
      simpl. by left.
Qed.



(** Whatever happens from a state on, the consumer first gets the items the
    buffer held in that state, oldest first. *)
Lemma buffered_items_first s tr s' :
  run s tr s' ->
  exists k rest,
    results tr = map Returned (take k (_buffer s)) ++ rest /\
    (rest <> [] -> k = length (_buffer s)).
Proof.
  induction 1 as [s | s e s1 tr s2 Hstep Hrun IH].
  { exists 0%nat, []. split; [by rewrite take_0 | done]. }
  destruct IH as (k & rest & Hres & Hrest).
  inversion Hstep; subst; clear Hstep.
  - exists k, rest. done.
  - match goal with Hw : _prefetch_loop _ = Some _ |- _ => rename Hw into Hloop end.
    assert (Hgrow : _buffer s1 = _buffer s \/ exists v, _buffer s1 = _buffer s ++ [v]).
    { unfold _prefetch_loop, after_wait in Hloop.
      repeat case_match; simplify_eq; simpl; eauto. }
    destruct Hgrow as [Heq | [v Heq]]; [rewrite Heq in *; by exists k, rest|].
    rewrite Heq in *. change (results (EvWorker a :: tr)) with (results tr).
    destruct (decide (k <= length (_buffer s))%nat) as [Hle | Hgt].
    + exists k, rest. split.
      * by rewrite Hres, take_app_le.
      * intros Hne. specialize (Hrest Hne). rewrite length_app in Hrest.
        simpl in Hrest. lia.
    + exists (length (_buffer s)), (Returned v :: rest). split; [|done].
      rewrite Hres. rewrite take_ge by (rewrite length_app; simpl; lia).
      rewrite firstn_all, map_app. simpl. by rewrite <- app_assoc.
  - match goal with Hn : __next__ _ = Some _ |- _ => rename Hn into Hnext end.
    unfold __next__ in Hnext.
    destruct (_buffer s) as [|v buf] eqn:Hb.
    + exists 0%nat, (r :: results tr). split; [done | done].
    + simpl in Hnext. simplify_eq. simpl in Hres, Hrest.
      exists (S k), rest. split.
      * change (results (EvNext (Returned v) :: tr)) with (Returned v :: results tr).
        by rewrite Hres.
      * intros Hne. simpl. f_equal. auto.
  - exists k, rest. done.
Qed.

(** C10.  [close] does not discard what the buffer holds: in every
    continuation the consumer first receives the buffered items in their
    order, and anything else (an item appended later, the recorded error,
    the end of the sequence) only after all of them.  After [close] a call
    of [__next__] never blocks; it returns the oldest buffered item while
    there is one and raises only on an empty buffer. *)
Theorem close_keeps_buffered_items s tr s' :
  run (close s) tr s' ->
  (exists k rest,
     results tr = map Returned (take k (_buffer s)) ++ rest /\
     (rest <> [] -> k = length (_buffer s))) /\
  (exists r s'', __next__ s' = Some (r, s'') /\
     match r with
     | Returned v => exists rest, _buffer s' = v :: rest /\ _buffer s'' = rest
     | _ => _buffer s' = []
     end).
Proof.
  intros Hrun. split.
  - apply (buffered_items_first _ _ _ Hrun).
  - assert (Hact : _active s' = false) by (eapply run_inactive; eauto).
    unfold __next__. rewrite Hact, orb_true_r.
    destruct (_buffer s') as [|v rest].
    + repeat case_match; by eexists _, _.
    + eexists _, _. split; [done|]. by exists rest.
Qed.

(** With a depth below one the worker never comes back to the head of its
    loop: the source has been called once as soon as the worker has moved,
    and never again. *)
Lemma nonpositive_depth_invariant src bs tr s :
  bs <= 0 ->
  run (__init__ src bs) tr s ->
  (worker s = AtNext -> data_calls s = 0%nat) /\
  (worker s <> AtNext -> data_calls s = 1%nat).
Proof.
  intros Hbs. revert tr s. apply run_ind_last; [simpl; split; [done | by intros []]|].
  intros tr s1 e s2 Hrun [Hat Hnot] Hstep.
  pose proof (fifo_invariant _ _ _ _ Hrun) as (_ & Hb & _).
  step_cases Hstep; subst;
    repeat match goal with
    | Hq : worker _ = _ |- _ => rewrite Hq in *; simpl in *
    end; try tauto;
    try (split; [done | intros _; rewrite Hat; done]);
    try (split; [done | intros _; apply Hnot; done]).
  all: unfold _predicate in *; simpl in *;
    repeat match goal with
    | Ha : _active _ = true, Hq : _ || _ = true |- _ =>
        rewrite Ha, orb_false_r in Hq; apply Z.ltb_lt in Hq
    end; rewrite ?length_app in *; simpl in *; lia.
Qed.

Lemma source_items_length src n : (length (source_items src n) <= n)%nat.
Proof.
  induction n as [|n IH]; [done|].
  rewrite source_items_S, length_app. destruct (src n); simpl; lia.
Qed.

(** So the consumer receives at most one item. *)
Lemma nonpositive_depth_received src bs tr s :
  bs <= 0 -> run (__init__ src bs) tr s -> (length (received tr) <= 1)%nat.
Proof.
  intros Hbs Hrun.
  destruct (nonpositive_depth_invariant _ _ _ _ Hbs Hrun) as [Hat Hnot].
  assert (Hle : (data_calls s <= 1)%nat).
  { destruct (worker s) eqn:Hw; first [rewrite Hat by done | rewrite Hnot by done]; lia. }
  pose proof (fifo_invariant _ _ _ _ Hrun) as (_ & _ & Hbuf & Hprod).
  pose proof (source_items_length src (data_calls s)) as Hlen.
  rewrite <- Hprod, <- Hbuf, !length_app in Hlen. lia.
Qed.

(** What the consumer received, read off its results. *)
Lemma received_results tr :
  received tr =
  omap (fun r => match r with Returned v => Some v | _ => None end) (results tr).
Proof.
  induction tr as [|e tr IH]; [done|].
  destruct e as [|a|r|]; simpl; try done.
  destruct r; simpl; by rewrite ?IH.
Qed.

(** A schedule that goes through yields a run. *)
Lemma interleave_run ks s tr s' : interleave ks s = Some (tr, s') -> run s tr s'.
Proof.
  revert s tr. induction ks as [|k ks IH]; intros s tr Hi; simpl in Hi.
  { simplify_eq. constructor. }
  destruct (thread_step k s) as [[e s1]|] eqn:Hk; [|done].
  destruct (interleave ks s1) as [[tr1 s2]|] eqn:Hrest; [|done]. simplify_eq.
  econstructor; [|by apply IH].
  destruct k; simpl in Hk.
  - destruct (constructed s) eqn:Hc; [done|]. simplify_eq. by constructor.
  - destruct (_prefetch_loop s) as [[a sa]|] eqn:Hw; [|done]. simplify_eq.
    by constructor.
  - destruct (constructed s) eqn:Hc; [|done].
    destruct (__next__ s) as [[r sr]|] eqn:Hn; [|done]. simplify_eq. by constructor.
  - destruct (constructed s) eqn:Hc; [|done]. simplify_eq. by constructor.
Qed.

End PrefetchProperties.

(** ** The scenarios of the spec, checked on the model *)

Section PrefetchScenarios.
Import Py PrefetchIterator.

Ltac not_in_trace :=
  let H := fresh in
  intros H;
  repeat (apply elem_of_cons in H as [H | H]; [discriminate H|]);
  by apply elem_of_nil in H.

Lemma run_123 : run (__init__ (iter_of [1; 2; 3] exhausted) 1) trace_123 final_123.
Proof. apply (interleave_run (map thread_of trace_123)). vm_compute. reflexivity. Defined.


Lemma run_closed : run (close two_buffered) trace_closed final_closed.
Proof. apply (interleave_run (map thread_of trace_closed)). vm_compute. reflexivity. Defined.

Lemma prefetch_fifo_order_witness :
  received trace_123 ++ _buffer final_123 ++ in_hand (worker final_123) = [1; 2; 3] /\
  results trace_123 = [Returned 1; Returned 2; Returned 3; Reraised exhausted] /\
  (exists k ends,
     results trace_123 = map Returned (take k [1; 2; 3]) ++ ends /\
     Forall (fun r => signals_end r = true) ends /\
     (ends <> [] -> k = 3%nat)) /\
  is_Some (blocking_next 4 final_123) /\
  exists r, signals_end r = true /\
    consume 4 (finish_init (__init__ (iter_of [1; 2; 3] exhausted) 1)) =
    [Returned 1; Returned 2; Returned 3; r].
Proof.
  destruct (prefetch_fifo_order _ _ _ _ run_123) as (Hfifo & Hfinite).
  destruct (Hfinite [1; 2; 3] exhausted eq_refl eq_refl) as (Hsafe & Hlive).
  assert (Hcf : close_free trace_123) by (unfold close_free, trace_123; not_in_trace).
  destruct (Hlive ltac:(lia)) as (Hserved & Hall).
  split; [exact Hfifo|]. split; [reflexivity|].
  split; [exact (Hsafe Hcf)|]. split; [exact Hserved | exact Hall].
Defined.



(** C7 as the spec states it, for every depth, fails: with
    [buffer_size = 0] no interleaving hands the consumer both items of a
    source that yields 1 and 2. *)
Lemma prefetch_depth_zero_starves : ~ @delivers_every_item Z.
Proof.
  intros Hclaim.
  destruct (Hclaim 0 [1; 2] exhausted eq_refl) as (tr & s & r & Hrun & _ & Hres).
  pose proof (nonpositive_depth_received _ 0 _ _ ltac:(lia) Hrun) as Hlen.
  rewrite received_results, Hres in Hlen. simpl in Hlen.
  destruct r; simpl in Hlen; lia.
Qed.

Lemma close_keeps_buffered_items_witness :
  (exists k rest,
     results trace_closed = map Returned (take k [1; 2]) ++ rest /\
     (rest <> [] -> k = 2%nat)) /\
  (exists r s'', __next__ final_closed = Some (r, s'') /\
     match r with
     | Returned v => exists rest, _buffer final_closed = v :: rest /\ _buffer s'' = rest
     | _ => _buffer final_closed = []
     end).
Proof.
  destruct (close_keeps_buffered_items _ _ _ run_closed) as (Hfirst & Hnext).
  split; [exact Hfirst | exact Hnext].
Defined.

End PrefetchScenarios.

(** * Properties of the module binder *)

Section LinenProperties.
Import Py Linen.
Local Open Scope py_scope.

(** Unfolds the monadic plumbing of a computation. *)
Ltac unfold_m :=
  unfold bind, ret, throw, get_world, modify in *; simpl in *.

(** Reading an attribute leaves the world alone. *)
Lemma instance_of_pure l w : snd (instance_of l w) = w.
Proof. unfold instance_of. by destruct (heap w !! l). Qed.

Lemma getattr_pure self name w : snd (getattr self name w) = w.
Proof.
  unfold getattr, instance_of. unfold_m.
  destruct (heap w !! self) as [i|]; [|done]. simpl.
  destruct (__dict__ i !! name); [done|]. by destruct (class_attr w name).
Qed.

Lemma getattr_eq self name w r : fst (getattr self name w) = r -> getattr self name w = (r, w).
Proof.
  intros <-. rewrite <- (getattr_pure self name w) at 3. by destruct (getattr self name w).
Qed.

Lemma state_of_pure self w : snd (state_of self w) = w.
Proof.
  unfold state_of, bind. pose proof (getattr_pure self "_state" w) as Hp.
  destruct (getattr self "_state" w) as [[v|e] w1]; simpl in *; subst; [|done].
  by destruct v.
Qed.

Lemma state_of_eq self w r : fst (state_of self w) = r -> state_of self w = (r, w).
Proof.
  intros <-. rewrite <- (state_of_pure self w) at 3. by destruct (state_of self w).
Qed.

Lemma scope_of_pure self w : snd (scope_of self w) = w.
Proof.
  unfold scope_of, bind. pose proof (getattr_pure self "scope" w) as Hp.
  destruct (getattr self "scope" w) as [[v|e] w1]; simpl in *; subst; [|done].
  by destruct v.
Qed.

Lemma scope_of_eq self w r : fst (scope_of self w) = r -> scope_of self w = (r, w).
Proof.
  intros <-. rewrite <- (scope_of_pure self w) at 3. by destruct (scope_of self w).
Qed.

Lemma _initialization_allowed_pure self w : snd (_initialization_allowed self w) = w.
Proof.
  unfold _initialization_allowed, bind. pose proof (state_of_pure self w) as Hp.
  by destruct (state_of self w) as [[st|e] w1]; simpl in *; subst.
Qed.

Lemma _initialization_allowed_eq self w r :
  fst (_initialization_allowed self w) = r -> _initialization_allowed self w = (r, w).
Proof.
  intros <-. rewrite <- (_initialization_allowed_pure self w) at 3.
  by destruct (_initialization_allowed self w).
Qed.

Lemma _name_taken_pure self name w : snd (_name_taken self name w) = w.
Proof.
  unfold _name_taken, bind. pose proof (scope_of_pure self w) as Hp.
  destruct (scope_of self w) as [[sc|e] w1]; simpl in *; subst; [|done].
  pose proof (instance_of_pure self w) as Hi.
  by destruct (instance_of self w) as [[i|e] w1]; simpl in *; subst.
Qed.

Lemma _name_taken_eq self name w r :
  fst (_name_taken self name w) = r -> _name_taken self name w = (r, w).
Proof.
  intros <-. rewrite <- (_name_taken_pure self name w) at 3.
  by destruct (_name_taken self name w).
Qed.

(** C4.  A method wrapped by [wrap_method] that is called on a module whose
    [scope] is [None] raises [ValueError] and changes nothing; the outcome
    does not depend on the body of the method, which is not run. *)
Theorem orphan_method_call_rejected fun_ self args w :
  fst (getattr self "scope" w) = Ok PyNone ->
  wrapped_module_method fun_ self args w =
  (Raise (raise_ ValueError "Can't call methods on orphaned modules"), w).
Proof.
  intros Hscope. unfold wrapped_module_method, bind.
  by rewrite (getattr_eq _ _ _ _ Hscope).
Qed.

(** The module stack plays no part in attribute lookup. *)
Lemma state_of_stack self stack w :
  state_of self (set_module_stack stack w) =
  (fst (state_of self w), set_module_stack stack w).
Proof.
  unfold state_of, getattr, instance_of. unfold_m.
  destruct (heap w !! self) as [i|]; [|done]. simpl.
  destruct (__dict__ i !! "_state") as [v|]; [by destruct v | done].
Qed.

Lemma set_module_stack_same w stack :
  set_module_stack (module_stack w) (set_module_stack stack w) = w.
Proof. by destruct w. Qed.

Lemma variable_not_allowed self col name init_fn init_args w st :
  fst (state_of self w) = Ok st ->
  in_setup st = false -> in_compact_method st = false ->
  variable self col name init_fn init_args w =
  (Raise (raise_ ValueError
     "Variables must be initialized in `setup()` or in a method wrapped in `@compact`"), w).
Proof.
  intros Hst Hs Hc. unfold variable, _initialization_allowed, bind.
  rewrite (state_of_eq _ _ _ Hst). unfold ret. by rewrite Hs, Hc.
Qed.

Lemma param_not_allowed self name init_fn init_args w st :
  fst (state_of self w) = Ok st ->
  in_setup st = false -> in_compact_method st = false ->
  param self name init_fn init_args w =
  (Raise (raise_ ValueError
     "Parameters must be initialized in `setup()` or in a method wrapped in `@compact`"), w).
Proof.
  intros Hst Hs Hc. unfold param, _initialization_allowed, bind.
  rewrite (state_of_eq _ _ _ Hst). unfold ret. by rewrite Hs, Hc.
Qed.

(** A wrapped method that is neither compact nor [setup] runs its body with
    the lifecycle flags as they are and restores the module stack. *)
Lemma plain_method_failure fun_ self args w v e :
  method_compact fun_ = false -> method_name fun_ <> "setup" ->
  fst (getattr self "scope" w) = Ok v -> v <> PyNone ->
  (forall stack, method_body fun_ self args (set_module_stack stack w) =
                 (Raise e, set_module_stack stack w)) ->
  wrapped_module_method fun_ self args w = (Raise e, w).
Proof.
  intros Hcompact Hname Hscope Hbound Hbody.
  unfold wrapped_module_method, bind.
  rewrite (getattr_eq _ _ _ _ Hscope), Hcompact.
  apply String.eqb_neq in Hname. rewrite Hname.
  assert (Hrest :
    (stack_push (PyModule self);;
     try_finally (method_body fun_ self args)
       (stack_pop;; (if false then
                       sc <- scope_of self;; sc' <- scope_rewound sc;;
                       object_setattr self "scope" (PyScope sc')
                     else ret tt);;
        (if false || false then update_state self reset else ret tt))) w
    = (Raise e, w)).
  { unfold stack_push, stack_pop, try_finally. unfold_m.
    rewrite Hbody. simpl. by rewrite set_module_stack_same. }
  destruct v; try done; exact Hrest.
Qed.

(** C2.  While the lifecycle state of a module is neither [in_setup] nor
    [in_compact_method], [variable] and [param] raise [ValueError] and
    leave the world as it was; so does every instrumented method, other
    than [setup] and the compact method, whose body makes such a call. *)
Theorem declaration_outside_init_rejected self col name init_fn init_args w st :
  fst (state_of self w) = Ok st ->
  in_setup st = false -> in_compact_method st = false ->
  (exists msg,
     variable self col name init_fn init_args w = (Raise (raise_ ValueError msg), w)) /\
  (exists msg,
     param self name init_fn init_args w = (Raise (raise_ ValueError msg), w)) /\
  (forall fun_ args v,
     method_compact fun_ = false -> method_name fun_ <> "setup" ->
     fst (getattr self "scope" w) = Ok v -> v <> PyNone ->
     method_body fun_ = (fun self _ => variable self col name init_fn init_args) \/
     method_body fun_ = (fun self _ => param self name init_fn init_args) ->
     exists msg,
       wrapped_module_method fun_ self args w = (Raise (raise_ ValueError msg), w)).
Proof.
  intros Hst Hs Hc. split; [|split].
  - eexists. by eapply variable_not_allowed.
  - eexists. by eapply param_not_allowed.
  - intros fun_ args v Hcompact Hname Hscope Hbound [Hbody | Hbody]; eexists;
      eapply plain_method_failure; eauto; intros stack; rewrite Hbody.
    + eapply variable_not_allowed; eauto. by rewrite state_of_stack.
    + eapply param_not_allowed; eauto. by rewrite state_of_stack.
Qed.

(** Recording the declared name changes the state object and nothing else. *)
Lemma update_state_spec self f w st :
  fst (state_of self w) = Ok st ->
  exists w1,
    update_state self f w = (Ok tt, w1) /\
    scopes w1 = scopes w /\ module_stack w1 = module_stack w /\
    fst (state_of self w1) = Ok (f st) /\
    (forall name, name <> "_state" ->
       fst (getattr self name w1) = fst (getattr self name w)).
Proof.
  unfold state_of, update_state, getattr, instance_of. unfold_m.
  destruct (heap w !! self) as [i|] eqn:Hi; [|done]. simpl.
  destruct (__dict__ i !! "_state") as [v|] eqn:Hv; simpl.
  - destruct v; try done. intros [= ->]. eexists. split; [reflexivity|]. simpl.
    rewrite lookup_insert_eq. simpl. rewrite lookup_insert_eq.
    repeat split; try done.
    intros name Hne. rewrite lookup_insert_ne by done.
    destruct (__dict__ i !! name); [done|]. unfold class_attr. simpl.
    by repeat case_match.
  - intros [= <-]. eexists. split; [reflexivity|]. simpl. rewrite Hi. simpl. rewrite Hv.
    repeat split; try done.
    intros name Hne. apply String.eqb_neq in Hne.
    destruct (__dict__ i !! name); [done|]. unfold class_attr.
    rewrite Hne. by repeat case_match.
Qed.

Lemma scope_of_frame self w w1 :
  fst (getattr self "scope" w1) = fst (getattr self "scope" w) ->
  fst (scope_of self w1) = fst (scope_of self w).
Proof.
  intros Hf. unfold scope_of, bind.
  rewrite (getattr_eq self "scope" w1 _ eq_refl), (getattr_eq self "scope" w _ eq_refl).
  rewrite Hf. destruct (fst (getattr self "scope" w)) as [v|e]; [|done].
  by destruct v.
Qed.

(** C1, what the code does.  In the situation of the claim (declaration
    allowed, name free) [variable] records the name as [last_varname] and
    then raises [NameError]: the scope is not asked to create or fetch
    anything, no initializer runs, and the children of the module are
    left as they were. *)
Theorem variable_raises_name_error self col name init_fn init_args w :
  fst (_initialization_allowed self w) = Ok true ->
  fst (_name_taken self name w) = Ok false ->
  exists w',
    variable self col name init_fn init_args w =
      (Raise (raise_ NameError "name 'kind' is not defined"), w') /\
    scopes w' = scopes w /\
    fst (getattr self "children" w') = fst (getattr self "children" w) /\
    (exists st, fst (state_of self w') = Ok st /\ last_varname st = Some name).
Proof.
  intros Hallowed Htaken. unfold variable, bind at 1.
  rewrite (_initialization_allowed_eq _ _ _ Hallowed). simpl.
  unfold bind at 1. rewrite (_name_taken_eq _ _ _ _ Htaken). simpl.
  assert (Hst : exists st, fst (state_of self w) = Ok st).
  { unfold _initialization_allowed, bind in Hallowed.
    destruct (state_of self w) as [[st|e] w1]; [by eexists | done]. }
  destruct Hst as [st Hst].
  assert (Hsc : exists sc, fst (scope_of self w) = Ok sc).
  { unfold _name_taken, bind in Htaken.
    destruct (scope_of self w) as [[sc|e] w1]; [by eexists | done]. }
  destruct Hsc as [sc Hsc].
  destruct (update_state_spec self (set_last_varname (Some name)) w st Hst)
    as (w1 & Hupd & Hscopes & _ & Hst1 & Hframe).
  exists w1. unfold bind at 1. rewrite Hupd. unfold bind at 1.
  assert (Hsc1 : fst (scope_of self w1) = Ok sc).
  { rewrite <- Hsc. apply scope_of_frame. by apply Hframe. }
  rewrite (scope_of_eq _ _ _ Hsc1). unfold throw.
  repeat split; try done.
  - by apply Hframe.
  - by exists (set_last_varname (Some name) st).
Qed.

(** *** Which computations leave an attribute alone *)

Lemma preserves_pure self f {A} (m : M A) :
  (forall w, snd (m w) = w) -> preserves_attr self f m.
Proof. intros Hp w. by rewrite Hp. Qed.

Lemma preserves_ret self f {A} (a : A) : preserves_attr self f (ret a).
Proof. by apply preserves_pure. Qed.

Lemma preserves_throw self f {A} c msg : preserves_attr self f (@throw A c msg).
Proof. by apply preserves_pure. Qed.

Lemma preserves_bind self f {A B} (m : M A) (k : A -> M B) :
  preserves_attr self f m -> (forall a, preserves_attr self f (k a)) ->
  preserves_attr self f (bind m k).
Proof.
  intros Hm Hk w. unfold bind. specialize (Hm w).
  destruct (m w) as [[a|e] w1]; simpl in *; [|done].
  by rewrite Hk.
Qed.

Lemma getattr_heap_eq self f w w' :
  heap w' !! self = heap w !! self ->
  (f = "_state" -> shared_state w' = shared_state w) ->
  fst (getattr self f w') = fst (getattr self f w).
Proof.
  intros Hheap Hshared. unfold getattr, instance_of. unfold_m. rewrite Hheap.
  destruct (heap w !! self) as [i|]; [|done]. simpl.
  destruct (__dict__ i !! f); [done|]. unfold class_attr.
  destruct (String.eqb_spec f "_state") as [->|Hne]; [by rewrite Hshared|].
  by repeat case_match.
Qed.

Lemma getattr_insert_ne self f l cls d k v w :
  heap w !! l = Some (Instance cls d) -> k <> f ->
  fst (getattr self f (set_heap (<[l := Instance cls (<[k := v]> d)]> (heap w)) w)) =
  fst (getattr self f w).
Proof.
  intros Hl Hne. unfold getattr, instance_of. unfold_m.
  destruct (decide (l = self)) as [->|Hls].
  - rewrite lookup_insert_eq, Hl. simpl. rewrite lookup_insert_ne by done.
    destruct (d !! f); [done|]. unfold class_attr. simpl. by repeat case_match.
  - rewrite lookup_insert_ne by done.
    destruct (heap w !! self) as [i|]; [|done]. simpl.
    destruct (__dict__ i !! f); [done|]. unfold class_attr. simpl.
    by repeat case_match.
Qed.

Lemma preserves_update_state self f l g :
  f <> "_state" -> preserves_attr self f (update_state l g).
Proof.
  intros Hne w. unfold update_state, instance_of. unfold_m.
  destruct (heap w !! l) as [[cls d]|] eqn:Hl; [|done]. simpl.
  destruct (d !! "_state") as [v|] eqn:Hv; simpl.
  - destruct v; try done. by apply getattr_insert_ne.
  - by apply getattr_heap_eq.
Qed.

Lemma preserves_children_set self f l name v :
  f <> "children" -> preserves_attr self f (children_set l name v).
Proof.
  intros Hne. unfold children_set. apply preserves_bind.
  { apply preserves_pure, getattr_pure. }
  intros c. destruct c; try apply preserves_throw.
  intros w. unfold instance_of. unfold_m.
  destruct (heap w !! l) as [[cls d']|] eqn:Hl; [|done]. simpl.
  by apply getattr_insert_ne.
Qed.

Lemma preserves_object_setattr self f l name v :
  f <> name -> preserves_attr self f (object_setattr l name v).
Proof.
  intros Hne w. unfold object_setattr, instance_of. unfold_m.
  destruct (heap w !! l) as [[cls d]|] eqn:Hl; [|done]. simpl.
  by apply getattr_insert_ne.
Qed.

Lemma preserves_scope_variable self f sc col name init_fn init_args :
  preserves_attr self f (scope_variable sc col name init_fn init_args).
Proof.
  intros w. unfold scope_variable.
  destruct (store_variables (scopes w) !! (sc, col, name)); simpl;
    [by apply getattr_heap_eq|].
  destruct (init_fn init_args); simpl; by apply getattr_heap_eq.
Qed.

Lemma preserves_variable self f l col name init_fn init_args :
  f <> "_state" -> preserves_attr self f (variable l col name init_fn init_args).
Proof.
  intros Hne. unfold variable.
  apply preserves_bind; [apply preserves_pure, _initialization_allowed_pure|].
  intros allowed. destruct allowed; simpl; [|apply preserves_throw].
  apply preserves_bind; [apply preserves_pure, _name_taken_pure|].
  intros taken. destruct taken.
  { apply preserves_bind; [apply preserves_pure, instance_of_pure|].
    intros i. apply preserves_throw. }
  apply preserves_bind; [by apply preserves_update_state|]. intros _.
  apply preserves_bind; [apply preserves_pure, scope_of_pure|]. intros _.
  apply preserves_throw.
Qed.

Lemma preserves_param self f l name init_fn init_args :
  f <> "_state" -> f <> "children" ->
  preserves_attr self f (param l name init_fn init_args).
Proof.
  intros Hne Hnc. unfold param.
  apply preserves_bind; [apply preserves_pure, _initialization_allowed_pure|].
  intros allowed. destruct allowed; simpl; [|apply preserves_throw].
  apply preserves_bind; [apply preserves_pure, _name_taken_pure|].
  intros taken. destruct taken.
  { apply preserves_bind; [apply preserves_pure, instance_of_pure|].
    intros i. apply preserves_throw. }
  apply preserves_bind; [by apply preserves_update_state|]. intros _.
  apply preserves_bind; [apply preserves_pure, scope_of_pure|]. intros sc.
  apply preserves_bind; [apply preserves_scope_variable|]. intros v.
  apply preserves_bind; [by apply preserves_children_set|]. intros _.
  apply preserves_ret.
Qed.

Lemma preserves_setattr self f l name v :
  f <> name -> preserves_attr self f (__setattr__ l name v).
Proof.
  intros Hne. unfold __setattr__.
  apply preserves_bind; [apply preserves_pure, instance_of_pure|]. intros i.
  apply preserves_bind; [|intros _; by apply preserves_object_setattr].
  repeat case_match; first [apply preserves_ret | apply preserves_throw].
Qed.

(** C5, as the code has it.  A declared field can be reassigned:
    [__setattr__] on the name of a dataclass field makes no check and
    stores the new value.  Nothing else touches it: an assignment to
    another attribute leaves the field as it was, whether it succeeds or
    raises, and so do [variable] and [param] (for a field that is not
    called [_state] or [children], the two attributes they update). *)
Theorem config_field_assignment self f v w i :
  heap w !! self = Some i ->
  f ∈ __dataclass_fields__ (__class__ i) ->
  (exists w', __setattr__ self f v w = (Ok tt, w') /\
              fst (getattr self f w') = Ok v) /\
  (forall l n v', n <> f -> preserves_attr self f (__setattr__ l n v')) /\
  (f <> "_state" -> f <> "children" ->
   forall l col name init_fn init_args,
     preserves_attr self f (variable l col name init_fn init_args) /\
     preserves_attr self f (param l name init_fn init_args)).
Proof.
  intros Hi Hf. split; [|split].
  - unfold __setattr__, object_setattr, instance_of, getattr. unfold_m.
    rewrite Hi. simpl. rewrite (bool_decide_true _ Hf).
    destruct (f =? "parent")%string; simpl; rewrite Hi; simpl.
    all: eexists; (split; [reflexivity|]); unfold instance_of; simpl;
      by rewrite lookup_insert_eq; simpl; rewrite lookup_insert_eq.
  - intros l n v' Hne. by apply preserves_setattr.
  - intros Hs Hc l col name init_fn init_args. split.
    + by apply preserves_variable.
    + by apply preserves_param.
Qed.

(** *** Registration of a subclass *)

Lemma NoDup_fst_filter {A} (P : string * A -> Prop) `{!forall x, Decision (P x)}
    (l : list (string * A)) :
  NoDup l.*1 -> NoDup (filter P l).*1.
Proof.
  induction l as [|x l IH]; simpl; [done|].
  intros Hnd. apply NoDup_cons in Hnd as [Hx Hnd].
  rewrite filter_cons. destruct (decide (P x)); simpl; [|by auto].
  apply NoDup_cons. split; [|by auto].
  intros Hin. apply Hx. apply list_elem_of_fmap in Hin as (y & -> & Hy).
  apply list_elem_of_fmap. exists y. split; [done|].
  by apply list_elem_of_filter in Hy as [_ Hy].
Qed.

Lemma compact_methods_spec cls n :
  n ∈ compact_methods cls <->
  exists m, class_members cls !! n = Some m /\
            is_callable m = true /\ has_compact m = true.
Proof.
  unfold compact_methods, getmembers_callable. split.
  - intros Hin. apply list_elem_of_fmap in Hin as ([n' m] & -> & Hin).
    apply list_elem_of_filter in Hin as [Hc Hin].
    apply list_elem_of_filter in Hin as [Hcall Hin].
    apply elem_of_map_to_list in Hin. by exists m.
  - intros (m & Hm & Hcall & Hc). apply list_elem_of_fmap. exists (n, m).
    split; [done|]. apply list_elem_of_filter. split; [done|].
    apply list_elem_of_filter. split; [done|]. by apply elem_of_map_to_list.
Qed.

(** C9, as the code has it.  The compact methods counted are the callable
    attributes that the class or a base in its MRO exposes with a [compact]
    mark, one per name.  With at most one of them the check passes; with
    more it raises a [RuntimeError] whose message is a fixed text, the same
    whichever methods are marked. *)
Theorem verify_compact_outcome cls :
  NoDup (compact_methods cls) /\
  (forall n, n ∈ compact_methods cls <->
     exists m, class_members cls !! n = Some m /\
               is_callable m = true /\ has_compact m = true) /\
  ((length (compact_methods cls) <= 1)%nat ->
     _verify_single_or_no_compact cls = Ok tt) /\
  ((1 < length (compact_methods cls))%nat ->
     _verify_single_or_no_compact cls =
     Raise (raise_ RuntimeError only_one_compact_msg)).
Proof.
  split; [|split; [|split]].
  - unfold compact_methods, getmembers_callable.
    do 2 apply NoDup_fst_filter. apply NoDup_fst_map_to_list.
  - apply compact_methods_spec.
  - intros Hle. unfold _verify_single_or_no_compact.
    destruct (1 <? Z.of_nat (length (compact_methods cls))) eqn:Hlt; [lia | done].
  - intros Hlt. unfold _verify_single_or_no_compact.
    destruct (1 <? Z.of_nat (length (compact_methods cls))) eqn:Hc; [done | lia].
Qed.

(** *** Hashing *)

(** The hash of a plain value does not depend on any module. *)
Lemma py_hash_plain H v :
  plain_hashable v = true -> exists z, forall mh, py_hash H mh v = Ok z.
Proof.
  revert v. fix IH 1. intros v.
  destruct v as [ | z | s | xs | xs | d | a | | l | sc | st ]; simpl;
    try discriminate; try (intros _; eexists; intros; reflexivity).
  intros Hall.
  assert (Hxs : exists zs, forall mh, hash_all (py_hash H mh) xs = Ok zs).
  { revert xs Hall. fix IHl 1. intros [|x xs] Hall; simpl in *.
    - by exists [].
    - apply andb_prop in Hall as [Hx Hrest].
      destruct (IH x Hx) as [z Hz]. destruct (IHl xs Hrest) as [zs Hzs].
      exists (z :: zs). intros mh. by rewrite Hz, Hzs. }
  destruct Hxs as [zs Hzs]. exists (hash_tuple H zs). intros mh. by rewrite Hzs.
Qed.

Lemma hash_all_plain H vs :
  forallb plain_hashable vs = true ->
  exists zs, forall mh, hash_all (py_hash H mh) vs = Ok zs.
Proof.
  induction vs as [|v vs IH]; simpl; [by exists []|].
  intros Hall. apply andb_prop in Hall as [Hv Hrest].
  destruct (py_hash_plain H v Hv) as [z Hz]. destruct (IH Hrest) as [zs Hzs].
  exists (z :: zs). intros mh. by rewrite Hz, Hzs.
Qed.

Lemma py_hash_unhashable H mh v :
  unhashable v = true -> exists e, py_hash H mh v = Raise e.
Proof. destruct v; simpl; try discriminate; intros _; by eexists. Qed.

Lemma hash_all_fails (h : pyval -> result Z) vs v :
  v ∈ vs -> (exists e, h v = Raise e) -> exists e, hash_all h vs = Raise e.
Proof.
  intros Hin [e He]. induction vs as [|x vs IH]; [by apply elem_of_nil in Hin|].
  simpl. apply elem_of_cons in Hin as [<- | Hin].
  - rewrite He. by eexists.
  - destruct (h x); [|by eexists]. destruct (IH Hin) as [e' ->]. by eexists.
Qed.

Lemma hash_unbound H d w self :
  fst (getattr self "scope" w) = Ok PyNone ->
  __hash__ H (S d) w self = dataclass_hash H (__hash__ H d w) w self.
Proof. intros Hs. simpl. unfold _wrap_hash. by rewrite Hs. Qed.

(** C8, as the code has it.  Hashing a module that holds a scope raises
    [ValueError].  Hashing a module without one is the hash the dataclass
    generates, that of the tuple of all its fields ([parent] and [name]
    included): when the field values are plain hashable values it succeeds
    and the result depends on those values only, so every unbound module
    with the same field values hashes to the same number; when a field
    holds a value of an unhashable type (a list, a dict, an array) it
    raises. *)
Theorem hash_of_module H d w self :
  (forall v, fst (getattr self "scope" w) = Ok v -> v <> PyNone ->
     __hash__ H (S d) w self =
     Raise (raise_ ValueError "Can't call __hash__ on modules that hold variables.")) /\
  (fst (getattr self "scope" w) = Ok PyNone ->
   forall i vs,
     heap w !! self = Some i ->
     field_values w self (__dataclass_fields__ (__class__ i)) = Ok vs ->
     (forallb plain_hashable vs = true ->
        exists z,
          __hash__ H (S d) w self = Ok z /\
          forall d' w' self' i',
            fst (getattr self' "scope" w') = Ok PyNone ->
            heap w' !! self' = Some i' ->
            field_values w' self' (__dataclass_fields__ (__class__ i')) = Ok vs ->
            __hash__ H (S d') w' self' = Ok z) /\
     (forall v, v ∈ vs -> unhashable v = true ->
        exists e, __hash__ H (S d) w self = Raise e)).
Proof.
  split.
  - intros v Hs Hv. simpl. unfold _wrap_hash. rewrite Hs. by destruct v.
  - intros Hs i vs Hi Hvs. split.
    + intros Hplain. destruct (hash_all_plain H vs Hplain) as [zs Hzs].
      exists (hash_tuple H zs). split.
      * rewrite (hash_unbound _ _ _ _ Hs). unfold dataclass_hash, instance_of.
        rewrite Hi. simpl. rewrite Hvs. simpl. by rewrite Hzs.
      * intros d' w' self' i' Hs' Hi' Hvs'.
        rewrite (hash_unbound _ _ _ _ Hs'). unfold dataclass_hash, instance_of.
        rewrite Hi'. simpl. rewrite Hvs'. simpl. by rewrite Hzs.
    + intros v Hin Hun. rewrite (hash_unbound _ _ _ _ Hs).
      unfold dataclass_hash, instance_of. rewrite Hi. simpl. rewrite Hvs. simpl.
      destruct (hash_all_fails (py_hash H (__hash__ H d w)) vs v Hin
                  (py_hash_unhashable H _ v Hun)) as [e ->].
      by eexists.
Qed.

(** *** Evaluating the primitives on a known heap *)

Lemma bind_ok {A B} (m : M A) (k : A -> M B) w a w1 :
  m w = (Ok a, w1) -> bind m k w = k a w1.
Proof. unfold bind. by intros ->. Qed.

Lemma heap_set_heap h w : heap (set_heap h w) = h.
Proof. done. Qed.

Lemma scopes_set_heap h w : scopes (set_heap h w) = scopes w.
Proof. done. Qed.

Lemma instance_of_ok l w i : heap w !! l = Some i -> instance_of l w = (Ok i, w).
Proof. unfold instance_of. by intros ->. Qed.

Lemma getattr_own l n w i v :
  heap w !! l = Some i -> __dict__ i !! n = Some v -> getattr l n w = (Ok v, w).
Proof.
  intros Hi Hv. unfold getattr.
  rewrite (bind_ok _ _ _ _ _ (instance_of_ok _ _ _ Hi)).
  unfold bind, get_world. by rewrite Hv.
Qed.

Lemma state_of_own l w i st :
  heap w !! l = Some i -> __dict__ i !! "_state" = Some (PyState st) ->
  state_of l w = (Ok st, w).
Proof.
  intros Hi Hv. unfold state_of. by rewrite (bind_ok _ _ _ _ _ (getattr_own _ _ _ _ _ Hi Hv)).
Qed.

Lemma scope_of_own l w i sc :
  heap w !! l = Some i -> __dict__ i !! "scope" = Some (PyScope sc) ->
  scope_of l w = (Ok sc, w).
Proof.
  intros Hi Hv. unfold scope_of. by rewrite (bind_ok _ _ _ _ _ (getattr_own _ _ _ _ _ Hi Hv)).
Qed.

Lemma update_state_own l f w i st :
  heap w !! l = Some i -> __dict__ i !! "_state" = Some (PyState st) ->
  update_state l f w =
  (Ok tt, set_heap (<[l := Instance (__class__ i)
                            (<["_state" := PyState (f st)]> (__dict__ i))]> (heap w)) w).
Proof.
  intros Hi Hv. unfold update_state.
  rewrite (bind_ok _ _ _ _ _ (instance_of_ok _ _ _ Hi)). by rewrite Hv.
Qed.

Lemma object_setattr_ok l n v w i :
  heap w !! l = Some i ->
  object_setattr l n v w =
  (Ok tt, set_heap (<[l := Instance (__class__ i) (<[n := v]> (__dict__ i))]> (heap w)) w).
Proof.
  intros Hi. unfold object_setattr.
  by rewrite (bind_ok _ _ _ _ _ (instance_of_ok _ _ _ Hi)).
Qed.

(** Assigning a dataclass field goes straight to [object.__setattr__]. *)
Lemma setattr_field l n v w i :
  heap w !! l = Some i -> n ∈ __dataclass_fields__ (__class__ i) ->
  __setattr__ l n v w =
  (Ok tt, set_heap (<[l := Instance (__class__ i) (<[n := v]> (__dict__ i))]> (heap w)) w).
Proof.
  intros Hi Hn. unfold __setattr__.
  rewrite (bind_ok _ _ _ _ _ (instance_of_ok _ _ _ Hi)).
  rewrite (bool_decide_true _ Hn).
  assert (Hguard : (if String.eqb n "parent" then ret tt else ret tt) w = (Ok tt, w))
    by by destruct (String.eqb n "parent").
  rewrite (bind_ok _ _ _ _ _ Hguard). by apply object_setattr_ok.
Qed.

(** An assignment to a name that is neither [parent] nor a dataclass
    field reaches the unbound name of line 428. *)
Lemma setattr_other_raises self name val w i :
  heap w !! self = Some i -> name <> "parent" ->
  name ∉ __dataclass_fields__ (__class__ i) ->
  __setattr__ self name val w =
  (Raise (raise_ NameError "name 'get_suffix_value_pairs' is not defined"), w).
Proof.
  intros Hi Hparent Hfield. unfold __setattr__.
  rewrite (bind_ok _ _ _ _ _ (instance_of_ok _ _ _ Hi)).
  apply String.eqb_neq in Hparent. rewrite Hparent.
  by rewrite (bool_decide_false _ Hfield).
Qed.

Lemma children_set_ok l n v w i d :
  heap w !! l = Some i -> __dict__ i !! "children" = Some (PyDict d) ->
  children_set l n v w =
  (Ok tt, set_heap (<[l := Instance (__class__ i)
                            (<["children" := PyDict (dict_set d n v)]> (__dict__ i))]>
                      (heap w)) w).
Proof.
  intros Hi Hv. unfold children_set.
  rewrite (bind_ok _ _ _ _ _ (getattr_own _ _ _ _ _ Hi Hv)).
  by rewrite (bind_ok _ _ _ _ _ (instance_of_ok _ _ _ Hi)).
Qed.

Lemma _initialization_allowed_own l w i st :
  heap w !! l = Some i -> __dict__ i !! "_state" = Some (PyState st) ->
  _initialization_allowed l w = (Ok (in_setup st || in_compact_method st), w).
Proof.
  intros Hi Hv. unfold _initialization_allowed.
  by rewrite (bind_ok _ _ _ _ _ (state_of_own _ _ _ _ Hi Hv)).
Qed.

Lemma _name_taken_own l nm w i sc :
  heap w !! l = Some i -> __dict__ i !! "scope" = Some (PyScope sc) ->
  _name_taken l nm w =
  (Ok (bool_decide (nm ∈ reservations (scopes w) sc)
       || bool_decide (nm ∈ _all_names_on_object i)), w).
Proof.
  intros Hi Hv. unfold _name_taken.
  rewrite (bind_ok _ _ _ _ _ (scope_of_own _ _ _ _ Hi Hv)).
  by rewrite (bind_ok _ _ _ _ _ (instance_of_ok _ _ _ Hi)).
Qed.

(** *** Autonaming *)

Lemma all_names_dom cls d d' :
  dom d' = dom d ->
  _all_names_on_object (Instance cls d') = _all_names_on_object (Instance cls d).
Proof. intros Hd. unfold _all_names_on_object. simpl. by rewrite Hd. Qed.

Lemma set_heap_set_heap h h' w : set_heap h (set_heap h' w) = set_heap h w.
Proof. done. Qed.

Lemma check_omnistaging_ok w :
  omnistaging_enabled w = true -> _check_omnistaging w = (Ok tt, w).
Proof. intros H. unfold _check_omnistaging, bind, get_world. by rewrite H. Qed.

(** [_name_taken] looks at the instance and at the scope store only. *)
Lemma _name_taken_frame l nm w w' :
  heap w' !! l = heap w !! l -> scopes w' = scopes w ->
  fst (_name_taken l nm w') = fst (_name_taken l nm w).
Proof.
  intros Hh Hs.
  unfold _name_taken, scope_of, getattr, instance_of, bind, get_world, ret, throw.
  destruct (heap w !! l) as [i|] eqn:Hw; rewrite !Hh; [|done].
  destruct (__dict__ i !! "scope") as [v|]; [|done].
  destruct v; try done. rewrite Hh, Hw. cbv beta iota. by rewrite Hs.
Qed.

(** Lines 488-492: the automatic name of an unnamed submodule, and the
    counter of its class advanced on the parent. *)
Lemma autoname_ok w p c pcls pd ccls cd pst cur :
  heap w !! p = Some (Instance pcls pd) ->
  pd !! "_state" = Some (PyState pst) ->
  autoname_cursor pst = Some cur ->
  c <> p ->
  heap w !! c = Some (Instance ccls cd) ->
  "name" ∈ __dataclass_fields__ ccls ->
  autoname c p w =
  (Ok (__name__ ccls +:+ "_" +:+ pretty (default 0 (cur !! __name__ ccls))),
   set_heap
     (<[p := Instance pcls
               (<["_state" := PyState (set_autoname_cursor
                    (Some (<[__name__ ccls := default 0 (cur !! __name__ ccls) + 1]> cur))
                    pst)]> pd)]>
        (<[c := Instance ccls
                  (<["name" := PyStr (__name__ ccls +:+ "_" +:+
                                       pretty (default 0 (cur !! __name__ ccls)))]> cd)]>
           (heap w))) w).
Proof.
  intros Hp Hst Hcur Hne Hc Hfield.
  set (nm := __name__ ccls +:+ "_" +:+ pretty (default 0 (cur !! __name__ ccls))).
  set (w1 := set_heap (<[c := Instance ccls (<["name" := PyStr nm]> cd)]> (heap w)) w).
  assert (Hp1 : heap w1 !! p = Some (Instance pcls pd)).
  { unfold w1. rewrite heap_set_heap. by rewrite lookup_insert_ne. }
  unfold autoname.
  rewrite (bind_ok _ _ _ _ _ (instance_of_ok _ _ _ Hc)). cbn [__class__].
  rewrite (bind_ok _ _ _ _ _ (state_of_own _ _ _ _ Hp Hst)). rewrite Hcur.
  rewrite (bind_ok _ _ _ _ _ (setattr_field _ _ _ _ _ Hc Hfield)).
  cbn [__class__ __dict__]. fold nm. fold w1.
  rewrite (bind_ok _ _ _ _ _ (state_of_own _ _ _ _ Hp1 Hst)). rewrite Hcur.
  rewrite (bind_ok _ _ _ _ _ (update_state_own _ _ _ _ _ Hp1 Hst)).
  done.
Qed.

(** Lines 481-499 for an unnamed submodule under a parent that is in its
    compact method, when the automatic name is free on the parent. *)
Lemma register_step w p c pcls pd ccls cd pst sc cur kids :
  heap w !! p = Some (Instance pcls pd) ->
  pd !! "_state" = Some (PyState pst) ->
  in_setup pst = false -> in_compact_method pst = true ->
  autoname_cursor pst = Some cur ->
  pd !! "scope" = Some (PyScope sc) ->
  pd !! "children" = Some (PyDict kids) ->
  c <> p ->
  heap w !! c = Some (Instance ccls cd) ->
  cd !! "name" = Some PyNone ->
  "name" ∈ __dataclass_fields__ ccls ->
  free_name w p (__name__ ccls +:+ "_" +:+ pretty (default 0 (cur !! __name__ ccls))) ->
  register_on_parent c p w =
  (Ok true,
   set_heap
     (<[p := Instance pcls
               (<["children" := PyDict (dict_set kids
                     (__name__ ccls +:+ "_" +:+ pretty (default 0 (cur !! __name__ ccls)))
                     (PyModule c))]>
                  (<["_state" := PyState (set_autoname_cursor
                       (Some (<[__name__ ccls := default 0 (cur !! __name__ ccls) + 1]> cur))
                       pst)]> pd))]>
        (<[c := Instance ccls
                  (<["name" := PyStr (__name__ ccls +:+ "_" +:+
                                       pretty (default 0 (cur !! __name__ ccls)))]> cd)]>
           (heap w))) w).
Proof.
  intros Hp Hst Hsetup Hcompact Hcur Hsc Hkids Hne Hc Hname Hfield Hfree.
  set (nm := __name__ ccls +:+ "_" +:+ pretty (default 0 (cur !! __name__ ccls))) in *.
  set (cur' := <[__name__ ccls := default 0 (cur !! __name__ ccls) + 1]> cur).
  set (pd2 := <["_state" := PyState (set_autoname_cursor (Some cur') pst)]> pd).
  set (h1 := <[c := Instance ccls (<["name" := PyStr nm]> cd)]> (heap w)).
  set (w2 := set_heap (<[p := Instance pcls pd2]> h1) w).
  assert (Hp2 : heap w2 !! p = Some (Instance pcls pd2)).
  { unfold w2. rewrite heap_set_heap. by rewrite lookup_insert_eq. }
  assert (Hsc2 : pd2 !! "scope" = Some (PyScope sc)).
  { unfold pd2. by rewrite lookup_insert_ne. }
  assert (Hkids2 : pd2 !! "children" = Some (PyDict kids)).
  { unfold pd2. by rewrite lookup_insert_ne. }
  assert (Hdom2 : dom pd2 = dom pd).
  { unfold pd2. apply dom_insert_lookup_L. by eexists. }
  unfold register_on_parent.
  rewrite (bind_ok _ _ _ _ _ (state_of_own _ _ _ _ Hp Hst)).
  rewrite (bind_ok _ _ _ _ _ (getattr_own _ _ _ _ _ Hc Hname)).
  rewrite Hsetup. cbn [andb].
  rewrite (bind_ok _ _ _ _ _ (_initialization_allowed_own _ _ _ _ Hp Hst)).
  rewrite Hsetup, Hcompact. cbn [orb negb].
  rewrite (bind_ok _ _ _ _ _ (autoname_ok _ _ _ _ _ _ _ _ _ Hp Hst Hcur Hne Hc Hfield)).
  fold nm cur' pd2 h1 w2.
  rewrite (bind_ok _ _ _ _ _ (_name_taken_own _ _ _ _ _ Hp2 Hsc2)).
  assert (Hfree2 : bool_decide (nm ∈ reservations (scopes w2) sc)
                   || bool_decide (nm ∈ _all_names_on_object (Instance pcls pd2))
                   = false).
  { unfold free_name in Hfree.
    rewrite (_name_taken_own _ _ _ _ _ Hp Hsc) in Hfree. cbn [fst] in Hfree.
    injection Hfree as Hfree.
    by rewrite (all_names_dom pcls pd pd2 Hdom2). }
  rewrite Hfree2.
  rewrite (bind_ok _ _ _ _ _ (children_set_ok _ _ _ _ _ _ Hp2 Hkids2)).
  cbn [ret __class__ __dict__]. f_equal. unfold w2.
  rewrite heap_set_heap, set_heap_set_heap. f_equal.
  apply insert_insert_eq.
Qed.

(** The same when the automatic name is taken: the construction fails
    after the name was assigned and the counter advanced. *)
Lemma register_collision w p c pcls pd ccls cd pst sc cur :
  heap w !! p = Some (Instance pcls pd) ->
  pd !! "_state" = Some (PyState pst) ->
  in_setup pst = false -> in_compact_method pst = true ->
  autoname_cursor pst = Some cur ->
  pd !! "scope" = Some (PyScope sc) ->
  c <> p ->
  heap w !! c = Some (Instance ccls cd) ->
  cd !! "name" = Some PyNone ->
  "name" ∈ __dataclass_fields__ ccls ->
  fst (_name_taken p (__name__ ccls +:+ "_" +:+ pretty (default 0 (cur !! __name__ ccls))) w)
    = Ok true ->
  exists msg,
    register_on_parent c p w =
    (Raise (raise_ ValueError msg),
     set_heap
       (<[p := Instance pcls
                 (<["_state" := PyState (set_autoname_cursor
                      (Some (<[__name__ ccls := default 0 (cur !! __name__ ccls) + 1]> cur))
                      pst)]> pd)]>
          (<[c := Instance ccls
                    (<["name" := PyStr (__name__ ccls +:+ "_" +:+
                                         pretty (default 0 (cur !! __name__ ccls)))]> cd)]>
             (heap w))) w).
Proof.
  intros Hp Hst Hsetup Hcompact Hcur Hsc Hne Hc Hname Hfield Htaken.
  set (nm := __name__ ccls +:+ "_" +:+ pretty (default 0 (cur !! __name__ ccls))) in *.
  set (cur' := <[__name__ ccls := default 0 (cur !! __name__ ccls) + 1]> cur).
  set (pd2 := <["_state" := PyState (set_autoname_cursor (Some cur') pst)]> pd).
  set (h1 := <[c := Instance ccls (<["name" := PyStr nm]> cd)]> (heap w)).
  set (w2 := set_heap (<[p := Instance pcls pd2]> h1) w).
  assert (Hp2 : heap w2 !! p = Some (Instance pcls pd2)).
  { unfold w2. rewrite heap_set_heap. by rewrite lookup_insert_eq. }
  assert (Hc2 : heap w2 !! c = Some (Instance ccls (<["name" := PyStr nm]> cd))).
  { unfold w2, h1. rewrite heap_set_heap. rewrite lookup_insert_ne by done.
    by rewrite lookup_insert_eq. }
  assert (Hsc2 : pd2 !! "scope" = Some (PyScope sc)).
  { unfold pd2. by rewrite lookup_insert_ne. }
  assert (Hdom2 : dom pd2 = dom pd).
  { unfold pd2. apply dom_insert_lookup_L. by eexists. }
  eexists. unfold register_on_parent.
  rewrite (bind_ok _ _ _ _ _ (state_of_own _ _ _ _ Hp Hst)).
  rewrite (bind_ok _ _ _ _ _ (getattr_own _ _ _ _ _ Hc Hname)).
  rewrite Hsetup. cbn [andb].
  rewrite (bind_ok _ _ _ _ _ (_initialization_allowed_own _ _ _ _ Hp Hst)).
  rewrite Hsetup, Hcompact. cbn [orb negb].
  rewrite (bind_ok _ _ _ _ _ (autoname_ok _ _ _ _ _ _ _ _ _ Hp Hst Hcur Hne Hc Hfield)).
  fold nm cur' pd2 h1 w2.
  rewrite (bind_ok _ _ _ _ _ (_name_taken_own _ _ _ _ _ Hp2 Hsc2)).
  assert (Htaken2 : bool_decide (nm ∈ reservations (scopes w2) sc)
                    || bool_decide (nm ∈ _all_names_on_object (Instance pcls pd2))
                    = true).
  { rewrite (_name_taken_own _ _ _ _ _ Hp Hsc) in Htaken. cbn [fst] in Htaken.
    injection Htaken as Htaken.
    by rewrite (all_names_dom pcls pd pd2 Hdom2). }
  rewrite Htaken2.
  by rewrite (bind_ok _ _ _ _ _ (instance_of_ok _ _ _ Hc2)).
Qed.

(** C3.  Constructing a submodule of a class that does not declare
    [_state] among its dataclass fields, which is every class that only
    declares its configuration, raises [NameError]: the first statement of
    [__post_init__] after the omnistaging check assigns [self._state], and
    [__setattr__] evaluates the unbound name [get_suffix_value_pairs] for
    every name that is neither [parent] nor a field.  The world is left as
    it was; so under a parent that is inside its compact method an unnamed
    submodule keeps the name [None], the autoname cursor of the parent is
    not advanced and [setup] is not run.  The autonaming of lines 488-492
    is not reached. *)
Theorem submodule_construction_raises_name_error setup c w ic :
  omnistaging_enabled w = true ->
  heap w !! c = Some ic ->
  "_state" ∉ __dataclass_fields__ (__class__ ic) ->
  __post_init__ setup c w =
    (Raise (raise_ NameError "name 'get_suffix_value_pairs' is not defined"), w) /\
  forall p sc cur cls,
    compact_parent w p sc cur -> unnamed_child w c cls ->
    let w' := snd (__post_init__ setup c w) in
    fst (getattr c "name" w') = Ok PyNone /\
    compact_parent w' p sc cur /\
    fst (getattr p "children" w') = fst (getattr p "children" w).
Proof.
  intros Homni Hc Hfield.
  assert (Hraise : __post_init__ setup c w =
            (Raise (raise_ NameError "name 'get_suffix_value_pairs' is not defined"), w)).
  { unfold __post_init__, _check_omnistaging.
    unfold bind at 1. unfold bind at 1. unfold get_world. rewrite Homni. cbn [ret].
    unfold bind at 1.
    by rewrite (setattr_other_raises c "_state" _ w ic Hc ltac:(discriminate) Hfield). }
  split; [exact Hraise|].
  intros p sc cur cls Hparent (i & Hi & _ & Hname & _). rewrite Hraise. cbn [snd].
  split; [|done]. by rewrite (getattr_own _ _ _ _ _ Hi Hname).
Qed.

End LinenProperties.

(** ** Examples on concrete modules *)

Section LinenScenarios.
Import Py Linen.

(** Decides a closed decidable proposition by evaluation. *)
Ltac by_eval := apply (bool_decide_unpack _); vm_compute; exact I.

Lemma orphan_method_call_rejected_witness :
  wrapped_module_method declares_param 0%nat [] unbound_mlp_tuple =
  (Raise (raise_ ValueError "Can't call methods on orphaned modules"), unbound_mlp_tuple).
Proof.
  apply orphan_method_call_rejected. vm_compute. reflexivity.
Defined.

Lemma declaration_outside_init_rejected_witness :
  (exists msg, variable 0%nat "batch_stats" "mean" zeros [] idle_world =
               (Raise (raise_ ValueError msg), idle_world)) /\
  (exists msg, param 0%nat "kernel" zeros [] idle_world =
               (Raise (raise_ ValueError msg), idle_world)) /\
  (exists msg, wrapped_module_method declares_param 0%nat [] idle_world =
               (Raise (raise_ ValueError msg), idle_world)).
Proof.
  assert (Hst : fst (state_of 0%nat idle_world) = Ok new_state)
    by (vm_compute; reflexivity).
  destruct (declaration_outside_init_rejected 0%nat "batch_stats" "mean" zeros []
              idle_world new_state Hst eq_refl eq_refl) as (Hvar & _ & _).
  destruct (declaration_outside_init_rejected 0%nat "params" "kernel" zeros []
              idle_world new_state Hst eq_refl eq_refl) as (_ & Hpar & Hwrapped).
  split; [exact Hvar|]. split; [exact Hpar|].
  apply (Hwrapped declares_param [] (PyScope [])).
  - reflexivity.
  - discriminate.
  - vm_compute. reflexivity.
  - discriminate.
  - right. reflexivity.
Defined.

Lemma variable_raises_name_error_witness :
  exists w',
    variable 0%nat "batch_stats" "mean" zeros [] compact_world =
      (Raise (raise_ NameError "name 'kind' is not defined"), w') /\
    scopes w' = scopes compact_world /\
    fst (getattr 0%nat "children" w') = fst (getattr 0%nat "children" compact_world) /\
    (exists st, fst (state_of 0%nat w') = Ok st /\ last_varname st = Some "mean").
Proof.
  apply variable_raises_name_error; vm_compute; reflexivity.
Defined.
Lemma config_field_assignment_witness :
  (exists w', __setattr__ 0%nat "features" (PyInt 32) idle_world = (Ok tt, w') /\
              fst (getattr 0%nat "features" w') = Ok (PyInt 32)) /\
  preserves_attr 0%nat "features" (__setattr__ 0%nat "name" (PyStr "net")) /\
  preserves_attr 0%nat "features" (param 0%nat "kernel" zeros []).
Proof.
  assert (Hi : heap idle_world !! 0%nat = Some (Instance mlp_class (bound_dict new_state)))
    by (vm_compute; reflexivity).
  assert (Hf : "features" ∈ __dataclass_fields__ (__class__ (Instance mlp_class (bound_dict new_state))))
    by by_eval.
  destruct (config_field_assignment 0%nat "features" (PyInt 32) idle_world _ Hi Hf)
    as (Hset & Hother & Hdecl).
  split; [exact Hset|]. split.
  - apply Hother. discriminate.
  - apply (Hdecl ltac:(discriminate) ltac:(discriminate) 0%nat "params" "kernel" zeros []).
Defined.

(** C5 as the spec states it fails: [self.features = 32] goes through. *)
Lemma config_field_reassigned : ~ fields_immutable.
Proof.
  intros Hclaim.
  specialize (Hclaim idle_world 0%nat (Instance mlp_class (bound_dict new_state))
                "features" (PyInt 32)).
  assert (Hbefore : fst (getattr 0%nat "features" idle_world) = Ok (PyInt 16))
    by (vm_compute; reflexivity).
  assert (Hafter : fst (getattr 0%nat "features"
                          (snd (__setattr__ 0%nat "features" (PyInt 32) idle_world))) =
                   Ok (PyInt 32)) by (vm_compute; reflexivity).
  rewrite Hbefore, Hafter in Hclaim.
  discriminate Hclaim; [vm_compute; reflexivity | by_eval].
Qed.

Lemma hash_of_module_witness :
  __hash__ sample_hash 3 compact_world 0%nat =
    Raise (raise_ ValueError "Can't call __hash__ on modules that hold variables.") /\
  (exists z, __hash__ sample_hash 3 unbound_mlp_tuple 0%nat = Ok z /\
             __hash__ sample_hash 1 unbound_mlp_tuple 0%nat = Ok z) /\
  (exists e, __hash__ sample_hash 3 unbound_mlp_list 0%nat = Raise e).
Proof.
  destruct (hash_of_module sample_hash 2 compact_world 0%nat) as (Hbound & _).
  destruct (hash_of_module sample_hash 2 unbound_mlp_tuple 0%nat) as (_ & Htuple).
  destruct (hash_of_module sample_hash 2 unbound_mlp_list 0%nat) as (_ & Hlist).
  split; [|split].
  - apply (Hbound (PyScope [])); [vm_compute; reflexivity | discriminate].
  - destruct (Htuple ltac:(vm_compute; reflexivity)
                (mlp_with (PyTuple [PyInt 16; PyInt 4]))
                [PyTuple [PyInt 16; PyInt 4]; PyNone; PyNone]
                ltac:(vm_compute; reflexivity) ltac:(vm_compute; reflexivity))
      as (Hplain & _).
    destruct (Hplain eq_refl) as (z & Hz & Hsame).
    exists z. split; [exact Hz|].
    apply (Hsame 0%nat unbound_mlp_tuple 0%nat (mlp_with (PyTuple [PyInt 16; PyInt 4])));
      vm_compute; reflexivity.
  - destruct (Hlist ltac:(vm_compute; reflexivity)
                (mlp_with (PyList [PyInt 16; PyInt 4]))
                [PyList [PyInt 16; PyInt 4]; PyNone; PyNone]
                ltac:(vm_compute; reflexivity) ltac:(vm_compute; reflexivity))
      as (_ & Hfail).
    apply (Hfail (PyList [PyInt 16; PyInt 4])); [|reflexivity].
    apply elem_of_cons. by left.
Defined.

(** C8 as the spec states it fails: an unbound module whose field holds a
    list cannot be hashed. *)
Lemma unbound_hash_can_fail : ~ unbound_hash_succeeds sample_hash.
Proof.
  intros Hclaim.
  destruct (Hclaim 2%nat unbound_mlp_list 0%nat) as [z Hz]; [vm_compute; reflexivity|].
  vm_compute in Hz. discriminate Hz.
Qed.

Lemma verify_compact_outcome_witness :
  _verify_single_or_no_compact one_compact = Ok tt /\
  _verify_single_or_no_compact two_compact =
    Raise (raise_ RuntimeError only_one_compact_msg) /\
  "forward" ∈ compact_methods two_compact.
Proof.
  destruct (verify_compact_outcome one_compact) as (_ & _ & Hone & _).
  destruct (verify_compact_outcome two_compact) as (_ & Hspec & _ & Htwo).
  split; [|split].
  - apply Hone. vm_compute. lia.
  - apply Htwo. vm_compute. lia.
  - apply Hspec. exists (Member true true). vm_compute. by repeat split.
Defined.

(** C9 as the spec states it fails: the message of the error names neither
    of the two compact methods. *)
Lemma compact_error_names_no_method : ~ compact_error_lists_methods.
Proof.
  intros Hclaim.
  assert (Herr : _verify_single_or_no_compact two_compact =
                 Raise (raise_ RuntimeError only_one_compact_msg))
    by (vm_compute; reflexivity).
  specialize (Hclaim _ _ Herr "forward").
  apply Hclaim; [|vm_compute; reflexivity].
  apply compact_methods_spec. exists (Member true true). vm_compute. by repeat split.
Qed.

Lemma unnamed_dense w c :
  heap w !! c = Some (Instance dense_class child_dict) -> unnamed_child w c "Dense".
Proof.
  intros Hc. exists (Instance dense_class child_dict).
  split; [exact Hc|]. split; [reflexivity|]. split; [vm_compute; reflexivity | by_eval].
Defined.

Lemma unnamed_conv w c :
  heap w !! c = Some (Instance conv_class child_dict) -> unnamed_child w c "Conv".
Proof.
  intros Hc. exists (Instance conv_class child_dict).
  split; [exact Hc|]. split; [reflexivity|]. split; [vm_compute; reflexivity | by_eval].
Defined.

Lemma compact_world_parent : compact_parent compact_world 0%nat [] ∅.
Proof.
  exists (Instance mlp_class (bound_dict in_compact_state)), in_compact_state, [].
  repeat split; vm_compute; reflexivity.
Defined.

Lemma submodule_construction_raises_name_error_witness :
  __post_init__ (fun _ => ret PyNone) 1%nat compact_world =
    (Raise (raise_ NameError "name 'get_suffix_value_pairs' is not defined"),
     compact_world) /\
  fst (getattr 1%nat "name"
         (snd (__post_init__ (fun _ => ret PyNone) 1%nat compact_world))) = Ok PyNone /\
  compact_parent (snd (__post_init__ (fun _ => ret PyNone) 1%nat compact_world))
    0%nat [] ∅.
Proof.
  assert (Hc : heap compact_world !! 1%nat = Some (Instance dense_class child_dict))
    by (vm_compute; reflexivity).
  assert (Hfield : "_state" ∉ __dataclass_fields__
                     (__class__ (Instance dense_class child_dict))) by by_eval.
  destruct (submodule_construction_raises_name_error (fun _ => ret PyNone) 1%nat
              compact_world _ eq_refl Hc Hfield) as (Hraise & Hscenario).
  destruct (Hscenario 0%nat [] ∅ "Dense" compact_world_parent (unnamed_dense _ _ Hc))
    as (Hname & Hparent & _).
  split; [exact Hraise|]. split; [exact Hname | exact Hparent].
Defined.

End LinenScenarios.

(** * Further properties of the prefetch iterator *)

Section PrefetchMore.
Import Py PrefetchIterator.
Context {item : Type}.
Implicit Types (s : iterator item) (tr : list (event item)) (src : nat -> outcome item).

(** Case analysis of one step of the interleaving. *)
Ltac step_cases H :=
  inversion H; subst; clear H;
  repeat match goal with
  | Hw : _prefetch_loop _ = Some _ |- _ =>
      unfold _prefetch_loop, after_wait in Hw;
      repeat case_match; simplify_eq
  | Hn : __next__ _ = Some _ |- _ =>
      unfold __next__ in Hn; repeat case_match; simplify_eq
  end;
  simpl in *.

(** The prefetch depth is respected: the buffer never holds more than
    [buffer_size] items, or one item when [buffer_size] is below one, and
    while the worker is fetching there is room for what it fetches. *)
Theorem buffer_never_exceeds_depth src bs tr s :
  run (__init__ src bs) tr s ->
  Z.of_nat (length (_buffer s)) <= Z.max 1 bs /\
  (worker s = AtNext \/ (exists v, worker s = HaveItem v) ->
   Z.of_nat (length (_buffer s)) < Z.max 1 bs).
Proof.
  revert tr s. apply run_ind_last.
  { simpl. split; intros; lia. }
  intros tr s1 e s2 Hrun [Hle Hroom] Hstep.
  pose proof (fifo_invariant _ _ _ _ Hrun) as (_ & Hbs & _).
  unfold _predicate in *.
  step_cases Hstep; subst;
    repeat match goal with
    | Hq : worker _ = _ |- _ => rewrite Hq in *; simpl in *
    | Hq : _buffer _ = _ |- _ => rewrite Hq in *; simpl in *
    end;
    rewrite ?length_app in *; simpl in *;
    try (split; [lia | intros [Hc | [? Hc]]; try discriminate; lia]);
    try (split; [|intros [Hc | [? Hc]]; discriminate]; try lia).
  all: try (assert (Z.of_nat (length (_buffer s1)) < Z.max 1 (buffer_size s1))
              by (apply Hroom; eauto); lia).
  all: try (split; [lia|]; intros _;
            repeat match goal with
            | Hq : _ || _ = true |- _ => apply orb_true_iff in Hq as [Hq | Hq]
            end; try discriminate; lia).
  all: try tauto.
  all: unfold _predicate in *; simpl in *;
    repeat match goal with
    | Ha : _active _ = true, Hq : _ || _ = true |- _ =>
        rewrite Ha, orb_false_r in Hq; apply Z.ltb_lt in Hq
    end;
    rewrite ?length_app in *; simpl in *; split; [lia | intros _; lia].
Qed.

(** With a depth below one the worker calls the source exactly once.  In
    every interleaving, close included: while the worker stands before its
    first call no call has been made and the call is enabled and is its
    next step; once it has moved exactly one call has been made, and it
    never comes back to make another.  The consumer never receives more
    than one item, and when the first outcome of the source is an item, a
    consumer that keeps calling gets that item and then blocks for good. *)
Theorem nonpositive_depth_fetches_once src bs tr s :
  bs <= 0 ->
  run (__init__ src bs) tr s ->
  (worker s = AtNext ->
     data_calls s = 0%nat /\
     exists a s', _prefetch_loop s = Some (a, s') /\
                  data_calls s' = 1%nat /\ worker s' <> AtNext) /\
  (worker s <> AtNext -> data_calls s = 1%nat) /\
  (length (received tr) <= 1)%nat /\
  (forall v, src 0%nat = Yield v ->
     exists s1,
       blocking_next 4 (finish_init (__init__ src bs)) = Some (Returned v, s1) /\
       data_calls s1 = 1%nat /\
       (forall fuel, blocking_next fuel s1 = None) /\
       forall n, consume (S n) (finish_init (__init__ src bs)) = [Returned v]).
Proof.
  intros Hbs Hrun.
  destruct (nonpositive_depth_invariant _ _ _ _ Hbs Hrun) as [Hat Hnot].
  split; [|split; [done|split; [by eapply nonpositive_depth_received|]]].
  - intros Hw. split; [by apply Hat|].
    unfold _prefetch_loop. rewrite Hw, (Hat Hw).
    destruct (_data_iter s 0%nat) as [v|e]; [|destruct (is_Exception (exc_class_of e))];
      eexists _, _; (split; [reflexivity|]); simpl; rewrite (Hat Hw); done.
  - intros v Hv.
    assert (H1 : (1 <? bs) = false) by (apply Z.ltb_ge; lia).
    assert (H0 : (0 <? bs) = false) by (apply Z.ltb_ge; lia).
    set (s1 := Iterator src 1 bs [] true None Waiting true).
    assert (Hfirst : blocking_next 4 (finish_init (__init__ src bs)) =
                     Some (Returned v, s1)).
    { cbn -[Z.ltb]. rewrite Hv. cbn -[Z.ltb].
      unfold _predicate. cbn -[Z.ltb]. change (Z.of_nat 1) with 1. by rewrite H1. }
    assert (Hblocked : forall fuel, blocking_next fuel s1 = None).
    { intros [|fuel]; cbn -[Z.ltb]; unfold _predicate; cbn -[Z.ltb];
        change (Z.of_nat 0) with 0; by rewrite ?H0. }
    exists s1. split; [exact Hfirst|]. split; [done|]. split; [exact Hblocked|].
    intros n. cbn [consume]. rewrite Hfirst.
    destruct n as [|n]; [done|]. cbn [consume]. by rewrite Hblocked.
Qed.

Lemma produced_cons (e : event item) tr :
  produced (e :: tr) =
  match e with EvWorker (Appended v) => [v] | _ => [] end ++ produced tr.
Proof. by destruct e as [|[]| |]. Qed.

(** Once the iterator is inactive the worker winds down: it makes at most
    the call and the append it was about to make. *)
Lemma inactive_worker_winds_down s tr s' :
  run s tr s' -> _active s = false ->
  (data_calls s' + calls_left (worker s') <= data_calls s + calls_left (worker s))%nat /\
  (length (produced tr) + appends_left (worker s') <= appends_left (worker s))%nat.
Proof.
  induction 1 as [s | s e s1 tr s2 Hstep Hrun IH]; intros Hact; [simpl; lia|].
  pose proof (step_inactive _ _ _ Hstep Hact) as Hact1.
  destruct (IH Hact1) as [Hcalls Happ]. clear IH.
  rewrite produced_cons.
  step_cases Hstep;
    repeat match goal with
    | Hq : worker _ = _ |- _ => rewrite Hq in *; simpl in *
    end; try lia; try congruence.
Qed.

(** [close] takes effect at the next wait point of the worker: after it,
    the worker calls the source at most once more and appends at most one
    more item. *)
Theorem close_stops_worker s tr s' :
  run (close s) tr s' ->
  (data_calls s' <= data_calls s + 1)%nat /\ (length (produced tr) <= 1)%nat.
Proof.
  intros Hrun.
  destruct (inactive_worker_winds_down _ _ _ Hrun eq_refl) as [Hcalls Happ].
  simpl in *. destruct (worker s), (worker s'); simpl in *; lia.
Qed.

(** The constructor starts the worker before it sets [_error] to [None].
    When the first call to the source raises, the worker may record the
    exception before that assignment, which then wipes it: the consumer
    sees a plain end of sequence and the error is lost.  When the
    constructor finishes first, the consumer gets the exception. *)
Theorem early_error_lost src bs e :
  src 0%nat = Throw e ->
  is_Exception (exc_class_of e) = true -> exc_truthy e = true ->
  (exists s,
     run (__init__ src bs)
         [EvWorker (Caught e); EvWorker (Recorded e); EvInitDone; EvNext StopRaised] s /\
     _error s = None) /\
  (exists s,
     run (__init__ src bs)
         [EvInitDone; EvWorker (Caught e); EvWorker (Recorded e); EvNext (Reraised e)] s /\
     _error s = Some e).
Proof.
  intros Hsrc Hexc Htruthy. split.
  - eexists. split.
    + apply (interleave_run [Worker; Worker; Constructor; Consumer]).
      unfold interleave, thread_step, _prefetch_loop, __next__. simpl.
      rewrite Hsrc, Hexc. simpl. reflexivity.
    + reflexivity.
  - eexists. split.
    + apply (interleave_run [Constructor; Worker; Worker; Consumer]).
      unfold interleave, thread_step, _prefetch_loop, __next__. simpl.
      rewrite Hsrc, Hexc. simpl. rewrite Htruthy. reflexivity.
    + reflexivity.
Qed.

(** An exception of the source that is not an [Exception] escapes
    [except Exception]: the worker dies without recording it and without
    clearing [_active].  If that happens at the first call, the consumer
    never gets anything, and once the worker is dead a call of [__next__]
    waits forever unless somebody calls [close]. *)
Theorem uncaught_exception_starves_consumer src bs e tr s :
  src 0%nat = Throw e -> is_Exception (exc_class_of e) = false ->
  run (__init__ src bs) tr s -> close_free tr ->
  results tr = [] /\ _buffer s = [] /\ _active s = true /\
  (worker s = Finished -> forall n, blocking_next n s = None).
Proof.
  intros Hsrc Hexc Hrun Hcf.
  assert (Hinv : results tr = [] /\ _buffer s = [] /\ _active s = true /\
                 _data_iter s = src /\
                 ((worker s = AtNext /\ data_calls s = 0%nat) \/ worker s = Finished)).
  { revert tr s Hrun Hcf.
    refine (run_ind_last _ (fun tr s => close_free tr -> _) _ _).
    { intros _. simpl. repeat split; try done. by left. }
    intros tr s1 e' s2 Hrun IH Hstep Hcf.
    apply close_free_snoc in Hcf as [Hcf Hne].
    destruct (IH Hcf) as (Hres & Hbuf & Hact & Hd & Hpc). clear IH.
    rewrite results_snoc, Hres.
    step_cases Hstep; subst;
      repeat match goal with
      | Hq : worker _ = _ |- _ => rewrite Hq in *; simpl in *
      | Hq : _buffer _ = _ |- _ => rewrite Hq in *; simpl in *
      end; try done; try congruence;
      try (destruct Hpc as [[? ?] | ?]; congruence).
    - repeat split; try done. by right.
    - exfalso. rewrite Hact in *. discriminate. }
  destruct Hinv as (Hres & Hbuf & Hact & _ & _).
  repeat split; try done.
  intros Hfin n. destruct n; simpl; unfold __next__, _prefetch_loop;
    rewrite Hbuf, Hact, ?Hfin; done.
Qed.

End PrefetchMore.

Section PrefetchMoreScenarios.
Import Py PrefetchIterator.

Lemma buffer_never_exceeds_depth_witness :
  Z.of_nat (length (_buffer final_123)) <= Z.max 1 1.
Proof. exact (proj1 (buffer_never_exceeds_depth _ _ _ _ run_123)). Defined.

Lemma nonpositive_depth_fetches_once_witness :
  exists s,
    run (__init__ (iter_of [1; 2; 3] exhausted) 0)
        [EvInitDone; EvWorker (Fetched 1); EvWorker (Appended 1); EvNext (Returned 1)] s /\
    data_calls s = 1%nat /\ __next__ s = None /\ _prefetch_loop s = None /\
    consume 4 (finish_init (__init__ (iter_of [1; 2; 3] exhausted) 0)) = [Returned 1].
Proof.
  exists (Iterator (iter_of [1; 2; 3] exhausted) 1 0 [] true None Waiting true).
  assert (Hrun : run (__init__ (iter_of [1; 2; 3] exhausted) 0)
            [EvInitDone; EvWorker (Fetched 1); EvWorker (Appended 1); EvNext (Returned 1)]
            (Iterator (iter_of [1; 2; 3] exhausted) 1 0 [] true None Waiting true)).
  { apply (interleave_run [Constructor; Worker; Worker; Consumer]).
    vm_compute. reflexivity. }
  destruct (nonpositive_depth_fetches_once _ 0 _ _ ltac:(lia) Hrun)
    as (_ & Hmoved & _ & Hconsumer).
  destruct (Hconsumer 1 eq_refl) as (s1 & _ & _ & _ & Hall).
  split; [exact Hrun|].
  split; [apply Hmoved; discriminate|].
  split; [reflexivity|]. split; [reflexivity|]. exact (Hall 3%nat).
Defined.

Lemma close_stops_worker_witness :
  (data_calls final_closed <= data_calls two_buffered + 1)%nat /\
  (length (produced trace_closed) <= 1)%nat.
Proof. exact (close_stops_worker _ _ _ run_closed). Defined.

Lemma early_error_lost_witness :
  exists s,
    run (__init__ (iter_of ([] : list Z) boom) 1)
        [EvWorker (Caught boom); EvWorker (Recorded boom); EvInitDone; EvNext StopRaised] s /\
    _error s = None.
Proof.
  exact (proj1 (early_error_lost (iter_of ([] : list Z) boom) 1 boom
                  eq_refl eq_refl eq_refl)).
Defined.

Lemma uncaught_exception_starves_consumer_witness :
  exists s,
    run (__init__ (iter_of ([] : list Z) sys_exit) 1)
        [EvInitDone; EvWorker (Died sys_exit)] s /\
    _active s = true /\ blocking_next 4 s = None.
Proof.
  exists (Iterator (iter_of [] sys_exit) 1 1 [] true None
            Finished true).
  assert (Hrun : run (__init__ (iter_of ([] : list Z) sys_exit) 1)
            [EvInitDone; EvWorker (Died sys_exit)]
            (Iterator (iter_of [] sys_exit) 1 1 [] true None
               Finished true)).
  { apply (interleave_run [Constructor; Worker]). vm_compute. reflexivity. }
  assert (Hcf : close_free [EvInitDone;
                  EvWorker (Died sys_exit) : event Z]).
  { unfold close_free. intros H.
    repeat (apply elem_of_cons in H as [H | H]; [discriminate H|]).
    by apply elem_of_nil in H. }
  destruct (uncaught_exception_starves_consumer _ 1 sys_exit _ _ eq_refl eq_refl Hrun Hcf)
    as (_ & _ & Hact & Hblocked).
  split; [exact Hrun|]. split; [exact Hact | exact (Hblocked eq_refl 4%nat)].
Defined.

End PrefetchMoreScenarios.

(** * Further properties of the module binder *)

Section LinenMore.
Import Py Linen.
Local Open Scope py_scope.

(** ** Name collisions *)

(** The names [_all_names_on_object] collects: the attributes of the
    instance and every name defined by a class of its MRO. *)
Lemma all_names_spec (obj : instance) (name : string) :
  name ∈ _all_names_on_object obj <->
  name ∈ dom (__dict__ obj) \/ exists d, d ∈ __mro__ (__class__ obj) /\ name ∈ dom d.
Proof.
  unfold _all_names_on_object.
  generalize (dom (__dict__ obj)) as acc.
  induction (__mro__ (__class__ obj)) as [|d ds IH]; intros acc; simpl.
  - split; [by left|]. intros [H | (d & Hd & _)]; [done|]. by apply elem_of_nil in Hd.
  - rewrite IH. rewrite elem_of_union. split.
    + intros [[H | H] | (d' & Hd' & Hn)]; [by left | |].
      * right. exists d. split; [by left | done].
      * right. exists d'. split; [by right | done].
    + intros [H | (d' & Hd' & Hn)]; [by left; left|].
      apply elem_of_cons in Hd' as [-> | Hd']; [by left; right|].
      right. by exists d'.
Qed.

(** A declaration under a name that is reserved in the scope, or that is
    an attribute of the instance, or that any class of the MRO defines
    (a method name such as [setup], for instance), is rejected with
    [ValueError] by [variable] and by [param], and nothing changes. *)
Theorem declaration_with_taken_name_rejected self col name init_fn init_args w i st sc :
  heap w !! self = Some i ->
  __dict__ i !! "_state" = Some (PyState st) ->
  in_setup st || in_compact_method st = true ->
  __dict__ i !! "scope" = Some (PyScope sc) ->
  name ∈ reservations (scopes w) sc \/ name ∈ dom (__dict__ i) \/
    (exists d, d ∈ __mro__ (__class__ i) /\ name ∈ dom d) ->
  (exists msg, variable self col name init_fn init_args w =
               (Raise (raise_ ValueError msg), w)) /\
  (exists msg, param self name init_fn init_args w =
               (Raise (raise_ ValueError msg), w)).
Proof.
  intros Hi Hst Hallowed Hsc Htaken.
  assert (Ht : bool_decide (name ∈ reservations (scopes w) sc)
               || bool_decide (name ∈ _all_names_on_object i) = true).
  { apply orb_true_iff. destruct Htaken as [Hr | Hn].
    - left. by apply bool_decide_eq_true.
    - right. apply bool_decide_eq_true. by apply all_names_spec. }
  split; eexists.
  - unfold variable.
    rewrite (bind_ok _ _ _ _ _ (_initialization_allowed_own _ _ _ _ Hi Hst)).
    rewrite Hallowed. cbn [negb].
    rewrite (bind_ok _ _ _ _ _ (_name_taken_own _ _ _ _ _ Hi Hsc)). rewrite Ht.
    by rewrite (bind_ok _ _ _ _ _ (instance_of_ok _ _ _ Hi)).
  - unfold param.
    rewrite (bind_ok _ _ _ _ _ (_initialization_allowed_own _ _ _ _ Hi Hst)).
    rewrite Hallowed. cbn [negb].
    rewrite (bind_ok _ _ _ _ _ (_name_taken_own _ _ _ _ _ Hi Hsc)). rewrite Ht.
    by rewrite (bind_ok _ _ _ _ _ (instance_of_ok _ _ _ Hi)).
Qed.

(** ** [param], the declaration that works *)

(** Where declarations are allowed and the name is free, [param] records
    the name as [last_varname], hands the declaration to the scope, and,
    when the scope returns a value, registers the name under [children]
    with the tag "params" and returns that value; an exception of the
    scope or of the initializer is passed on and nothing is registered. *)
Theorem param_declares self name init_fn init_args w i st sc kids :
  heap w !! self = Some i ->
  __dict__ i !! "_state" = Some (PyState st) ->
  in_setup st || in_compact_method st = true ->
  __dict__ i !! "scope" = Some (PyScope sc) ->
  __dict__ i !! "children" = Some (PyDict kids) ->
  free_name w self name ->
  exists w1,
    update_state self (set_last_varname (Some name)) w = (Ok tt, w1) /\
    forall r w2, scope_param sc name init_fn init_args w1 = (r, w2) ->
      match r with
      | Raise e => param self name init_fn init_args w = (Raise e, w2)
      | Ok v =>
          exists w3,
            param self name init_fn init_args w = (Ok v, w3) /\
            scopes w3 = scopes w2 /\
            fst (getattr self "children" w3) =
              Ok (PyDict (dict_set kids name (PyStr "params"))) /\
            fst (state_of self w3) = Ok (set_last_varname (Some name) st)
      end.
Proof.
  intros Hi Hst Hallowed Hsc Hkids Hfree.
  destruct i as [cls d]. cbn [__dict__ __class__] in *.
  set (d1 := <["_state" := PyState (set_last_varname (Some name) st)]> d).
  set (w1 := set_heap (<[self := Instance cls d1]> (heap w)) w).
  assert (Hupd : update_state self (set_last_varname (Some name)) w = (Ok tt, w1))
    by apply (update_state_own _ _ _ _ _ Hi Hst).
  assert (Hi1 : heap w1 !! self = Some (Instance cls d1)).
  { unfold w1. rewrite heap_set_heap. by rewrite lookup_insert_eq. }
  assert (Hsc1 : d1 !! "scope" = Some (PyScope sc))
    by (unfold d1; by rewrite lookup_insert_ne).
  assert (Hkids1 : d1 !! "children" = Some (PyDict kids))
    by (unfold d1; by rewrite lookup_insert_ne).
  assert (Hnt : _name_taken self name w = (Ok false, w)).
  { unfold free_name in Hfree. by apply _name_taken_eq. }
  exists w1. split; [exact Hupd|]. intros r w2 Hscope.
  assert (Hheap2 : heap w2 = heap w1).
  { unfold scope_param, scope_variable in Hscope.
    repeat case_match; simplify_eq; done. }
  assert (Hstart :
    param self name init_fn init_args w =
    bind (scope_param sc name init_fn init_args)
      (fun v => children_set self name (PyStr "params") ;; ret v) w1).
  { unfold param.
    rewrite (bind_ok _ _ _ _ _ (_initialization_allowed_own _ _ _ _ Hi Hst)).
    rewrite Hallowed. cbn [negb].
    rewrite (bind_ok _ _ _ _ _ Hnt).
    rewrite (bind_ok _ _ _ _ _ Hupd).
    by rewrite (bind_ok _ _ _ _ _ (scope_of_own _ _ _ _ Hi1 Hsc1)). }
  rewrite Hstart.
  destruct r as [v|e]; [|by unfold bind; rewrite Hscope].
  unfold bind at 1. rewrite Hscope.
  assert (Hi2 : heap w2 !! self = Some (Instance cls d1)) by by rewrite Hheap2.
  rewrite (bind_ok _ _ _ _ _ (children_set_ok _ _ _ _ _ _ Hi2 Hkids1)).
  eexists. split; [reflexivity|]. cbn [__class__ __dict__].
  split; [done|]. split.
  - erewrite getattr_own; [done | by rewrite heap_set_heap, lookup_insert_eq |].
    cbn [__dict__]. by rewrite lookup_insert_eq.
  - erewrite state_of_own; [done | by rewrite heap_set_heap, lookup_insert_eq |].
    cbn [__dict__]. rewrite lookup_insert_ne by done. unfold d1.
    by rewrite lookup_insert_eq.
Qed.


(** ** The lifecycle around a method call *)

Lemma bind_seq_ok {A B C} (m : M A) (k : M B) (k2 : M C) w b w1 :
  (_ <- m ;; k)%py w = (Ok b, w1) ->
  (_ <- m ;; _ <- k ;; k2)%py w = k2 w1.
Proof.
  unfold bind. destruct (m w) as [[a|e] w0]; [|discriminate]. by intros ->.
Qed.

(** A call of a compact method, or of [setup], on a bound module: the
    body starts with the flag of its kind set and the module on top of
    the module stack; whatever the body returns or raises is the outcome
    of the call, and when the body leaves the module stack and the
    attributes [_state] and [scope] of the module in place, the call ends
    with the module popped, the lifecycle state reset (also the autoname
    cursor and [last_varname]), and, for a compact method, the
    reservations of the scope cleared. *)
Theorem wrapped_method_restores_lifecycle fun_ self args w i st sc
    w1 r w2 top rest i2 st2 sc2 :
  heap w !! self = Some i ->
  __dict__ i !! "_state" = Some (PyState st) ->
  __dict__ i !! "scope" = Some (PyScope sc) ->
  method_compact fun_ || String.eqb (method_name fun_) "setup" = true ->
  (update_state self (if method_compact fun_ then set_in_compact_method true
                      else set_in_setup true) ;;
   stack_push (PyModule self))%py w = (Ok tt, w1) ->
  method_body fun_ self args w1 = (r, w2) ->
  module_stack w2 = top :: rest ->
  heap w2 !! self = Some i2 ->
  __dict__ i2 !! "_state" = Some (PyState st2) ->
  __dict__ i2 !! "scope" = Some (PyScope sc2) ->
  fst (state_of self w1) =
    Ok (if method_compact fun_ then set_in_compact_method true st
        else set_in_setup true st) /\
  module_stack w1 = PyModule self :: module_stack w /\
  exists w3,
    wrapped_module_method fun_ self args w = (r, w3) /\
    module_stack w3 = rest /\
    fst (state_of self w3) = Ok new_state /\
    fst (getattr self "scope" w3) = Ok (PyScope sc2) /\
    (method_compact fun_ = true -> reservations (scopes w3) sc2 = ∅) /\
    (method_compact fun_ = false -> scopes w3 = scopes w2).
Proof.
  intros Hi Hst Hsc Hkind Hw1 Hbody Hstack Hi2 Hst2 Hsc2.
  set (f := if method_compact fun_ then set_in_compact_method true
            else set_in_setup true) in *.
  assert (Hf : (if method_compact fun_ then set_in_compact_method true st
                else set_in_setup true st) = f st)
    by (unfold f; by destruct (method_compact fun_)).
  rewrite Hf.
  pose proof (update_state_own self f w i st Hi Hst) as Hupd.
  rewrite (bind_ok _ _ _ _ _ Hupd) in Hw1.
  unfold stack_push, modify in Hw1. injection Hw1 as <-.
  split; [|split; [done|]].
  { erewrite state_of_own; [done | cbn; by rewrite lookup_insert_eq |].
    cbn [__dict__]. by rewrite lookup_insert_eq. }
  set (w1 := set_module_stack _ _) in *.
  assert (Hentry : ((if method_compact fun_
                     then update_state self (set_in_compact_method true)
                     else if String.eqb (method_name fun_) "setup"
                          then update_state self (set_in_setup true)
                          else ret tt) ;;
                    stack_push (PyModule self))%py w = (Ok tt, w1)).
  { assert (Hsame : (if method_compact fun_
                     then update_state self (set_in_compact_method true)
                     else if String.eqb (method_name fun_) "setup"
                          then update_state self (set_in_setup true)
                          else ret tt) = update_state self f).
    { unfold f. destruct (method_compact fun_); [done|].
      cbn [orb] in Hkind. by rewrite Hkind. }
    rewrite Hsame. by rewrite (bind_ok _ _ _ _ _ Hupd). }
  set (w2' := set_module_stack rest w2).
  assert (Hi2' : heap w2' !! self = Some i2) by done.
  destruct (method_compact fun_) eqn:Hc.
  - set (ss := ScopeStore (store_variables (scopes w2'))
                 (<[sc2 := ∅]> (store_reservations (scopes w2'))) (init_runs (scopes w2'))).
    set (wr := set_scopes ss w2').
    set (i3 := Instance (__class__ i2) (<["scope" := PyScope sc2]> (__dict__ i2))).
    set (ws := set_heap (<[self := i3]> (heap wr)) wr).
    set (i4 := Instance (__class__ i3) (<["_state" := PyState (reset st2)]> (__dict__ i3))).
    exists (set_heap (<[self := i4]> (heap ws)) ws).
    split; [|split; [done|split; [|split; [|split; [|done]]]]].
    + unfold wrapped_module_method. rewrite Hc.
      rewrite (bind_ok _ _ _ _ _ (getattr_own _ _ _ _ _ Hi Hsc)).
      cbv iota in Hentry |- *. rewrite (bind_seq_ok _ _ _ _ _ _ Hentry).
      unfold try_finally. rewrite Hbody.
      assert (Hcleanup :
        (stack_pop ;;
         (sc0 <- scope_of self ;; sc' <- scope_rewound sc0 ;;
          object_setattr self "scope" (PyScope sc')) ;;
         (if true || String.eqb (method_name fun_) "setup"
          then update_state self reset else ret tt))%py w2 =
        (Ok tt, set_heap (<[self := i4]> (heap ws)) ws)).
      { assert (Hpop : stack_pop w2 = (Ok tt, w2'))
          by (unfold stack_pop, bind, get_world; by rewrite Hstack).
        rewrite (bind_ok _ _ _ _ _ Hpop).
        assert (Hrew : (sc0 <- scope_of self ;; sc' <- scope_rewound sc0 ;;
                        object_setattr self "scope" (PyScope sc'))%py w2' = (Ok tt, ws)).
        { rewrite (bind_ok _ _ _ _ _ (scope_of_own _ _ _ _ Hi2' Hsc2)).
          unfold bind at 1. unfold scope_rewound. fold ss wr.
          by apply object_setattr_ok. }
        rewrite (bind_ok _ _ _ _ _ Hrew). cbn [orb].
        apply update_state_own; [by (unfold ws; rewrite heap_set_heap, lookup_insert_eq)|].
        unfold i3. cbn [__dict__]. by rewrite lookup_insert_ne. }
      by rewrite Hcleanup.
    + erewrite state_of_own; [done | by rewrite heap_set_heap, lookup_insert_eq |].
      unfold i4. cbn [__dict__]. by rewrite lookup_insert_eq.
    + erewrite getattr_own; [done | by rewrite heap_set_heap, lookup_insert_eq |].
      unfold i4, i3. cbn [__dict__]. rewrite lookup_insert_ne by done.
      by rewrite lookup_insert_eq.
    + intros _. unfold reservations. cbn. by rewrite lookup_insert_eq.
  - cbn [orb] in Hkind.
    set (i4 := Instance (__class__ i2) (<["_state" := PyState (reset st2)]> (__dict__ i2))).
    exists (set_heap (<[self := i4]> (heap w2')) w2').
    split; [|split; [done|split; [|split; [|split; [done|done]]]]].
    + unfold wrapped_module_method. rewrite Hc. rewrite Hkind in Hentry |- *.
      rewrite (bind_ok _ _ _ _ _ (getattr_own _ _ _ _ _ Hi Hsc)).
      cbv iota in Hentry |- *. rewrite (bind_seq_ok _ _ _ _ _ _ Hentry).
      unfold try_finally. rewrite Hbody.
      assert (Hcleanup :
        (stack_pop ;; (ret tt ;;
         (if false || true then update_state self reset else ret tt)))%py w2 =
        (Ok tt, set_heap (<[self := i4]> (heap w2')) w2')).
      { assert (Hpop : stack_pop w2 = (Ok tt, w2'))
          by (unfold stack_pop, bind, get_world; by rewrite Hstack).
        rewrite (bind_ok _ _ _ _ _ Hpop).
        unfold bind at 1. cbn [ret orb].
        by apply update_state_own. }
      by rewrite Hcleanup.
    + erewrite state_of_own; [done | by rewrite heap_set_heap, lookup_insert_eq |].
      unfold i4. cbn [__dict__]. by rewrite lookup_insert_eq.
    + erewrite getattr_own; [done | by rewrite heap_set_heap, lookup_insert_eq |].
      unfold i4. cbn [__dict__]. by rewrite lookup_insert_ne.
Qed.

(** ** Counting compact methods through inheritance *)

Lemma class_members_cons n f d ds x :
  class_members (PyClass n f (d :: ds)) !! x =
  match d !! x with
  | Some m => Some m
  | None => class_members (PyClass n f ds) !! x
  end.
Proof.
  unfold class_members. cbn [__mro__ union_list foldr].
  rewrite lookup_union. destruct (d !! x) as [m|].
  - by destruct ((⋃ ds) !! x).
  - by rewrite (left_id None _).
Qed.

(** Which methods count as compact for a class with base classes: a name
    the class defines counts exactly when its own definition is callable
    and marked compact, whatever the bases say; a name it does not define
    counts exactly when it counts for the rest of the MRO.  So a plain
    override takes an inherited compact method out of the count, and an
    inherited compact method that is not overridden stays in it. *)
Theorem compact_methods_follow_mro n f d ds x :
  x ∈ compact_methods (PyClass n f (d :: ds)) <->
  (exists m, d !! x = Some m /\ is_callable m = true /\ has_compact m = true) \/
  (d !! x = None /\ x ∈ compact_methods (PyClass n f ds)).
Proof.
  rewrite !compact_methods_spec. setoid_rewrite class_members_cons.
  destruct (d !! x) as [m|] eqn:Hd.
  - split.
    + intros (m' & Hm & Hcall & Hcompact). left. by exists m'.
    + intros [(m' & Hm & Hcall & Hcompact) | [Hnone _]]; [by exists m' | done].
  - split.
    + intros (m' & Hm & Hcall & Hcompact). right. split; [done|]. by exists m'.
    + intros [(m' & Hm & _) | [_ H]]; [done | exact H].
Qed.


(** ** Construction *)

Lemma setattr_parent l v w i :
  heap w !! l = Some i ->
  __setattr__ l "parent" v w =
  (Ok tt, set_heap (<[l := Instance (__class__ i) (<["parent" := v]> (__dict__ i))]> (heap w)) w).
Proof.
  intros Hi. unfold __setattr__.
  rewrite (bind_ok _ _ _ _ _ (instance_of_ok _ _ _ Hi)). cbn [String.eqb Ascii.eqb].
  unfold bind at 1. cbn -[object_setattr]. by apply object_setattr_ok.
Qed.

(** Lines 456-470 for a class that declares [_state] and [children] among
    its fields, the one kind of class whose constructor gets past line
    464: the instance gets a fresh lifecycle state and an empty [children],
    an unspecified parent is replaced by the top of the module stack, and
    the constructor goes on with the registration on the parent. *)
Lemma post_init_prefix setup c w ccls cd p :
  omnistaging_enabled w = true ->
  heap w !! c = Some (Instance ccls cd) ->
  "_state" ∈ __dataclass_fields__ ccls ->
  "children" ∈ __dataclass_fields__ ccls ->
  cd !! "parent" = Some (PyModule p) \/
    (cd !! "parent" = Some PyUnspecifiedParent /\
     exists rest, module_stack w = PyModule p :: rest) ->
  __post_init__ setup c w =
  (attached <- register_on_parent c p ;;
   if (attached : bool) then
     name <- (nm <- getattr c "name" ;; as_name nm) ;;
     psc <- scope_of p ;;
     sc <- scope_push psc name ;;
     __setattr__ c "scope" (PyScope sc) ;;
     setup c ;;
     ret tt
   else ret tt)%py
    (set_heap
       (<[c := Instance ccls
                 (<["parent" := PyModule p]>
                    (<["children" := PyDict []]>
                       (<["_state" := PyState new_state]> cd)))]> (heap w)) w).
Proof.
  intros Homni Hc Hf1 Hf2 Hparent.
  set (d1 := <["_state" := PyState new_state]> cd).
  set (d2 := <["children" := PyDict []]> d1).
  set (w1 := set_heap (<[c := Instance ccls d1]> (heap w)) w).
  set (w2 := set_heap (<[c := Instance ccls d2]> (heap w1)) w1).
  assert (Hc1 : heap w1 !! c = Some (Instance ccls d1)).
  { unfold w1. rewrite heap_set_heap. by rewrite lookup_insert_eq. }
  assert (Hc2 : heap w2 !! c = Some (Instance ccls d2)).
  { unfold w2. rewrite heap_set_heap. by rewrite lookup_insert_eq. }
  assert (Hd2 : d2 !! "parent" = cd !! "parent").
  { unfold d2, d1. by rewrite !lookup_insert_ne. }
  assert (Hw2 : w2 = set_heap (<[c := Instance ccls d2]> (heap w)) w).
  { unfold w2, w1. rewrite heap_set_heap, set_heap_set_heap. f_equal.
    apply insert_insert_eq. }
  unfold __post_init__.
  rewrite (bind_ok _ _ _ _ _ (check_omnistaging_ok _ Homni)).
  rewrite (bind_ok _ _ _ _ _ (setattr_field _ _ _ _ _ Hc Hf1)).
  cbn [__class__ __dict__]. fold d1. fold w1.
  rewrite (bind_ok _ _ _ _ _ (setattr_field _ _ _ _ _ Hc1 Hf2)).
  cbn [__class__ __dict__]. fold d2. fold w2.
  destruct Hparent as [Hpar | [Hpar [rest Hstack]]].
  - rewrite <- Hd2 in Hpar.
    rewrite (bind_ok _ _ _ _ _ (getattr_own _ _ _ _ _ Hc2 Hpar)).
    unfold bind at 1. cbn [ret].
    rewrite (bind_ok _ _ _ _ _ (getattr_own _ _ _ _ _ Hc2 Hpar)).
    rewrite (insert_id d2 "parent" (PyModule p) Hpar). by rewrite <- Hw2.
  - rewrite <- Hd2 in Hpar.
    rewrite (bind_ok _ _ _ _ _ (getattr_own _ _ _ _ _ Hc2 Hpar)).
    set (w3 := set_heap (<[c := Instance ccls (<["parent" := PyModule p]> d2)]> (heap w2)) w2).
    assert (Hset : (w0 <- get_world ;;
                    match module_stack w0 with
                    | top :: _ => __setattr__ c "parent" top
                    | [] => throw OtherException "list index out of range"
                    end)%py w2 = (Ok tt, w3)).
    { unfold bind at 1, get_world.
      replace (module_stack w2) with (PyModule p :: rest) by done.
      by rewrite (setattr_parent _ _ _ _ Hc2). }
    rewrite (bind_ok _ _ _ _ _ Hset).
    assert (Hc3 : heap w3 !! c = Some (Instance ccls (<["parent" := PyModule p]> d2))).
    { unfold w3. rewrite heap_set_heap. by rewrite lookup_insert_eq. }
    rewrite (bind_ok _ _ _ _ _ (getattr_own c "parent" w3 _ (PyModule p) Hc3
                                  ltac:(cbn [__dict__]; by rewrite lookup_insert_eq))).
    replace w3 with
      (set_heap (<[c := Instance ccls (<["parent" := PyModule p]> d2)]> (heap w)) w);
      [done|].
    unfold w3. rewrite Hw2. rewrite heap_set_heap, set_heap_set_heap. f_equal.
    symmetry. apply insert_insert_eq.
Qed.

(** Lines 478-481: under a parent that is in [setup] the registration of
    an unnamed submodule is put off. *)
Lemma register_deferred c p w ip pst ic :
  heap w !! p = Some ip ->
  __dict__ ip !! "_state" = Some (PyState pst) ->
  in_setup pst = true ->
  heap w !! c = Some ic ->
  __dict__ ic !! "name" = Some PyNone ->
  register_on_parent c p w = (Ok false, w).
Proof.
  intros Hp Hst Hsetup Hc Hname. unfold register_on_parent.
  rewrite (bind_ok _ _ _ _ _ (state_of_own _ _ _ _ Hp Hst)).
  rewrite (bind_ok _ _ _ _ _ (getattr_own _ _ _ _ _ Hc Hname)).
  by rewrite Hsetup.
Qed.

(** Lines 482-485: a parent that is neither in [setup] nor in a compact
    method takes no submodule, named or not. *)
Lemma register_idle c p w ip pst ic :
  heap w !! p = Some ip ->
  __dict__ ip !! "_state" = Some (PyState pst) ->
  in_setup pst = false -> in_compact_method pst = false ->
  heap w !! c = Some ic ->
  register_on_parent c p w =
  (Raise (raise_ ValueError
     "Submodules must be defined in `setup()` or in a method wrapped in `@compact`"), w).
Proof.
  intros Hp Hst Hsetup Hcompact Hc. unfold register_on_parent.
  rewrite (bind_ok _ _ _ _ _ (state_of_own _ _ _ _ Hp Hst)).
  assert (Hname : exists v, getattr c "name" w = (Ok v, w)).
  { unfold getattr. rewrite (bind_ok _ _ _ _ _ (instance_of_ok _ _ _ Hc)).
    unfold bind, get_world. destruct (__dict__ ic !! "name"); by eexists. }
  destruct Hname as [v Hname]. rewrite (bind_ok _ _ _ _ _ Hname).
  rewrite Hsetup. cbn [andb].
  rewrite (bind_ok _ _ _ _ _ (_initialization_allowed_own _ _ _ _ Hp Hst)).
  by rewrite Hsetup, Hcompact.
Qed.

(** A submodule class that declares [_state], [children] and [scope] among
    its dataclass fields is one whose constructor runs to the end.  Built
    without a name under a parent that is inside its compact method, with
    the parent given or taken from the module stack, an instance of class
    [C] gets the name [C_k], [k] being the counter the parent holds for
    [C]; the counter of [C] becomes [k + 1] and the counters of the other
    classes stay; the parent registers the instance under the name in
    [children]; the scope of the parent reserves the name and the instance
    is bound to the child scope of that name.  The constructor then calls
    [setup]. *)
Theorem constructor_autonames setup w p sc cur c ccls cd :
  omnistaging_enabled w = true ->
  compact_parent w p sc cur ->
  c <> p ->
  heap w !! c = Some (Instance ccls cd) ->
  cd !! "name" = Some PyNone ->
  cd !! "parent" = Some (PyModule p) \/
    (cd !! "parent" = Some PyUnspecifiedParent /\
     exists rest, module_stack w = PyModule p :: rest) ->
  "_state" ∈ __dataclass_fields__ ccls ->
  "children" ∈ __dataclass_fields__ ccls ->
  "scope" ∈ __dataclass_fields__ ccls ->
  "name" ∈ __dataclass_fields__ ccls ->
  free_name w p (__name__ ccls +:+ "_" +:+ pretty (default 0 (cur !! __name__ ccls))) ->
  exists w1,
    __post_init__ setup c w = (_ <- setup c ;; ret tt)%py w1 /\
    fst (getattr c "name" w1) =
      Ok (PyStr (__name__ ccls +:+ "_" +:+ pretty (default 0 (cur !! __name__ ccls)))) /\
    fst (getattr c "scope" w1) =
      Ok (PyScope (sc ++ [__name__ ccls +:+ "_" +:+
                          pretty (default 0 (cur !! __name__ ccls))])) /\
    fst (state_of c w1) = Ok new_state /\
    compact_parent w1 p sc
      (<[__name__ ccls := default 0 (cur !! __name__ ccls) + 1]> cur) /\
    (exists kids,
       fst (getattr p "children" w) = Ok (PyDict kids) /\
       fst (getattr p "children" w1) =
         Ok (PyDict (dict_set kids
               (__name__ ccls +:+ "_" +:+ pretty (default 0 (cur !! __name__ ccls)))
               (PyModule c)))) /\
    (__name__ ccls +:+ "_" +:+ pretty (default 0 (cur !! __name__ ccls)))
      ∈ reservations (scopes w1) sc /\
    (forall l, l <> c -> l <> p -> heap w1 !! l = heap w !! l).
Proof.
  intros Homni (ip & pst & kids & Hp & Hst & Hsetup & Hcompact & Hcur & Hsc & Hkids)
         Hne Hc Hname Hparent Hf1 Hf2 Hf3 Hf4 Hfree.
  destruct ip as [pcls pd]. cbn [__dict__] in *.
  set (nm := __name__ ccls +:+ "_" +:+ pretty (default 0 (cur !! __name__ ccls))) in *.
  set (cur' := <[__name__ ccls := default 0 (cur !! __name__ ccls) + 1]> cur).
  set (da := <["parent" := PyModule p]>
               (<["children" := PyDict []]> (<["_state" := PyState new_state]> cd))).
  set (wa := set_heap (<[c := Instance ccls da]> (heap w)) w).
  set (dn := <["name" := PyStr nm]> da).
  set (pd3 := <["children" := PyDict (dict_set kids nm (PyModule c))]>
                (<["_state" := PyState (set_autoname_cursor (Some cur') pst)]> pd)).
  set (wb := set_heap (<[p := Instance pcls pd3]>
                         (<[c := Instance ccls dn]> (heap wa))) wa).
  set (wsc := set_scopes (reserve sc nm (scopes wb)) wb).
  set (dfin := <["scope" := PyScope (sc ++ [nm])]> dn).
  set (w1 := set_heap (<[c := Instance ccls dfin]> (heap wsc)) wsc).
  assert (Hpa : heap wa !! p = Some (Instance pcls pd)).
  { unfold wa. rewrite heap_set_heap. by rewrite lookup_insert_ne. }
  assert (Hca : heap wa !! c = Some (Instance ccls da)).
  { unfold wa. rewrite heap_set_heap. by rewrite lookup_insert_eq. }
  assert (Hnamea : da !! "name" = Some PyNone).
  { unfold da. by rewrite !lookup_insert_ne. }
  assert (Hfreea : free_name wa p nm).
  { unfold free_name in *. rewrite <- Hfree. apply _name_taken_frame; [|done].
    by rewrite Hpa. }
  assert (Hreg : register_on_parent c p wa = (Ok true, wb)).
  { exact (register_step wa p c pcls pd ccls da pst sc cur kids
             Hpa Hst Hsetup Hcompact Hcur Hsc Hkids Hne Hca Hnamea Hf4 Hfreea). }
  assert (Hcb : heap wb !! c = Some (Instance ccls dn)).
  { unfold wb. rewrite heap_set_heap. rewrite lookup_insert_ne by done.
    by rewrite lookup_insert_eq. }
  assert (Hpb : heap wb !! p = Some (Instance pcls pd3)).
  { unfold wb. rewrite heap_set_heap. by rewrite lookup_insert_eq. }
  assert (Hsc3 : pd3 !! "scope" = Some (PyScope sc)).
  { unfold pd3. by rewrite !lookup_insert_ne. }
  assert (Hc1 : heap w1 !! c = Some (Instance ccls dfin)).
  { unfold w1. rewrite heap_set_heap. by rewrite lookup_insert_eq. }
  assert (Hp1 : heap w1 !! p = Some (Instance pcls pd3)).
  { unfold w1. rewrite heap_set_heap. rewrite lookup_insert_ne by done. exact Hpb. }
  exists w1. split; [|split; [|split; [|split; [|split; [|split; [|split]]]]]].
  - rewrite (post_init_prefix setup c w ccls cd p Homni Hc Hf1 Hf2 Hparent).
    fold da wa.
    rewrite (bind_ok _ _ _ _ _ Hreg).
    assert (Hnm : (nm0 <- getattr c "name" ;; as_name nm0)%py wb = (Ok nm, wb)).
    { rewrite (bind_ok _ _ _ _ _ (getattr_own c "name" wb _ (PyStr nm) Hcb
                 ltac:(unfold dn; cbn [__dict__]; by rewrite lookup_insert_eq))).
      done. }
    rewrite (bind_ok _ _ _ _ _ Hnm).
    rewrite (bind_ok _ _ _ _ _ (scope_of_own _ _ _ _ Hpb Hsc3)).
    assert (Hpush : scope_push sc nm wb = (Ok (sc ++ [nm]), wsc)) by done.
    rewrite (bind_ok _ _ _ _ _ Hpush).
    assert (Hcsc : heap wsc !! c = Some (Instance ccls dn)) by exact Hcb.
    by rewrite (bind_ok _ _ _ _ _ (setattr_field _ _ _ _ _ Hcsc Hf3)).
  - rewrite (getattr_own c "name" w1 _ (PyStr nm) Hc1); [done|].
    unfold dfin, dn. cbn [__dict__]. rewrite lookup_insert_ne by done.
    by rewrite lookup_insert_eq.
  - rewrite (getattr_own c "scope" w1 _ (PyScope (sc ++ [nm])) Hc1); [done|].
    unfold dfin. cbn [__dict__]. by rewrite lookup_insert_eq.
  - rewrite (state_of_own c w1 _ new_state Hc1); [done|].
    unfold dfin, dn, da. cbn [__dict__]. rewrite !lookup_insert_ne by done.
    by rewrite lookup_insert_eq.
  - exists (Instance pcls pd3), (set_autoname_cursor (Some cur') pst),
      (dict_set kids nm (PyModule c)).
    cbn [__dict__]. split; [exact Hp1|]. split.
    { unfold pd3. rewrite lookup_insert_ne by done. by rewrite lookup_insert_eq. }
    split; [done|]. split; [done|]. split; [done|]. split; [exact Hsc3|].
    unfold pd3. by rewrite lookup_insert_eq.
  - exists kids. split.
    + by rewrite (getattr_own p "children" w _ _ Hp Hkids).
    + rewrite (getattr_own p "children" w1 _ (PyDict (dict_set kids nm (PyModule c))) Hp1);
        [done|].
      unfold pd3. cbn [__dict__]. by rewrite lookup_insert_eq.
  - unfold reservations, w1, wsc, reserve. cbn. rewrite lookup_insert_eq. cbn.
    apply elem_of_union. left. by apply elem_of_singleton.
  - intros l Hlc Hlp. unfold w1, wsc, wb, wa. cbn. by rewrite !lookup_insert_ne.
Qed.

(** By design (the comment at lines 478-480), a submodule built without a
    name while its parent is in [setup] is not named by the constructor:
    for a class whose constructor gets past line 464, [__post_init__]
    returns after giving the instance its lifecycle state, an empty
    [children] and its parent; the name stays [None], the instance stays
    unbound, nothing is registered on the parent or reserved in a scope,
    and [setup] is not called. *)
Theorem constructor_defers_in_setup setup w p ip pst c ccls cd :
  omnistaging_enabled w = true ->
  heap w !! p = Some ip ->
  __dict__ ip !! "_state" = Some (PyState pst) ->
  in_setup pst = true ->
  c <> p ->
  heap w !! c = Some (Instance ccls cd) ->
  cd !! "name" = Some PyNone ->
  cd !! "parent" = Some (PyModule p) \/
    (cd !! "parent" = Some PyUnspecifiedParent /\
     exists rest, module_stack w = PyModule p :: rest) ->
  "_state" ∈ __dataclass_fields__ ccls ->
  "children" ∈ __dataclass_fields__ ccls ->
  exists w1,
    __post_init__ setup c w = (Ok tt, w1) /\
    fst (getattr c "name" w1) = Ok PyNone /\
    fst (getattr c "scope" w1) = fst (getattr c "scope" w) /\
    fst (getattr c "parent" w1) = Ok (PyModule p) /\
    (forall l, l <> c -> heap w1 !! l = heap w !! l) /\
    scopes w1 = scopes w /\ module_stack w1 = module_stack w.
Proof.
  intros Homni Hp Hst Hsetup Hne Hc Hname Hparent Hf1 Hf2.
  set (da := <["parent" := PyModule p]>
               (<["children" := PyDict []]> (<["_state" := PyState new_state]> cd))).
  set (wa := set_heap (<[c := Instance ccls da]> (heap w)) w).
  assert (Hpa : heap wa !! p = Some ip).
  { unfold wa. rewrite heap_set_heap. by rewrite lookup_insert_ne. }
  assert (Hca : heap wa !! c = Some (Instance ccls da)).
  { unfold wa. rewrite heap_set_heap. by rewrite lookup_insert_eq. }
  assert (Hnamea : da !! "name" = Some PyNone).
  { unfold da. by rewrite !lookup_insert_ne. }
  exists wa. split; [|split; [|split; [|split; [|split; [|done]]]]].
  - rewrite (post_init_prefix setup c w ccls cd p Homni Hc Hf1 Hf2 Hparent).
    fold da wa.
    by rewrite (bind_ok _ _ _ _ _ (register_deferred _ _ _ _ _ _ Hpa Hst Hsetup Hca Hnamea)).
  - by rewrite (getattr_own c "name" wa _ _ Hca Hnamea).
  - unfold getattr. rewrite (bind_ok _ _ _ _ _ (instance_of_ok _ _ _ Hca)).
    rewrite (bind_ok _ _ _ _ _ (instance_of_ok _ _ _ Hc)).
    unfold bind, get_world. cbn [__dict__]. unfold da. rewrite !lookup_insert_ne by done.
    by destruct (cd !! "scope").
  - rewrite (getattr_own c "parent" wa _ (PyModule p) Hca); [done|].
    unfold da. cbn [__dict__]. by rewrite lookup_insert_eq.
  - intros l Hl. unfold wa. rewrite heap_set_heap. by rewrite lookup_insert_ne.
Qed.

(** A submodule built under a parent that is neither in [setup] nor in a
    compact method: for a class whose constructor gets past line 464 the
    construction fails with the [ValueError] of line 483, named or not;
    the parent, every other object and the scopes are left as they were. *)
Theorem constructor_rejects_idle_parent setup w p ip pst c ccls cd :
  omnistaging_enabled w = true ->
  heap w !! p = Some ip ->
  __dict__ ip !! "_state" = Some (PyState pst) ->
  in_setup pst = false -> in_compact_method pst = false ->
  c <> p ->
  heap w !! c = Some (Instance ccls cd) ->
  cd !! "parent" = Some (PyModule p) \/
    (cd !! "parent" = Some PyUnspecifiedParent /\
     exists rest, module_stack w = PyModule p :: rest) ->
  "_state" ∈ __dataclass_fields__ ccls ->
  "children" ∈ __dataclass_fields__ ccls ->
  exists w1,
    __post_init__ setup c w =
      (Raise (raise_ ValueError
         "Submodules must be defined in `setup()` or in a method wrapped in `@compact`"),
       w1) /\
    fst (getattr c "name" w1) = fst (getattr c "name" w) /\
    (forall l, l <> c -> heap w1 !! l = heap w !! l) /\
    scopes w1 = scopes w.
Proof.
  intros Homni Hp Hst Hsetup Hcompact Hne Hc Hparent Hf1 Hf2.
  set (da := <["parent" := PyModule p]>
               (<["children" := PyDict []]> (<["_state" := PyState new_state]> cd))).
  set (wa := set_heap (<[c := Instance ccls da]> (heap w)) w).
  assert (Hpa : heap wa !! p = Some ip).
  { unfold wa. rewrite heap_set_heap. by rewrite lookup_insert_ne. }
  assert (Hca : heap wa !! c = Some (Instance ccls da)).
  { unfold wa. rewrite heap_set_heap. by rewrite lookup_insert_eq. }
  exists wa. split; [|split; [|split; [|done]]].
  - rewrite (post_init_prefix setup c w ccls cd p Homni Hc Hf1 Hf2 Hparent).
    fold da wa. unfold bind at 1.
    by rewrite (register_idle _ _ _ _ _ _ Hpa Hst Hsetup Hcompact Hca).
  - unfold getattr. rewrite (bind_ok _ _ _ _ _ (instance_of_ok _ _ _ Hca)).
    rewrite (bind_ok _ _ _ _ _ (instance_of_ok _ _ _ Hc)).
    unfold bind, get_world. cbn [__dict__]. unfold da. rewrite !lookup_insert_ne by done.
    by destruct (cd !! "name").
  - intros l Hl. unfold wa. rewrite heap_set_heap. by rewrite lookup_insert_ne.
Qed.

(** When the automatic name of an unnamed submodule is already taken on
    the parent (reserved in its scope, or an attribute or method name of
    the parent), the construction fails with [ValueError], but not before
    the name was assigned to the submodule and the counter of its class
    was advanced on the parent: the next unnamed submodule of the class
    gets the next number.  Nothing is registered under [children]. *)
Theorem constructor_collision_consumes_counter setup w p sc cur c ccls cd :
  omnistaging_enabled w = true ->
  compact_parent w p sc cur ->
  c <> p ->
  heap w !! c = Some (Instance ccls cd) ->
  cd !! "name" = Some PyNone ->
  cd !! "parent" = Some (PyModule p) \/
    (cd !! "parent" = Some PyUnspecifiedParent /\
     exists rest, module_stack w = PyModule p :: rest) ->
  "_state" ∈ __dataclass_fields__ ccls ->
  "children" ∈ __dataclass_fields__ ccls ->
  "name" ∈ __dataclass_fields__ ccls ->
  fst (_name_taken p (__name__ ccls +:+ "_" +:+ pretty (default 0 (cur !! __name__ ccls))) w)
    = Ok true ->
  exists msg w1,
    __post_init__ setup c w = (Raise (raise_ ValueError msg), w1) /\
    fst (getattr c "name" w1) =
      Ok (PyStr (__name__ ccls +:+ "_" +:+ pretty (default 0 (cur !! __name__ ccls)))) /\
    compact_parent w1 p sc
      (<[__name__ ccls := default 0 (cur !! __name__ ccls) + 1]> cur) /\
    fst (getattr p "children" w1) = fst (getattr p "children" w) /\
    scopes w1 = scopes w.
Proof.
  intros Homni (ip & pst & kids & Hp & Hst & Hsetup & Hcompact & Hcur & Hsc & Hkids)
         Hne Hc Hname Hparent Hf1 Hf2 Hf4 Htaken.
  destruct ip as [pcls pd]. cbn [__dict__] in *.
  set (nm := __name__ ccls +:+ "_" +:+ pretty (default 0 (cur !! __name__ ccls))) in *.
  set (cur' := <[__name__ ccls := default 0 (cur !! __name__ ccls) + 1]> cur).
  set (da := <["parent" := PyModule p]>
               (<["children" := PyDict []]> (<["_state" := PyState new_state]> cd))).
  set (wa := set_heap (<[c := Instance ccls da]> (heap w)) w).
  set (pd2 := <["_state" := PyState (set_autoname_cursor (Some cur') pst)]> pd).
  set (wb := set_heap (<[p := Instance pcls pd2]>
                         (<[c := Instance ccls (<["name" := PyStr nm]> da)]> (heap wa))) wa).
  assert (Hpa : heap wa !! p = Some (Instance pcls pd)).
  { unfold wa. rewrite heap_set_heap. by rewrite lookup_insert_ne. }
  assert (Hca : heap wa !! c = Some (Instance ccls da)).
  { unfold wa. rewrite heap_set_heap. by rewrite lookup_insert_eq. }
  assert (Hnamea : da !! "name" = Some PyNone).
  { unfold da. by rewrite !lookup_insert_ne. }
  assert (Htakena : fst (_name_taken p nm wa) = Ok true).
  { rewrite <- Htaken. apply _name_taken_frame; [|done]. by rewrite Hpa. }
  destruct (register_collision wa p c pcls pd ccls da pst sc cur
              Hpa Hst Hsetup Hcompact Hcur Hsc Hne Hca Hnamea Hf4 Htakena)
    as [msg Hreg].
  fold nm cur' pd2 wb in Hreg.
  assert (Hcb : heap wb !! c = Some (Instance ccls (<["name" := PyStr nm]> da))).
  { unfold wb. rewrite heap_set_heap. rewrite lookup_insert_ne by done.
    by rewrite lookup_insert_eq. }
  assert (Hpb : heap wb !! p = Some (Instance pcls pd2)).
  { unfold wb. rewrite heap_set_heap. by rewrite lookup_insert_eq. }
  exists msg, wb. split; [|split; [|split; [|split; [|done]]]].
  - rewrite (post_init_prefix setup c w ccls cd p Homni Hc Hf1 Hf2 Hparent).
    fold da wa. unfold bind at 1. by rewrite Hreg.
  - rewrite (getattr_own c "name" wb _ (PyStr nm) Hcb); [done|].
    cbn [__dict__]. by rewrite lookup_insert_eq.
  - exists (Instance pcls pd2), (set_autoname_cursor (Some cur') pst), kids.
    cbn [__dict__]. split; [exact Hpb|]. split.
    { unfold pd2. by rewrite lookup_insert_eq. }
    split; [done|]. split; [done|]. split; [done|].
    unfold pd2. by rewrite !lookup_insert_ne.
  - rewrite (getattr_own p "children" wb _ (PyDict kids) Hpb).
    + by rewrite (getattr_own p "children" w _ _ Hp Hkids).
    + unfold pd2. cbn [__dict__]. by rewrite lookup_insert_ne.
Qed.

End LinenMore.

Section LinenMoreScenarios.
Import Py Linen.
Local Open Scope py_scope.

Ltac by_eval := apply (bool_decide_unpack _); vm_compute; exact I.

Lemma declaration_with_taken_name_rejected_witness :
  (exists msg, variable 0%nat "batch_stats" "setup" zeros [] compact_world =
               (Raise (raise_ ValueError msg), compact_world)) /\
  (exists msg, param 0%nat "setup" zeros [] compact_world =
               (Raise (raise_ ValueError msg), compact_world)).
Proof.
  apply (declaration_with_taken_name_rejected 0%nat "batch_stats" "setup" zeros []
           compact_world (Instance mlp_class (bound_dict in_compact_state))
           in_compact_state []).
  - vm_compute. reflexivity.
  - vm_compute. reflexivity.
  - reflexivity.
  - vm_compute. reflexivity.
  - right. right. exists {[ "setup" := Member true false ]}. split; [|by_eval].
    apply elem_of_cons. right. apply elem_of_cons. by left.
Defined.

Lemma param_declares_witness :
  exists w1,
    update_state 0%nat (set_last_varname (Some "kernel")) compact_world = (Ok tt, w1) /\
    forall r w2, scope_param [] "kernel" zeros [] w1 = (r, w2) ->
      match r with
      | Raise e => param 0%nat "kernel" zeros [] compact_world = (Raise e, w2)
      | Ok v =>
          exists w3,
            param 0%nat "kernel" zeros [] compact_world = (Ok v, w3) /\
            scopes w3 = scopes w2 /\
            fst (getattr 0%nat "children" w3) =
              Ok (PyDict (dict_set [] "kernel" (PyStr "params"))) /\
            fst (state_of 0%nat w3) =
              Ok (set_last_varname (Some "kernel") in_compact_state)
      end.
Proof.
  apply (param_declares 0%nat "kernel" zeros [] compact_world
           (Instance mlp_class (bound_dict in_compact_state)) in_compact_state [] []).
  - vm_compute. reflexivity.
  - vm_compute. reflexivity.
  - reflexivity.
  - vm_compute. reflexivity.
  - vm_compute. reflexivity.
  - vm_compute. reflexivity.
Defined.

Lemma wrapped_method_restores_lifecycle_witness :
  exists w3,
    wrapped_module_method compact_call 0%nat [] idle_world = (Ok (PyArray 0), w3) /\
    module_stack w3 = [PyModule 0%nat; PyNone] /\
    fst (state_of 0%nat w3) = Ok new_state /\
    fst (getattr 0%nat "scope" w3) = Ok (PyScope []) /\
    reservations (scopes w3) [] = ∅.
Proof.
  edestruct wrapped_method_restores_lifecycle
    with (fun_ := compact_call) (self := 0%nat) (args := @nil pyval) (w := idle_world)
         (i := Instance mlp_class (bound_dict new_state)) (st := new_state)
         (sc := @nil string) (r := Ok (PyArray 0)) (top := PyModule 0%nat)
         (rest := [PyModule 0%nat; PyNone]) (sc2 := @nil string)
    as (_ & _ & w3 & Hcall & Hstack & Hstate & Hscope & Hres & _).
  - vm_compute. reflexivity.
  - vm_compute. reflexivity.
  - vm_compute. reflexivity.
  - reflexivity.
  - vm_compute. reflexivity.
  - vm_compute. reflexivity.
  - vm_compute. reflexivity.
  - vm_compute. reflexivity.
  - vm_compute. reflexivity.
  - vm_compute. reflexivity.
  - exists w3. split; [exact Hcall|]. split; [exact Hstack|].
    split; [exact Hstate|]. split; [exact Hscope | exact (Hres eq_refl)].
Defined.

Lemma stateful_compact_parent : compact_parent (stateful_world in_compact_state) 0%nat [] ∅.
Proof.
  exists (Instance mlp_class (bound_dict in_compact_state)), in_compact_state, [].
  repeat split; vm_compute; reflexivity.
Defined.

Lemma crowded_compact_parent : compact_parent crowded_world 0%nat [] ∅.
Proof.
  exists (Instance mlp_class (bound_dict in_compact_state)), in_compact_state, [].
  repeat split; vm_compute; reflexivity.
Defined.

Lemma constructor_autonames_witness :
  exists w1,
    __post_init__ (fun _ => ret PyNone) 1%nat (stateful_world in_compact_state) =
      (Ok tt, w1) /\
    fst (getattr 1%nat "name" w1) = Ok (PyStr "Dense_0") /\
    fst (getattr 1%nat "scope" w1) = Ok (PyScope ["Dense_0"]) /\
    compact_parent w1 0%nat [] {[ "Dense" := 1 ]} /\
    fst (getattr 0%nat "children" w1) = Ok (PyDict [("Dense_0", PyModule 1%nat)]).
Proof.
  destruct (constructor_autonames (fun _ => ret PyNone) (stateful_world in_compact_state)
              0%nat [] ∅ 1%nat stateful_dense stateful_child_dict)
    as (w1 & Hpost & Hname & Hscope & _ & Hparent & (kids & Hkids & Hkids1) & _).
  - reflexivity.
  - exact stateful_compact_parent.
  - discriminate.
  - vm_compute. reflexivity.
  - vm_compute. reflexivity.
  - right. split; [vm_compute; reflexivity|]. by exists [PyNone].
  - by_eval.
  - by_eval.
  - by_eval.
  - by_eval.
  - vm_compute. reflexivity.
  - exists w1. split; [exact Hpost|]. split; [exact Hname|]. split; [exact Hscope|].
    split; [exact Hparent|].
    assert (Hk : kids = []) by (vm_compute in Hkids; by injection Hkids).
    rewrite Hk in Hkids1. exact Hkids1.
Defined.

Lemma constructor_defers_in_setup_witness :
  exists w1,
    __post_init__ (fun _ => ret PyNone) 1%nat (stateful_world in_setup_state) =
      (Ok tt, w1) /\
    fst (getattr 1%nat "name" w1) = Ok PyNone /\
    fst (getattr 1%nat "scope" w1) = Ok PyNone /\
    heap w1 !! 0%nat = heap (stateful_world in_setup_state) !! 0%nat.
Proof.
  destruct (constructor_defers_in_setup (fun _ => ret PyNone)
              (stateful_world in_setup_state) 0%nat
              (Instance mlp_class (bound_dict in_setup_state)) in_setup_state
              1%nat stateful_dense stateful_child_dict)
    as (w1 & Hpost & Hname & Hscope & _ & Hframe & _).
  - reflexivity.
  - vm_compute. reflexivity.
  - vm_compute. reflexivity.
  - reflexivity.
  - discriminate.
  - vm_compute. reflexivity.
  - vm_compute. reflexivity.
  - right. split; [vm_compute; reflexivity|]. by exists [PyNone].
  - by_eval.
  - by_eval.
  - exists w1. split; [exact Hpost|]. split; [exact Hname|].
    split; [exact Hscope|]. apply Hframe. discriminate.
Defined.

Lemma constructor_rejects_idle_parent_witness :
  exists w1,
    __post_init__ (fun _ => ret PyNone) 1%nat (stateful_world new_state) =
      (Raise (raise_ ValueError
         "Submodules must be defined in `setup()` or in a method wrapped in `@compact`"),
       w1) /\
    heap w1 !! 0%nat = heap (stateful_world new_state) !! 0%nat.
Proof.
  destruct (constructor_rejects_idle_parent (fun _ => ret PyNone)
              (stateful_world new_state) 0%nat
              (Instance mlp_class (bound_dict new_state)) new_state
              1%nat stateful_dense stateful_child_dict)
    as (w1 & Hpost & _ & Hframe & _).
  - reflexivity.
  - vm_compute. reflexivity.
  - vm_compute. reflexivity.
  - reflexivity.
  - reflexivity.
  - discriminate.
  - vm_compute. reflexivity.
  - right. split; [vm_compute; reflexivity|]. by exists [PyNone].
  - by_eval.
  - by_eval.
  - exists w1. split; [exact Hpost|]. apply Hframe. discriminate.
Defined.

Lemma constructor_collision_consumes_counter_witness :
  exists msg w1,
    __post_init__ (fun _ => ret PyNone) 1%nat crowded_world =
      (Raise (raise_ ValueError msg), w1) /\
    fst (getattr 1%nat "name" w1) = Ok (PyStr "Dense_0") /\
    compact_parent w1 0%nat [] {[ "Dense" := 1 ]}.
Proof.
  destruct (constructor_collision_consumes_counter (fun _ => ret PyNone) crowded_world
              0%nat [] ∅ 1%nat stateful_dense stateful_child_dict)
    as (msg & w1 & Hpost & Hname & Hparent & _).
  - reflexivity.
  - exact crowded_compact_parent.
  - discriminate.
  - vm_compute. reflexivity.
  - vm_compute. reflexivity.
  - right. split; [vm_compute; reflexivity|]. by exists [PyNone].
  - by_eval.
  - by_eval.
  - by_eval.
  - vm_compute. reflexivity.
  - exists msg, w1. split; [exact Hpost|]. split; [exact Hname | exact Hparent].
Defined.

End LinenMoreScenarios.
